(** * Notiphy widget: state synchronisation and presentation engine

    A shallow embedding of [src/components/widget.js] (class
    [NotiphyWidget]) and the properties its specification states about it.

    The widget is a single JavaScript object driven by the browser's event
    loop.  Its methods are embedded as functions over an explicit [World]:
    the two browser storages, the fields of [this], the part of the DOM
    the methods read back (the inbox entries, the two counters, the
    connection indicator, the toaster, the blocker modal) and the
    environment the methods act on (timers, REST requests, console,
    realtime socket).  A method that awaits a network call is split at the
    suspension point into the part that issues the request and the
    continuation that runs on the response.  JavaScript exceptions are
    explicit: a computation completes normally or throws, and the state
    changes made before a throw persist.

    What the embedding leaves out or fixes:
    - presentation-only attributes (glyphs, colours, animation classes,
      scroll position, the icon badge that mirrors the unread counter);
    - the JSON text of the storages: a stored value is the object the
      widget wrote, so [JSON.parse] does not fail;
    - the text of the counters: they only ever hold the integers the
      widget writes, so [parseInt] is the identity on them;
    - one widget per page, and ids whose text needs no escaping in a CSS
      attribute selector. *)

From stdpp Require Import gmap strings list fin_maps pretty.

(** * Data model *)

(** A notification id is whatever JSON value the server sends: a string,
    or a number (the locally synthesised error notification uses the
    number [0]).  [===], [!==] and [Map] keys compare such values without
    conversion, so a number never equals a string. *)
Inductive JsId :=
  | IdNum (z : Z)
  | IdStr (s : string).

#[global] Instance JsId_eq_dec : EqDecision JsId.
Proof. solve_decision. Defined.

#[global] Instance JsId_countable : Countable JsId.
Proof.
  refine (inj_countable'
            (λ i, match i with IdNum z => inl z | IdStr s => inr s end)
            (λ x, match x with inl z => IdNum z | inr s => IdStr s end) _).
  by intros [].
Defined.

(** [`${id}`]: the text a template literal (and so the
    [data-notification-id] attribute and a CSS attribute selector) gets
    for an id. *)
Definition id_text (i : JsId) : string :=
  match i with
  | IdNum z => pretty z
  | IdStr s => s
  end.

(** The fields of a notification object the widget reads.  [read] and
    [dismissed] are the truthiness of the JSON properties of those names;
    [alertLevel] is [None] when the property is unset. *)
Record Notification := {
  nid : JsId;
  title : string;
  text : string;
  alertLevel : option string;
  read : bool;
  dismissed : bool;
  actionUrl : option string;
  _ts : Z
}.

#[global] Instance Notification_eq_dec : EqDecision Notification.
Proof. solve_decision. Defined.

(** The effective configuration, [this.config]. *)
Record Config := {
  serviceUrl : string;
  subscriberId : option string;
  widgetKey : option string;
  locationId : string;
  widgetTitle : string;
  audioAlert : bool;
  audioReminder : bool;
  reminderInterval : Z;
  toastAlert : bool;
  toastPosition : string;
  toastDuration : Z;
  width : string;
  height : string;
  showInboxOnLoad : bool;
  refreshInterval : Z;
  branded : bool;
  compact : bool;
  targetElement : option string
}.

#[global] Instance Config_eq_dec : EqDecision Config.
Proof. solve_decision. Defined.

(** The object the embedding page passes to [new NotiphyWidget(config)]:
    every property may be left out ([None]).  For the two required
    fields [None] also stands for an explicit [null]. *)
Record CallerConfig := {
  c_serviceUrl : option string;
  c_subscriberId : option string;
  c_widgetKey : option string;
  c_locationId : option string;
  c_widgetTitle : option string;
  c_audioAlert : option bool;
  c_audioReminder : option bool;
  c_reminderInterval : option Z;
  c_toastAlert : option bool;
  c_toastPosition : option string;
  c_toastDuration : option Z;
  c_width : option string;
  c_height : option string;
  c_showInboxOnLoad : option bool;
  c_refreshInterval : option Z;
  c_branded : option bool;
  c_compact : option bool;
  c_targetElement : option string
}.

(** JavaScript truthiness of an optional string ([null], [undefined] and
    the empty string are falsy) and of a number. *)
Definition truthy_str (s : option string) : bool :=
  match s with
  | Some s => negb (bool_decide (s = ""))
  | None => false
  end.

Definition truthy_num (z : Z) : bool := negb (bool_decide (z = 0%Z)).

(** ** Browser storage *)

(** [localStorage] holds the settings blob and the last-fetched
    watermark; [sessionStorage] holds the notification cache.  A value is
    kept as the object its JSON text parses to; [None] is a missing key. *)
Record Storage := {
  notiphySettings : option Config;
  notiphyWidgetLastFetched : option Z;
  notiphyWidgetNotifications : option (list Notification)
}.

(** ** The widget instance *)

(** The realtime socket as the widget observes it: [socket.connected]
    is true in [SockConnected] only. *)
Inductive SockState := SockClosed | SockConnecting | SockConnected.

#[global] Instance SockState_eq_dec : EqDecision SockState.
Proof. solve_decision. Defined.

(** [initialConfig] is read by the constructor only; that [config] may
    be the very same object (no persisted settings) plays no role in
    the methods embedded here. *)
Record Widget := {
  initialConfig : Config;
  config : Config;
  notifications : list Notification;
  socket : option SockState;
  notificationsLoaded : bool;
  reminderIntervalId : option nat
}.

(** ** The document *)

(** An entry of the inbox, built by [assembleNotification]: [node] is the
    identity of the element, [shown] the notification it renders,
    [btn_open] the class [open] of its mark-read button and [el_read] the
    class [notiphy-read] of the element. *)
Record Elem := {
  node : nat;
  shown : Notification;
  btn_open : bool;
  el_read : bool
}.

(** A toast, built by [assembleToast]: it carries the class
    [notiphy-notification-element] and a dismiss button with the
    [data-notification-id] attribute, but no mark-read button. *)
Record Toast := {
  t_node : nat;
  t_shown : Notification
}.

Inductive DomStage :=
  | NotCreated      (* createDomElements has not run *)
  | ScriptOnly      (* script tag and toaster appended, icon and inbox missing *)
  | Rendered.       (* icon, toaster, inbox and modal are in the document *)

#[global] Instance DomStage_eq_dec : EqDecision DomStage.
Proof. solve_decision. Defined.

Record Dom := {
  stage : DomStage;
  centerBody : list Elem;          (* .notiphy-notification-center-body, top first *)
  toaster : list Toast;            (* .notiphy-toaster, newest first *)
  detached : list Elem;            (* removed entries still held by callbacks *)
  statsUnread : Z;                 (* .notiphy-notification-center-stats-unread *)
  statsTotal : Z;                  (* .notiphy-notification-center-stats-total *)
  connectionStatus : string;       (* text and title of the indicator *)
  statusConnected : bool;          (* class "connected" of the indicator *)
  reminderButton : bool;           (* class "notiphy-enabled" of the reminder button *)
  centerOpen : bool;               (* class "open" of the inbox *)
  blockerModal : option (string * string)   (* title and text while displayed *)
}.

(** ** The environment *)

Inductive Callback :=
  | CbFetchNotifications
  | CbPlayReminderSound
  | CbAddToNotiphyCenter (n : Notification)
  | CbShowToast (toast : nat) (remaining : Z)
  | CbUpdateFooter (entry : nat)
  | CbHideCenter.

Inductive Timer :=
  | Interval (ms : Z) (cb : Callback)
  | Timeout (ms : Z) (cb : Callback).

Inductive Request :=
  | GetNotifications (subscriber : option string) (location : string) (lastFetched : Z)
  | PostMarkRead (notificationId : JsId)
  | PostDismiss (notificationId : JsId).

Inductive JsError :=
  | TypeError (what : string)
  | Error (what : string).

Inductive LogEntry :=
  | LogInfo (msg : string)
  | LogWarn (msg : string)
  | LogError (msg : string)
  | LogCaught (msg : string) (e : JsError).

Inductive Sound :=
  | clickOff | clickOn | crumple | ding | dismiss | notifications_waiting
  | phoneVibrate | ping | pop | start | whoosh.

Inductive SocketCall :=
  | Emit (event : string) (arg : string)
  | EmitId (event : string) (notificationId : JsId)
  | Connect
  | Disconnect.

Record Env := {
  timers : list (nat * Timer);     (* live timers by id *)
  nextTimer : nat;
  nextNode : nat;
  requests : list Request;         (* REST calls issued, oldest first *)
  suspended : list (list Notification);  (* cached lists held by awaiting fetchNotifications calls *)
  console : list LogEntry;
  socketCalls : list SocketCall;
  played : list Sound;
  now : Z;                         (* Date.now(), milliseconds *)
  targetFound : bool               (* document.querySelector(targetElement) finds a node *)
}.

Record World := {
  storage : Storage;
  this : Widget;
  dom : Dom;
  env : Env
}.

(** ** Field updates

    [set_f v w] is the assignment [f = v] on the world [w]; the other
    fields are kept. *)

Definition with_storage (f : _ → _) (w : World) : World :=
  {| storage := f (storage w); this := this w; dom := dom w; env := env w |}.

Definition with_this (f : _ → _) (w : World) : World :=
  {| storage := storage w; this := f (this w); dom := dom w; env := env w |}.

Definition with_dom (f : _ → _) (w : World) : World :=
  {| storage := storage w; this := this w; dom := f (dom w); env := env w |}.

Definition with_env (f : _ → _) (w : World) : World :=
  {| storage := storage w; this := this w; dom := dom w; env := f (env w) |}.

Definition set_notiphySettings v : World → World :=
  with_storage (λ r, {| notiphySettings := v;
          notiphyWidgetLastFetched := notiphyWidgetLastFetched r;
          notiphyWidgetNotifications := notiphyWidgetNotifications r |}).

Definition set_notiphyWidgetLastFetched v : World → World :=
  with_storage (λ r, {| notiphySettings := notiphySettings r;
          notiphyWidgetLastFetched := v;
          notiphyWidgetNotifications := notiphyWidgetNotifications r |}).

Definition set_notiphyWidgetNotifications v : World → World :=
  with_storage (λ r, {| notiphySettings := notiphySettings r;
          notiphyWidgetLastFetched := notiphyWidgetLastFetched r;
          notiphyWidgetNotifications := v |}).

Definition set_initialConfig v : World → World :=
  with_this (λ r, {| initialConfig := v;
          config := config r;
          notifications := notifications r;
          socket := socket r;
          notificationsLoaded := notificationsLoaded r;
          reminderIntervalId := reminderIntervalId r |}).

Definition set_config v : World → World :=
  with_this (λ r, {| initialConfig := initialConfig r;
          config := v;
          notifications := notifications r;
          socket := socket r;
          notificationsLoaded := notificationsLoaded r;
          reminderIntervalId := reminderIntervalId r |}).

Definition set_notifications v : World → World :=
  with_this (λ r, {| initialConfig := initialConfig r;
          config := config r;
          notifications := v;
          socket := socket r;
          notificationsLoaded := notificationsLoaded r;
          reminderIntervalId := reminderIntervalId r |}).

Definition set_socket v : World → World :=
  with_this (λ r, {| initialConfig := initialConfig r;
          config := config r;
          notifications := notifications r;
          socket := v;
          notificationsLoaded := notificationsLoaded r;
          reminderIntervalId := reminderIntervalId r |}).

Definition set_notificationsLoaded v : World → World :=
  with_this (λ r, {| initialConfig := initialConfig r;
          config := config r;
          notifications := notifications r;
          socket := socket r;
          notificationsLoaded := v;
          reminderIntervalId := reminderIntervalId r |}).

Definition set_reminderIntervalId v : World → World :=
  with_this (λ r, {| initialConfig := initialConfig r;
          config := config r;
          notifications := notifications r;
          socket := socket r;
          notificationsLoaded := notificationsLoaded r;
          reminderIntervalId := v |}).

Definition set_stage v : World → World :=
  with_dom (λ r, {| stage := v;
          centerBody := centerBody r;
          toaster := toaster r;
          detached := detached r;
          statsUnread := statsUnread r;
          statsTotal := statsTotal r;
          connectionStatus := connectionStatus r;
          statusConnected := statusConnected r;
          reminderButton := reminderButton r;
          centerOpen := centerOpen r;
          blockerModal := blockerModal r |}).

Definition set_centerBody v : World → World :=
  with_dom (λ r, {| stage := stage r;
          centerBody := v;
          toaster := toaster r;
          detached := detached r;
          statsUnread := statsUnread r;
          statsTotal := statsTotal r;
          connectionStatus := connectionStatus r;
          statusConnected := statusConnected r;
          reminderButton := reminderButton r;
          centerOpen := centerOpen r;
          blockerModal := blockerModal r |}).

Definition set_toaster v : World → World :=
  with_dom (λ r, {| stage := stage r;
          centerBody := centerBody r;
          toaster := v;
          detached := detached r;
          statsUnread := statsUnread r;
          statsTotal := statsTotal r;
          connectionStatus := connectionStatus r;
          statusConnected := statusConnected r;
          reminderButton := reminderButton r;
          centerOpen := centerOpen r;
          blockerModal := blockerModal r |}).

Definition set_detached v : World → World :=
  with_dom (λ r, {| stage := stage r;
          centerBody := centerBody r;
          toaster := toaster r;
          detached := v;
          statsUnread := statsUnread r;
          statsTotal := statsTotal r;
          connectionStatus := connectionStatus r;
          statusConnected := statusConnected r;
          reminderButton := reminderButton r;
          centerOpen := centerOpen r;
          blockerModal := blockerModal r |}).

Definition set_statsUnread v : World → World :=
  with_dom (λ r, {| stage := stage r;
          centerBody := centerBody r;
          toaster := toaster r;
          detached := detached r;
          statsUnread := v;
          statsTotal := statsTotal r;
          connectionStatus := connectionStatus r;
          statusConnected := statusConnected r;
          reminderButton := reminderButton r;
          centerOpen := centerOpen r;
          blockerModal := blockerModal r |}).

Definition set_statsTotal v : World → World :=
  with_dom (λ r, {| stage := stage r;
          centerBody := centerBody r;
          toaster := toaster r;
          detached := detached r;
          statsUnread := statsUnread r;
          statsTotal := v;
          connectionStatus := connectionStatus r;
          statusConnected := statusConnected r;
          reminderButton := reminderButton r;
          centerOpen := centerOpen r;
          blockerModal := blockerModal r |}).

Definition set_connectionStatus v : World → World :=
  with_dom (λ r, {| stage := stage r;
          centerBody := centerBody r;
          toaster := toaster r;
          detached := detached r;
          statsUnread := statsUnread r;
          statsTotal := statsTotal r;
          connectionStatus := v;
          statusConnected := statusConnected r;
          reminderButton := reminderButton r;
          centerOpen := centerOpen r;
          blockerModal := blockerModal r |}).

Definition set_statusConnected v : World → World :=
  with_dom (λ r, {| stage := stage r;
          centerBody := centerBody r;
          toaster := toaster r;
          detached := detached r;
          statsUnread := statsUnread r;
          statsTotal := statsTotal r;
          connectionStatus := connectionStatus r;
          statusConnected := v;
          reminderButton := reminderButton r;
          centerOpen := centerOpen r;
          blockerModal := blockerModal r |}).

Definition set_reminderButton v : World → World :=
  with_dom (λ r, {| stage := stage r;
          centerBody := centerBody r;
          toaster := toaster r;
          detached := detached r;
          statsUnread := statsUnread r;
          statsTotal := statsTotal r;
          connectionStatus := connectionStatus r;
          statusConnected := statusConnected r;
          reminderButton := v;
          centerOpen := centerOpen r;
          blockerModal := blockerModal r |}).

Definition set_centerOpen v : World → World :=
  with_dom (λ r, {| stage := stage r;
          centerBody := centerBody r;
          toaster := toaster r;
          detached := detached r;
          statsUnread := statsUnread r;
          statsTotal := statsTotal r;
          connectionStatus := connectionStatus r;
          statusConnected := statusConnected r;
          reminderButton := reminderButton r;
          centerOpen := v;
          blockerModal := blockerModal r |}).

Definition set_blockerModal v : World → World :=
  with_dom (λ r, {| stage := stage r;
          centerBody := centerBody r;
          toaster := toaster r;
          detached := detached r;
          statsUnread := statsUnread r;
          statsTotal := statsTotal r;
          connectionStatus := connectionStatus r;
          statusConnected := statusConnected r;
          reminderButton := reminderButton r;
          centerOpen := centerOpen r;
          blockerModal := v |}).

Definition set_timers v : World → World :=
  with_env (λ r, {| timers := v;
          nextTimer := nextTimer r;
          nextNode := nextNode r;
          requests := requests r;
          suspended := suspended r;
          console := console r;
          socketCalls := socketCalls r;
          played := played r;
          now := now r;
          targetFound := targetFound r |}).

Definition set_nextTimer v : World → World :=
  with_env (λ r, {| timers := timers r;
          nextTimer := v;
          nextNode := nextNode r;
          requests := requests r;
          suspended := suspended r;
          console := console r;
          socketCalls := socketCalls r;
          played := played r;
          now := now r;
          targetFound := targetFound r |}).

Definition set_nextNode v : World → World :=
  with_env (λ r, {| timers := timers r;
          nextTimer := nextTimer r;
          nextNode := v;
          requests := requests r;
          suspended := suspended r;
          console := console r;
          socketCalls := socketCalls r;
          played := played r;
          now := now r;
          targetFound := targetFound r |}).

Definition set_requests v : World → World :=
  with_env (λ r, {| timers := timers r;
          nextTimer := nextTimer r;
          nextNode := nextNode r;
          requests := v;
          suspended := suspended r;
          console := console r;
          socketCalls := socketCalls r;
          played := played r;
          now := now r;
          targetFound := targetFound r |}).

Definition set_suspended v : World → World :=
  with_env (λ r, {| timers := timers r;
          nextTimer := nextTimer r;
          nextNode := nextNode r;
          requests := requests r;
          suspended := v;
          console := console r;
          socketCalls := socketCalls r;
          played := played r;
          now := now r;
          targetFound := targetFound r |}).

Definition set_console v : World → World :=
  with_env (λ r, {| timers := timers r;
          nextTimer := nextTimer r;
          nextNode := nextNode r;
          requests := requests r;
          suspended := suspended r;
          console := v;
          socketCalls := socketCalls r;
          played := played r;
          now := now r;
          targetFound := targetFound r |}).

Definition set_socketCalls v : World → World :=
  with_env (λ r, {| timers := timers r;
          nextTimer := nextTimer r;
          nextNode := nextNode r;
          requests := requests r;
          suspended := suspended r;
          console := console r;
          socketCalls := v;
          played := played r;
          now := now r;
          targetFound := targetFound r |}).

Definition set_played v : World → World :=
  with_env (λ r, {| timers := timers r;
          nextTimer := nextTimer r;
          nextNode := nextNode r;
          requests := requests r;
          suspended := suspended r;
          console := console r;
          socketCalls := socketCalls r;
          played := v;
          now := now r;
          targetFound := targetFound r |}).

Definition set_now v : World → World :=
  with_env (λ r, {| timers := timers r;
          nextTimer := nextTimer r;
          nextNode := nextNode r;
          requests := requests r;
          suspended := suspended r;
          console := console r;
          socketCalls := socketCalls r;
          played := played r;
          now := v;
          targetFound := targetFound r |}).

Definition set_targetFound v : World → World :=
  with_env (λ r, {| timers := timers r;
          nextTimer := nextTimer r;
          nextNode := nextNode r;
          requests := requests r;
          suspended := suspended r;
          console := console r;
          socketCalls := socketCalls r;
          played := played r;
          now := now r;
          targetFound := v |}).

(** * Computations that may throw *)

(** The completion of a JavaScript computation. *)
Inductive Completion (A : Type) :=
  | Normal (a : A)
  | Thrown (e : JsError).
Arguments Normal {A} a.
Arguments Thrown {A} e.

(** A method body: it reads and updates the world and completes normally
    or throws; the world it leaves behind is kept in both cases. *)
Definition M (A : Type) : Type := World → Completion A * World.

#[global] Instance M_ret : MRet M := λ A a w, (Normal a, w).

#[global] Instance M_bind : MBind M := λ A B f m w,
  match m w with
  | (Normal a, w') => f a w'
  | (Thrown e, w') => (Thrown e, w')
  end.

Definition throw {A} (e : JsError) : M A := λ w, (Thrown e, w).

(** A statement that cannot throw. *)
Definition run (f : World → World) : M unit := λ w, (Normal tt, f w).

(** [try { body } catch (error) { handler(error) }]. *)
Definition try_catch (body : M unit) (handler : JsError → M unit) : M unit :=
  λ w, match body w with
       | (Normal a, w') => (Normal a, w')
       | (Thrown e, w') => handler e w'
       end.

(** A statement that reads the current state. *)
Definition with_world {A} (k : World → M A) : M A := λ w, k w w.

(** [if (c) { body }]. *)
Definition when (c : bool) (body : M unit) : M unit :=
  if c then body else mret tt.

(** The world a computation leaves, and whether it threw. *)
Definition exec {A} (m : M A) (w : World) : World := (m w).2.

Definition throws {A} (m : M A) (w : World) : bool :=
  match (m w).1 with
  | Normal _ => false
  | Thrown _ => true
  end.

(** * The widget *)

(** ** Small helpers of the environment *)

Definition log (l : LogEntry) (w : World) : World :=
  set_console (console (env w) ++ [l]) w.

(** [setInterval] and [setTimeout] hand out the next timer id.  Browsers
    number timers from 1, so an id is always truthy. *)
Definition add_timer (t : Timer) (w : World) : World :=
  set_nextTimer (S (nextTimer (env w)))
    (set_timers (timers (env w) ++ [(nextTimer (env w), t)]) w).

(** [clearInterval(id)]; clearing [null] does nothing. *)
Definition clearInterval (id : option nat) (w : World) : World :=
  match id with
  | Some i => set_timers (filter (λ t, t.1 ≠ i) (timers (env w))) w
  | None => w
  end.

Definition fetch (r : Request) (w : World) : World :=
  set_requests (requests (env w) ++ [r]) w.

Definition socket_call (c : SocketCall) (w : World) : World :=
  set_socketCalls (socketCalls (env w) ++ [c]) w.

(** Every [play...Sound] method has the same shape: nothing when
    [audioAlert] is off, else the cue is played. *)
Definition play (s : Sound) (w : World) : World :=
  if audioAlert (config (this w)) then set_played (played (env w) ++ [s]) w
  else w.

Definition playStartSound := play start.
Definition playPopSound := play pop.
Definition playPingSound := play ping.
Definition playWhooshSound := play whoosh.
Definition playClickOnSound := play clickOn.
Definition playClickOffSound := play clickOff.
Definition playDismissSound := play dismiss.
Definition playCrumpleSound := play crumple.

(** ** Configuration and storage (constructor, lines 44-138) *)

Definition defaultConfig : Config := {|
  serviceUrl := "https://app.notiphy.me";
  subscriberId := None;
  widgetKey := None;
  locationId := "default";
  widgetTitle := "Inbox";
  audioAlert := false;
  audioReminder := false;
  reminderInterval := 180;
  toastAlert := false;
  toastPosition := "bottom-right";
  toastDuration := 4;
  width := "300px";
  height := "400px";
  showInboxOnLoad := false;
  refreshInterval := 0;
  branded := true;
  compact := false;
  targetElement := None
|}.

(** [{ ...this.defaultConfig, ...config }]. *)
Definition spread_config (d : Config) (c : CallerConfig) : Config := {|
  serviceUrl := default (serviceUrl d) (c_serviceUrl c);
  subscriberId := from_option Some (subscriberId d) (c_subscriberId c);
  widgetKey := from_option Some (widgetKey d) (c_widgetKey c);
  locationId := default (locationId d) (c_locationId c);
  widgetTitle := default (widgetTitle d) (c_widgetTitle c);
  audioAlert := default (audioAlert d) (c_audioAlert c);
  audioReminder := default (audioReminder d) (c_audioReminder c);
  reminderInterval := default (reminderInterval d) (c_reminderInterval c);
  toastAlert := default (toastAlert d) (c_toastAlert c);
  toastPosition := default (toastPosition d) (c_toastPosition c);
  toastDuration := default (toastDuration d) (c_toastDuration c);
  width := default (width d) (c_width c);
  height := default (height d) (c_height c);
  showInboxOnLoad := default (showInboxOnLoad d) (c_showInboxOnLoad c);
  refreshInterval := default (refreshInterval d) (c_refreshInterval c);
  branded := default (branded d) (c_branded c);
  compact := default (compact d) (c_compact c);
  targetElement := from_option Some (targetElement d) (c_targetElement c)
|}.

(** [parsedSettings.locationId = ...]. *)
Definition with_locationId (l : string) (c : Config) : Config := {|
  serviceUrl := serviceUrl c;
  subscriberId := subscriberId c;
  widgetKey := widgetKey c;
  locationId := l;
  widgetTitle := widgetTitle c;
  audioAlert := audioAlert c;
  audioReminder := audioReminder c;
  reminderInterval := reminderInterval c;
  toastAlert := toastAlert c;
  toastPosition := toastPosition c;
  toastDuration := toastDuration c;
  width := width c;
  height := height c;
  showInboxOnLoad := showInboxOnLoad c;
  refreshInterval := refreshInterval c;
  branded := branded c;
  compact := compact c;
  targetElement := targetElement c
|}.

(** [this.config.audioReminder = ...]. *)
Definition with_audioReminder (b : bool) (c : Config) : Config := {|
  serviceUrl := serviceUrl c;
  subscriberId := subscriberId c;
  widgetKey := widgetKey c;
  locationId := locationId c;
  widgetTitle := widgetTitle c;
  audioAlert := audioAlert c;
  audioReminder := b;
  reminderInterval := reminderInterval c;
  toastAlert := toastAlert c;
  toastPosition := toastPosition c;
  toastDuration := toastDuration c;
  width := width c;
  height := height c;
  showInboxOnLoad := showInboxOnLoad c;
  refreshInterval := refreshInterval c;
  branded := branded c;
  compact := compact c;
  targetElement := targetElement c
|}.

Definition saveSettings (w : World) : World :=
  set_notiphySettings (Some (config (this w))) w.

Definition loadNotifications (w : World) : list Notification :=
  default [] (notiphyWidgetNotifications (storage w)).

Definition loadSettings (w : World) : option Config :=
  match notiphySettings (storage w) with
  | Some parsedSettings =>
      if bool_decide (locationId (initialConfig (this w)) ≠ locationId parsedSettings)
      then Some (with_locationId (locationId (initialConfig (this w))) parsedSettings)
      else Some parsedSettings
  | None => None
  end.

Definition saveNotifications (l : list Notification) (w : World) : World :=
  set_notiphyWidgetNotifications (Some l) w.

Definition clearStoredData (w : World) : World :=
  set_notiphyWidgetLastFetched None (set_notiphyWidgetNotifications None w).

Definition checkLocationChange (w : World) : World :=
  match notiphySettings (storage w) with
  | Some storedSettings =>
      if bool_decide (locationId (config (this w)) ≠ locationId storedSettings)
      then clearStoredData w
      else w
  | None => w
  end.

(** ** Timers set up by the constructor (lines 159-184) *)

Definition setupPeriodicRefresh (w : World) : World :=
  let refreshInterval := refreshInterval (config (this w)) in
  if truthy_num refreshInterval then
    log (LogInfo "Auto-refresh enabled:")
      (add_timer (Interval (Z.max 300000 (refreshInterval * 1000)) CbFetchNotifications) w)
  else w.

Definition setupAudioReminders (w : World) : World :=
  let audioReminder := audioReminder (config (this w)) in
  let reminderInterval :=
    if truthy_num (reminderInterval (config (this w)))
    then reminderInterval (config (this w)) else 180%Z in
  if audioReminder && negb (bool_decide (is_Some (reminderIntervalId (this w)))) then
    log (LogInfo "Reminders on:")
      (set_reminderIntervalId (Some (nextTimer (env w)))
         (add_timer (Interval (reminderInterval * 1000) CbPlayReminderSound) w))
  else w.

(** ** Building the document (createDomElements, lines 190-360)

    The method appends the socket.io script tag and the toaster, then the
    icon and the inbox: to the element [targetElement] selects in compact
    mode, else to the body.  When compact mode names a target the page
    does not have, a warning is logged, icon and inbox are not appended,
    and the next statement ([settingsButton.addEventListener]) throws on
    the missing settings button.

    Every other method is reached only from the constructor after this
    one, or from a listener or timer installed after it; they are
    embedded for a document in stage [Rendered], where their element
    lookups succeed. *)
Definition createDomElements : M unit := λ w,
  let cfg := config (this w) in
  let w := set_toaster [] (set_stage ScriptOnly w) in
  if compact cfg && truthy_str (targetElement cfg) && negb (targetFound (env w)) then
    (Thrown (TypeError "settingsButton is null"),
     log (LogWarn "Target element not found for Notiphy Widget compact view.") w)
  else
    (Normal tt,
     set_blockerModal None
       (set_centerOpen false
          (set_reminderButton (audioReminder cfg)
             (set_statusConnected false
                (set_connectionStatus "Offline"
                   (set_statsTotal 0
                      (set_statsUnread 0
                         (set_detached []
                            (set_centerBody []
                               (set_stage Rendered w)))))))))).

(** ** Counters and indicator (lines 1300-1350) *)

Definition updateUnreadCount (count : Z) : World → World := set_statsUnread count.

Definition updateTotalCount (count : Z) : World → World := set_statsTotal count.

Definition updateConnectionStatus (status : string) (w : World) : World :=
  set_statusConnected (negb (statusConnected (dom w)))
    (set_connectionStatus status w).

(** ** Inbox entries (lines 764-837) *)

(** The [data-notification-id] attribute of an entry and of a toast. *)
Definition attr (e : Elem) : string := id_text (nid (shown e)).

Definition t_attr (t : Toast) : string := id_text (nid (t_shown t)).

(** [assembleNotification]: a new element, read or unread as the
    notification says.  [updateNotificationFooter] starts the 5 second
    interval that refreshes its relative-time footer. *)
Definition assembleNotification (n : Notification) (w : World) : Elem * World :=
  let nd := nextNode (env w) in
  ({| node := nd; shown := n; btn_open := read n; el_read := read n |},
   add_timer (Interval 5000 (CbUpdateFooter nd)) (set_nextNode (S nd) w)).

Definition addToNotiphyCenter (notification : Notification) (w : World) : World :=
  let '(notificationElement, w) := assembleNotification notification w in
  let w := set_centerBody (notificationElement :: centerBody (dom w)) w in
  let w :=
    if negb (read notification)
    then updateUnreadCount (statsUnread (dom w) + 1) w
    else w in
  set_statsTotal (statsTotal (dom w) + 1) w.

(** ** The session cache (lines 1076-1089) *)

Definition with_read (b : bool) (n : Notification) : Notification := {|
  nid := nid n;
  title := title n;
  text := text n;
  alertLevel := alertLevel n;
  read := b;
  dismissed := dismissed n;
  actionUrl := actionUrl n;
  _ts := _ts n
|}.

(** [notifications[i] = { ...notifications[i], ...updates }] at
    [i = findIndex(n => n.id === notificationId)]; [None] when
    [findIndex] gives -1. *)
Fixpoint update_found (notificationId : JsId) (updates : Notification → Notification)
    (l : list Notification) : option (list Notification) :=
  match l with
  | [] => None
  | n :: r =>
      if bool_decide (nid n = notificationId) then Some (updates n :: r)
      else cons n <$> update_found notificationId updates r
  end.

Definition updateLocalNotification (notificationId : JsId)
    (updates : Notification → Notification) (w : World) : World :=
  match update_found notificationId updates (loadNotifications w) with
  | Some notifications => saveNotifications notifications w
  | None => w
  end.

Definition removeLocalNotification (notificationId : JsId) (w : World) : World :=
  saveNotifications
    (filter (λ n, nid n ≠ notificationId) (loadNotifications w)) w.

(** ** Events from sibling widgets (lines 500-580) *)

Definition updateStatsAfterDismissal (isRead : bool) (w : World) : World :=
  let w :=
    if negb isRead
    then updateUnreadCount (Z.max 0 (statsUnread (dom w) - 1)) w
    else w in
  set_statsTotal (Z.max 0 (statsTotal (dom w) - 1)) w.

Definition updateStatsAfterMarkRead (isRead : bool) (w : World) : World :=
  if negb isRead
  then updateUnreadCount (Z.max 0 (statsUnread (dom w) - 1)) w
  else w.

(** Does [querySelectorAll(`[data-notification-id="${id}"]`)] find
    anything: the buttons of inbox entries and of toasts carry the
    attribute. *)
Definition has_attr (a : string) (w : World) : bool :=
  bool_decide (Exists (λ e, attr e = a) (centerBody (dom w)))
  || bool_decide (Exists (λ t, t_attr t = a) (toaster (dom w))).

(** The first matching element with class [notiphy-button-mark-read], in
    document order: only inbox entries have one. *)
Definition find_mark_read_button (a : string) (w : World) : option Elem :=
  list_find (λ e, attr e = a) (centerBody (dom w)) ≫= λ p, Some p.2.

(** The classes [open] and [notiphy-read] are added to the entry that
    owns the button found. *)
Fixpoint mark_first (a : string) (l : list Elem) : list Elem :=
  match l with
  | [] => []
  | e :: r =>
      if bool_decide (attr e = a)
      then {| node := node e; shown := shown e; btn_open := true; el_read := true |} :: r
      else e :: mark_first a r
  end.

Definition handleMarkedReadNotification (notificationid : JsId) : M unit := λ w,
  let a := id_text notificationid in
  if negb (has_attr a w) then (Normal tt, w)
  else
    match find_mark_read_button a w with
    | None => (Thrown (TypeError "markReadButton is undefined"), w)
    | Some markReadButton =>
        let isRead := btn_open markReadButton in
        let w :=
          if negb isRead
          then set_centerBody (mark_first a (centerBody (dom w))) w
          else w in
        (Normal tt,
         updateLocalNotification notificationid (with_read true)
           (updateStatsAfterMarkRead isRead w))
    end.

(** [element.closest(".notiphy-notification-element").remove()] for every
    element found: all inbox entries and all toasts with the attribute
    leave the document. *)
Definition remove_matching (a : string) (w : World) : World :=
  set_toaster (filter (λ t, t_attr t ≠ a) (toaster (dom w)))
    (set_detached
       (filter (λ e, attr e = a) (centerBody (dom w)) ++ detached (dom w))
       (set_centerBody (filter (λ e, attr e ≠ a) (centerBody (dom w))) w)).

Definition handleDismissedNotification (notificationId : JsId) : M unit := λ w,
  let a := id_text notificationId in
  if negb (has_attr a w) then (Normal tt, w)
  else
    match find_mark_read_button a w with
    | None => (Thrown (TypeError "markReadButton is undefined"), w)
    | Some markReadButton =>
        let isRead := btn_open markReadButton in
        (Normal tt,
         removeLocalNotification notificationId
           (updateStatsAfterDismissal isRead (remove_matching a w)))
    end.

(** ** Delivery of an inbound notification (lines 452-494, 634-701) *)

Definition showBlockerModal (notification : Notification) (w : World) : World :=
  set_blockerModal (Some (title notification, text notification))
    (playPingSound w).

(** [showToast] puts the toast first in the toaster and starts its
    life cycle with a 10 ms timeout; the toast then stays for
    [(toastDuration || 4) * 1000] ms. *)
Definition showToast (notification : Notification) (w : World) : World :=
  let nd := nextNode (env w) in
  let remainingTime :=
    ((if truthy_num (toastDuration (config (this w)))
      then toastDuration (config (this w)) else 4) * 1000)%Z in
  add_timer (Timeout 10 (CbShowToast nd remainingTime))
    (set_toaster ({| t_node := nd; t_shown := notification |} :: toaster (dom w))
       (set_nextNode (S nd) w)).

Definition handleNotification (notification : Notification) (w : World) : World :=
  let '(delay, w) :=
    if bool_decide (alertLevel notification = Some "blocker")
    then (0%Z, showBlockerModal notification w)
    else if toastAlert (config (this w))
         then ((toastDuration (config (this w)) * 1000)%Z, showToast notification w)
         else (0%Z, w) in
  add_timer (Timeout delay (CbAddToNotiphyCenter notification)) w.

(** The body of the timeout [handleNotification] sets. *)
Definition fire_CbAddToNotiphyCenter (notification : Notification) (w : World) : World :=
  playPopSound (addToNotiphyCenter notification w).

(** ** Inbox visibility (lines 937-958) *)

Definition toggleNotificationCenter (w : World) : World :=
  if centerOpen (dom w)
  then add_timer (Timeout 300 CbHideCenter) (set_centerOpen false w)
  else set_centerOpen true w.

(** ** Settings toggles and connection (lines 1110-1125, 1312-1321) *)

Definition toggleAudioReminder (w : World) : World :=
  let w := set_config (with_audioReminder
                         (negb (audioReminder (config (this w))))
                         (config (this w))) w in
  let w := set_reminderButton (negb (reminderButton (dom w))) w in
  let w :=
    if audioReminder (config (this w))
    then playClickOnSound (setupAudioReminders w)
    else playClickOffSound
           (set_reminderIntervalId None
              (clearInterval (reminderIntervalId (this w)) w)) in
  saveSettings w.

(** socket.io client: [disconnect()] on a connected socket closes it and
    fires the [disconnect] listener at once; the listener
    [onSocketIoLoaded] registers shows the status [Offline]. *)
Definition socket_disconnect (w : World) : World :=
  updateConnectionStatus "Offline"
    (set_socket (Some SockClosed) (socket_call Disconnect w)).

(** socket.io client: [connect()] starts opening the connection; the
    [connect] event comes later, if at all. *)
Definition socket_connect (w : World) : World :=
  set_socket (Some SockConnecting) (socket_call Connect w).

Definition toggleConnection : M unit := λ w,
  match socket (this w) with
  | None => (Thrown (TypeError "this.socket is null"), w)
  | Some SockConnected => (Normal tt, playClickOffSound (socket_disconnect w))
  | Some _ => (Normal tt, playStartSound (playClickOnSound (socket_connect w)))
  end.

(** [this.socket.emit(event, id)]. *)
Definition socket_emit (event : string) (notificationId : JsId) : M unit := λ w,
  match socket (this w) with
  | None => (Thrown (TypeError "this.socket is null"), w)
  | Some _ => (Normal tt, socket_call (EmitId event notificationId) w)
  end.

(** ** Fetch and merge (fetchNotifications, lines 851-929) *)

(** A JavaScript [Map] keeps its entries in insertion order: [set] on a
    present key replaces the value in place, on a new key appends;
    [values()] lists the values in that order. *)
Fixpoint jsmap_set {V} (k : JsId) (v : V) (m : list (JsId * V)) : list (JsId * V) :=
  match m with
  | [] => [(k, v)]
  | (k', v') :: r =>
      if bool_decide (k' = k) then (k, v) :: r else (k', v') :: jsmap_set k v r
  end.

Definition jsmap_delete {V} (k : JsId) (m : list (JsId * V)) : list (JsId * V) :=
  filter (λ p, p.1 ≠ k) m.

Definition jsmap_values {V} (m : list (JsId * V)) : list V := m.*2.

(** Lines 886-905: the merge of the cached and the fetched lists. *)
Definition mergeNotifications (localNotifications fetchedNotifications : list Notification)
  : list Notification :=
  let notificationMap :=
    foldl (λ m notification, jsmap_set (nid notification) notification m)
      [] localNotifications in
  let notificationMap :=
    foldl (λ m notification,
             if dismissed notification
             then jsmap_delete (nid notification) m
             else jsmap_set (nid notification) notification m)
      notificationMap fetchedNotifications in
  jsmap_values notificationMap.

(** What the awaited [fetch] and [response.json()] can give. *)
Inductive FetchResult :=
  | FetchRejected                           (* fetch() rejects: no response *)
  | FetchNotOk (status : Z)                 (* a response with ok = false *)
  | FetchBadBody                            (* ok, but the body is not JSON *)
  | FetchJson (data : list Notification).   (* ok, body parsed; null gives [] *)

(** The notification lines 866-874 build. *)
Definition apiKeyErrorNotification (w : World) : Notification := {|
  nid := IdNum 0;
  title := "Notiphy.me API Key Error";
  text := "The Notiphy.me API key provided is invalid. Please check your Notiphy.me dashboard for more information.";
  alertLevel := Some "error";
  read := false;
  dismissed := false;
  actionUrl := Some "https://notiphy.me/dashboard/api-keys";
  _ts := now (env w)
|}.

(** Up to the [await]: the cache and the watermark are read and the
    request is sent.  The cached list read here is the one the
    continuation merges with. *)
Definition fetchNotifications_request (w : World) : World :=
  let localNotifications := loadNotifications w in
  let lastFetched := default 0%Z (notiphyWidgetLastFetched (storage w)) in
  set_suspended (suspended (env w) ++ [localNotifications])
    (fetch (GetNotifications (subscriberId (config (this w)))
              (locationId (config (this w))) lastFetched) w).

(** After the [await], inside [try]. *)
Definition fetchNotifications_try (localNotifications : list Notification)
    (response : FetchResult) : M unit :=
  match response with
  | FetchRejected => throw (TypeError "Failed to fetch")
  | FetchNotOk status =>
      with_world (λ w, run (addToNotiphyCenter (apiKeyErrorNotification w))) ;;
      toggleConnection ;;
      with_world (λ w, when (audioReminder (config (this w))) (run toggleAudioReminder)) ;;
      throw (Error ("Request failed with status: " +:+ pretty status))
  | FetchBadBody => throw (Error "Unexpected token in JSON")
  | FetchJson fetchedNotifications =>
      let merged := mergeNotifications localNotifications fetchedNotifications in
      run (set_notifications merged) ;;
      run (saveNotifications merged) ;;
      run (λ w, set_detached (centerBody (dom w) ++ detached (dom w))
                  (set_centerBody [] w)) ;;
      run (updateUnreadCount 0) ;;
      run (updateTotalCount 0) ;;
      run (λ w, foldl (λ w notification, addToNotiphyCenter notification w) w merged) ;;
      with_world (λ w, when (negb (notificationsLoaded (this w))
                            && showInboxOnLoad (config (this w)))
                        (run toggleNotificationCenter)) ;;
      run (set_notificationsLoaded true) ;;
      run (λ w, set_notiphyWidgetLastFetched (Some (now (env w) `div` 1000)%Z) w)
  end.

Definition fetchNotifications_response (localNotifications : list Notification)
    (response : FetchResult) : M unit :=
  try_catch (fetchNotifications_try localNotifications response)
    (λ error, run (log (LogCaught "Failed to fetch notifications:" error))).

(** ** Local actions (markRead, dismissNotification, lines 966-1060) *)

(** What [fetch(...).then(response => response.json())] settles to.  The
    HTTP status is not looked at: any response with a JSON body fulfils
    the promise. *)
Inductive PostResult :=
  | PostRejected                              (* no response, or a body that is not JSON *)
  | PostJson (status : Z) (message : string). (* a JSON body, whatever the status *)

(** The entry a button belongs to, in the document or detached. *)
Definition find_elem (target : nat) (w : World) : option Elem :=
  match list_find (λ e, node e = target) (centerBody (dom w)) with
  | Some p => Some p.2
  | None =>
      list_find (λ e, node e = target) (detached (dom w)) ≫= λ p, Some p.2
  end.

Definition set_classes_read (target : nat) (l : list Elem) : list Elem :=
  (λ e, if bool_decide (node e = target)
        then {| node := node e; shown := shown e; btn_open := true; el_read := true |}
        else e) <$> l.

(** [markRead(notificationId, targetElement)] up to the request: the
    button and its entry are marked and the unread counter is
    decremented before the request is sent. *)
Definition markRead (notificationId : JsId) (targetElement : nat) (w : World) : World :=
  let w := set_detached (set_classes_read targetElement (detached (dom w)))
             (set_centerBody (set_classes_read targetElement (centerBody (dom w))) w) in
  let unreadCount := (statsUnread (dom w) - 1)%Z in
  let w := updateUnreadCount (Z.max 0 unreadCount) w in
  fetch (PostMarkRead notificationId) w.

(** The [.then] callback of [markRead]; a rejected promise runs nothing. *)
Definition markRead_response (notificationId : JsId) (result : PostResult) : M unit :=
  match result with
  | PostRejected => mret tt
  | PostJson _ message =>
      run (log (LogInfo message)) ;;
      socket_emit "markReadNotification" notificationId ;;
      run (updateLocalNotification notificationId (with_read true))
  end.

(** [dismissNotification(notificationId, targetElement)] up to the
    request: nothing but the request. *)
Definition dismissNotification (notificationId : JsId) (targetElement : nat)
    (w : World) : World :=
  fetch (PostDismiss notificationId) w.

(** The [.then] callback of [dismissNotification].  [targetElement]
    names an entry built earlier; it may have left the document since. *)
Definition dismissNotification_response (notificationId : JsId) (targetElement : nat)
    (result : PostResult) : M unit :=
  match result with
  | PostRejected => mret tt
  | PostJson _ message =>
      run (log (LogInfo message)) ;;
      socket_emit "dismissNotification" notificationId ;;
      with_world (λ w, run (updateTotalCount (Z.max 0 (statsTotal (dom w) - 1)))) ;;
      with_world (λ w,
         match find_elem targetElement w with
         | None => throw (TypeError "targetElement.parentNode is null")
         | Some e =>
             when (negb (el_read e))
               (run (updateUnreadCount (Z.max 0 (statsUnread (dom w) - 1))))
         end) ;;
      run (λ w, set_detached
                  (filter (λ e, node e = targetElement) (centerBody (dom w))
                     ++ detached (dom w))
                  (set_centerBody
                     (filter (λ e, node e ≠ targetElement) (centerBody (dom w))) w)) ;;
      run (removeLocalNotification notificationId)
  end.

(** ** The realtime socket (onSocketIoLoaded, lines 398-447) *)

(** The script has loaded: [io(...)] creates the socket, which starts
    connecting, and the listeners below are registered. *)
Definition onSocketIoLoaded (w : World) : World :=
  set_socket (Some SockConnecting) w.

(** The [connect] listener up to its [await]. *)
Definition on_connect (w : World) : World :=
  fetchNotifications_request
    (socket_call (Emit "joinRoom" (locationId (config (this w))))
       (set_socket (Some SockConnected) w)).

(** The [connect] listener after its [await]. *)
Definition on_connect_resumed (w : World) : World :=
  updateConnectionStatus ("Online: " +:+ locationId (config (this w))) w.

(** The [disconnect] listener, for a connection the other side closed. *)
Definition on_disconnect (w : World) : World :=
  updateConnectionStatus "Offline" (set_socket (Some SockClosed) w).

(** ** The constructor (lines 44-92) *)

Definition constructor (cfg : CallerConfig) : M unit :=
  run (set_initialConfig (spread_config defaultConfig cfg)) ;;
  run (λ w, set_config (default (initialConfig (this w)) (loadSettings w)) w) ;;
  run (λ w, set_notifications (loadNotifications w) w) ;;
  run checkLocationChange ;;
  run saveSettings ;;
  with_world (λ w,
    if negb (truthy_str (subscriberId (config (this w)))) then
      run (log (LogError "subscriberId is required."))
    else if negb (truthy_str (widgetKey (config (this w)))) then
      run (log (LogError "API Key is required."))
    else
      run (set_socket None) ;;
      run (set_notificationsLoaded false) ;;
      run (set_reminderIntervalId None) ;;
      createDomElements ;;
      run setupPeriodicRefresh ;;
      run setupAudioReminders ;;
      run fetchNotifications_request).

(** A page that has just loaded: the storages are what earlier visits
    left, nothing of the widget exists yet. *)
Definition page_load (s : Storage) (time : Z) (target : bool) : World := {|
  storage := s;
  this := {| initialConfig := defaultConfig; config := defaultConfig;
             notifications := []; socket := None;
             notificationsLoaded := false; reminderIntervalId := None |};
  dom := {| stage := NotCreated; centerBody := []; toaster := []; detached := [];
            statsUnread := 0; statsTotal := 0; connectionStatus := "";
            statusConnected := false; reminderButton := false;
            centerOpen := false; blockerModal := None |};
  env := {| timers := []; nextTimer := 1; nextNode := 0; requests := [];
            suspended := []; console := []; socketCalls := []; played := [];
            now := time; targetFound := target |}
|}.

Definition empty_storage : Storage := {|
  notiphySettings := None;
  notiphyWidgetLastFetched := None;
  notiphyWidgetNotifications := None
|}.

(** * Specifications, invariants and sample inputs

    The definitions the properties below are stated with: the
    specification's wording of the configuration precedence and of the
    merge, the invariant of the inbox, the pieces of the constructor,
    and the concrete pages and notifications the examples run on. *)

(** The merge precedence as the specification words it: persisted
    settings, when present, win for every field but [locationId], which
    is the one of the current invocation. *)
Definition spec_resolve (cfg : CallerConfig) (persisted : option Config) : Config :=
  match persisted with
  | Some p => with_locationId (locationId (spread_config defaultConfig cfg)) p
  | None => spread_config defaultConfig cfg
  end.

(** The first five statements of the constructor, up to [saveSettings]. *)
Definition constructor_head (cfg : CallerConfig) (w : World) : World :=
  let w := set_initialConfig (spread_config defaultConfig cfg) w in
  let w := set_config (default (initialConfig (this w)) (loadSettings w)) w in
  let w := set_notifications (loadNotifications w) w in
  saveSettings (checkLocationChange w).

(** The statements after the two checks. *)
Definition constructor_tail : M unit :=
  run (set_socket None) ;;
  run (set_notificationsLoaded false) ;;
  run (set_reminderIntervalId None) ;;
  createDomElements ;;
  run setupPeriodicRefresh ;;
  run setupAudioReminders ;;
  run fetchNotifications_request.

(** A caller configuration that sets nothing, and one that names a
    subscriber and a key. *)
Definition bare_config : CallerConfig := {|
  c_serviceUrl := None; c_subscriberId := None; c_widgetKey := None;
  c_locationId := None; c_widgetTitle := None; c_audioAlert := None;
  c_audioReminder := None; c_reminderInterval := None; c_toastAlert := None;
  c_toastPosition := None; c_toastDuration := None; c_width := None;
  c_height := None; c_showInboxOnLoad := None; c_refreshInterval := None;
  c_branded := None; c_compact := None; c_targetElement := None
|}.

Definition keyed_config (location : option string) (refresh : option Z)
  : CallerConfig := {|
  c_serviceUrl := None; c_subscriberId := Some "acme"; c_widgetKey := Some "key-1";
  c_locationId := location; c_widgetTitle := None; c_audioAlert := None;
  c_audioReminder := Some true; c_reminderInterval := None; c_toastAlert := None;
  c_toastPosition := None; c_toastDuration := None; c_width := None;
  c_height := None; c_showInboxOnLoad := None; c_refreshInterval := refresh;
  c_branded := None; c_compact := None; c_targetElement := None
|}.

(** A later visit of the page the first initialization ran on: the
    settings are the ones it saved, the session holds one cached
    notification and a watermark. *)
Definition revisit (first : World) (time : Z) : World :=
  page_load
    {| notiphySettings := notiphySettings (storage first);
       notiphyWidgetLastFetched := Some 1700000000%Z;
       notiphyWidgetNotifications :=
         Some [ {| nid := IdStr "n-1"; title := "Build finished"; text := "ok";
                   alertLevel := Some "info"; read := false; dismissed := false;
                   actionUrl := None; _ts := 1699999990 |} ] |}
    time true.

Definition site_a : CallerConfig := keyed_config (Some "site-a") None.

Definition site_b : CallerConfig := keyed_config (Some "site-b") (Some 60%Z).

Definition blank_page : World := page_load empty_storage 0 true.

Definition second_page : World := revisit (exec (constructor site_a) blank_page) 5000.

Definition refresh_60 : World :=
  constructor_head (keyed_config None (Some 60%Z)) (page_load empty_storage 0 true).

(** The merge as the specification words it: a map keyed by id built
    from the local list, then every remote entry in turn deletes its key
    when it carries a dismissed flag and is upserted otherwise. *)
Definition spec_merge (localNotifications remote : list Notification)
  : gmap JsId Notification :=
  foldl (λ m n, if dismissed n then delete (nid n) m else <[nid n := n]> m)
    (foldl (λ m n, <[nid n := n]> m) ∅ localNotifications) remote.

(** The [Map] of lines 887-902, before [values()] is taken. *)
Definition merge_map (localNotifications fetchedNotifications : list Notification)
  : list (JsId * Notification) :=
  foldl (λ m notification,
           if dismissed notification
           then jsmap_delete (nid notification) m
           else jsmap_set (nid notification) notification m)
    (foldl (λ m notification, jsmap_set (nid notification) notification m)
       [] localNotifications)
    fetchedNotifications.

(** Every entry of the [Map] sits under the id of its value, and no key
    occurs twice. *)
Definition keyed (m : list (JsId * Notification)) : Prop :=
  NoDup m.*1 ∧ Forall (λ p, p.1 = nid p.2) m.

(** Sample notifications with a given id, read flag and dismissed flag. *)
Definition sample (i : string) (r d : bool) : Notification := {|
  nid := IdStr i; title := "Deploy"; text := "Deploy finished";
  alertLevel := Some "info"; read := r; dismissed := d;
  actionUrl := None; _ts := 1700000000
|}.

(** The store mutations of the specification, as the widget receives
    them: a notification to add, and the [dismiss] and [mark-read]
    events for an id. *)
Inductive StoreOp :=
  | Add (n : Notification)
  | Remove (id : JsId)
  | MarkRead (id : JsId).

Definition apply_op (op : StoreOp) (w : World) : World :=
  match op with
  | Add n => addToNotiphyCenter n w
  | Remove i => exec (handleDismissedNotification i) w
  | MarkRead i => exec (handleMarkedReadNotification i) w
  end.

Definition apply_ops (ops : list StoreOp) (w : World) : World :=
  foldl (λ w op, apply_op op w) w ops.

(** The inbox entries that are not marked read. *)
Definition unread_entries (l : list Elem) : list Elem :=
  filter (λ e, btn_open e = false) l.

(** The counters say what the inbox holds. *)
Definition counters_agree (w : World) : Prop :=
  statsTotal (dom w) = Z.of_nat (length (centerBody (dom w)))
  ∧ statsUnread (dom w) = Z.of_nat (length (unread_entries (centerBody (dom w)))).

(** No [Add] of the sequence brings an id the inbox already shows at
    that moment. *)
Fixpoint adds_fresh (ops : list StoreOp) (w : World) : bool :=
  match ops with
  | [] => true
  | op :: ops =>
      match op with
      | Add n => bool_decide (id_text (nid n) ∉ attr <$> centerBody (dom w))
      | _ => true
      end && adds_fresh ops (apply_op op w)
  end.

(** The document right after [createDomElements]: an empty inbox and
    both counters at 0. *)
Definition empty_inbox : World := exec createDomElements blank_page.

(** The inbox holds one entry per id and the counters agree with it. *)
Definition inbox_ok (w : World) : Prop :=
  NoDup (attr <$> centerBody (dom w)) ∧ counters_agree w.

(** An inbox with one unread entry (element 0, notification 1) on a page
    whose socket is connected. *)
Definition one_unread : World :=
  addToNotiphyCenter (sample "1" false false)
    (set_socket (Some SockConnected) empty_inbox).

(** What [toggleConnection] leaves when the socket exists. *)
Definition toggled (s : SockState) (w : World) : World :=
  match s with
  | SockConnected => playClickOffSound (socket_disconnect w)
  | _ => playStartSound (playClickOnSound (socket_connect w))
  end.

(** The widget right after its constructor, with reminders on: the
    socket.io script has not loaded yet, [this.socket] is [null]. *)
Definition just_built : World := exec (constructor site_a) blank_page.

(** The same widget once its socket has connected, the fetch of the
    [connect] listener has failed and the listener has resumed. *)
Definition after_failed_connect : World :=
  on_connect_resumed
    (exec (fetchNotifications_response [] (FetchNotOk 401))
       (on_connect (onSocketIoLoaded just_built))).

(** The widget while its socket is opening, and once it has connected
    (the [connect] listener has sent its fetch). *)
Definition connecting_widget : World := onSocketIoLoaded just_built.

Definition connected_widget : World := on_connect (onSocketIoLoaded just_built).

(** * The rest of the widget

    The methods the sections above do not reach: the settings toggles,
    the relative-time footer, the click listener with mark-all-read, the
    reminder cue, the toast removal, the display mode and the reset.
    A timeout one of these methods sets is returned with the world, as a
    delay and the body to run, instead of being entered in [timers]. *)

(** ** Settings toggles (lines 1096-1151) *)

(** [this.config.audioAlert = ...]. *)
Definition with_audioAlert (b : bool) (c : Config) : Config := {|
  serviceUrl := serviceUrl c;
  subscriberId := subscriberId c;
  widgetKey := widgetKey c;
  locationId := locationId c;
  widgetTitle := widgetTitle c;
  audioAlert := b;
  audioReminder := audioReminder c;
  reminderInterval := reminderInterval c;
  toastAlert := toastAlert c;
  toastPosition := toastPosition c;
  toastDuration := toastDuration c;
  width := width c;
  height := height c;
  showInboxOnLoad := showInboxOnLoad c;
  refreshInterval := refreshInterval c;
  branded := branded c;
  compact := compact c;
  targetElement := targetElement c
|}.

(** [this.config.toastAlert = ...]. *)
Definition with_toastAlert (b : bool) (c : Config) : Config := {|
  serviceUrl := serviceUrl c;
  subscriberId := subscriberId c;
  widgetKey := widgetKey c;
  locationId := locationId c;
  widgetTitle := widgetTitle c;
  audioAlert := audioAlert c;
  audioReminder := audioReminder c;
  reminderInterval := reminderInterval c;
  toastAlert := b;
  toastPosition := toastPosition c;
  toastDuration := toastDuration c;
  width := width c;
  height := height c;
  showInboxOnLoad := showInboxOnLoad c;
  refreshInterval := refreshInterval c;
  branded := branded c;
  compact := compact c;
  targetElement := targetElement c
|}.

(** [this.config.toastPosition = ...]. *)
Definition with_toastPosition (p : string) (c : Config) : Config := {|
  serviceUrl := serviceUrl c;
  subscriberId := subscriberId c;
  widgetKey := widgetKey c;
  locationId := locationId c;
  widgetTitle := widgetTitle c;
  audioAlert := audioAlert c;
  audioReminder := audioReminder c;
  reminderInterval := reminderInterval c;
  toastAlert := toastAlert c;
  toastPosition := p;
  toastDuration := toastDuration c;
  width := width c;
  height := height c;
  showInboxOnLoad := showInboxOnLoad c;
  refreshInterval := refreshInterval c;
  branded := branded c;
  compact := compact c;
  targetElement := targetElement c
|}.

(** The toggles also restyle their button, and the menu items that call
    them go on to [updateSettingsDropdown]: both only change how the
    menu looks. *)
Definition toggleAudioAlert (w : World) : World :=
  let w := set_config (with_audioAlert (negb (audioAlert (config (this w))))
                         (config (this w))) w in
  let w :=
    if audioAlert (config (this w)) then playClickOnSound w
    else playClickOffSound w in
  let w := log (LogInfo (if audioAlert (config (this w))
                         then "Sound on" else "Sound off")) w in
  saveSettings w.

Definition toggleToastAlert (w : World) : World :=
  let w := set_config (with_toastAlert (negb (toastAlert (config (this w))))
                         (config (this w))) w in
  let w :=
    if toastAlert (config (this w)) then playClickOnSound w
    else playClickOffSound w in
  let w := log (LogInfo (if toastAlert (config (this w))
                         then "Toasts on" else "Toasts off")) w in
  saveSettings w.

(** The array of [changeToastPosition]. *)
Definition positions : list string :=
  ["top-left"; "top-center"; "top-right"; "bottom-right"; "bottom-center";
   "bottom-left"].

(** [array.indexOf(x)]: the first index of [x], or -1. *)
Definition indexOf (x : string) (l : list string) : Z :=
  match list_find (λ y, y = x) l with
  | Some (i, _) => Z.of_nat i
  | None => (-1)%Z
  end.

(** [positions[(currentIndex + 1) % positions.length]]; the index is
    between 0 and 5, so the lookup finds an element. *)
Definition next_position (current : string) : string :=
  let currentIndex := indexOf current positions in
  default ""
    (positions !! Z.to_nat ((currentIndex + 1) `rem` Z.of_nat (length positions))).

Definition changeToastPosition (w : World) : World :=
  let w := set_config (with_toastPosition
                         (next_position (toastPosition (config (this w))))
                         (config (this w))) w in
  let w := playClickOnSound w in
  let w := log (LogInfo ("Toast Position " +:+ toastPosition (config (this w)))) w in
  saveSettings w.

(** The table of [getToastPositionIcon] (lines 363-373). *)
Definition getToastPositionIcon (w : World) : string :=
  let p := toastPosition (config (this w)) in
  if bool_decide (p = "bottom-right") then "south_east"
  else if bool_decide (p = "bottom-center") then "south"
  else if bool_decide (p = "bottom-left") then "south_west"
  else if bool_decide (p = "top-right") then "north_east"
  else if bool_decide (p = "top-center") then "north"
  else if bool_decide (p = "top-left") then "north_west"
  else "south_east".

(** The actions of the settings menu. *)
Inductive SettingsAction :=
  | ToggleAudioAlert
  | ToggleAudioReminder
  | ToggleToastAlert
  | ChangeToastPosition.

Definition settings_action (a : SettingsAction) (w : World) : World :=
  match a with
  | ToggleAudioAlert => toggleAudioAlert w
  | ToggleAudioReminder => toggleAudioReminder w
  | ToggleToastAlert => toggleToastAlert w
  | ChangeToastPosition => changeToastPosition w
  end.

Definition settings_actions (l : list SettingsAction) (w : World) : World :=
  foldl (λ w a, settings_action a w) w l.

(** ** Reset (resetSettings, lines 142-152) *)

(** [this.initialConfig] as [resetSettings] reads it.  When the
    constructor finds no persisted settings, [this.config] is the very
    object [this.initialConfig], and every toggle assigns to a field of
    [this.config]: on such a widget ([shared]) the two hold the same
    values at all times.  Otherwise [this.initialConfig] is still what
    the constructor built. *)
Definition read_initialConfig (shared : bool) (w : World) : Config :=
  if shared then config (this w) else initialConfig (this w).

(** [location.reload()]: the page loads again on the storages as they
    are. *)
Definition reload (time : Z) (w : World) : World :=
  page_load (storage w) time (targetFound (env w)).

(** [resetSettings] up to the reload. *)
Definition resetSettings (shared : bool) (w : World) : World :=
  let w := set_notiphyWidgetNotifications None w in
  let w := set_notiphyWidgetLastFetched None w in
  let w := set_notiphySettings None w in
  let w := set_config (read_initialConfig shared w) w in
  let w := playClickOffSound w in
  let w := saveSettings w in
  log (LogInfo "Settings have been reset to default.") w.

(** ** Display mode (lines 1156-1175, 1353-1377) *)

(** What the theme functions act on: the [notiphy-theme] key of
    [localStorage], the [data-theme] attribute of the document element,
    and the colour scheme the browser prefers. *)
Record ThemePage := {
  notiphy_theme : option string;
  data_theme : option string;
  prefersDarkScheme : bool
}.

Definition setTheme (theme : string) (p : ThemePage) : ThemePage :=
  let appliedTheme :=
    if bool_decide (theme = "auto")
    then (if prefersDarkScheme p then "dark" else "light")
    else theme in
  {| notiphy_theme := Some theme;
     data_theme := Some appliedTheme;
     prefersDarkScheme := prefersDarkScheme p |}.

(** [localStorage.getItem('notiphy-theme') || themes.LIGHT]. *)
Definition current_theme (p : ThemePage) : string :=
  match notiphy_theme p with
  | Some t => if bool_decide (t = "") then "light" else t
  | None => "light"
  end.

Definition initializeTheme (p : ThemePage) : ThemePage :=
  setTheme (current_theme p) p.

(** The [switch] of [changeDisplayMode]. *)
Definition next_theme (currentTheme : string) : string :=
  if bool_decide (currentTheme = "light") then "dark"
  else if bool_decide (currentTheme = "dark") then "auto"
  else if bool_decide (currentTheme = "auto") then "light"
  else "light".

Definition changeDisplayMode (pw : ThemePage * World) : ThemePage * World :=
  let currentTheme := current_theme pw.1 in
  let newTheme := next_theme currentTheme in
  (setTheme newTheme pw.1, playClickOnSound pw.2).

(** The table of [getDisplayModeIcon]; [None] is [undefined]. *)
Definition getDisplayModeIcon (p : ThemePage) : option string :=
  let currentTheme := current_theme p in
  if bool_decide (currentTheme = "light") then Some "light_mode"
  else if bool_decide (currentTheme = "dark") then Some "dark_mode"
  else if bool_decide (currentTheme = "auto") then Some "night_sight_auto"
  else None.

(** ** The relative-time footer (getTimeElapsedString, lines 710-730) *)

(** The text of the footer: a literal, one of the two counted
    templates, one of the two texts the browser formats from the date
    ([Today at ...] with [toLocaleTimeString], else [toLocaleString]),
    or the text [Invalid Date] that [toLocaleString] gives for a date
    that is none. *)
Inductive ElapsedText :=
  | Literal (s : string)
  | MinutesAgo (minutes : Z)
  | HoursAgo (hours : Z)
  | TodayAt (past : Z)
  | LocaleString (past : Z)
  | InvalidDate.

(** [Math.round(x / 1000)] for an integer [x]: halves go up. *)
Definition round_div_1000 (x : Z) : Z := ((x + 500) `div` 1000)%Z.

(** [new Date(ms)] is a date when [ms] is at most 8.64e15 in magnitude,
    and an invalid date beyond. *)
Definition valid_date (ms : Z) : bool :=
  bool_decide (-8640000000000000 ≤ ms ≤ 8640000000000000)%Z.

(** [now] is [Date.now()], [sameDay] whether today's [toDateString()] is
    that of the timestamp.  With an invalid date [now - past] is [NaN],
    every comparison fails, [toDateString()] is not today's, and the
    last line returns [Invalid Date].  With a valid one the products and
    differences below are exact in floating point wherever a threshold
    is near. *)
Definition getTimeElapsedString (now initialTimestamp : Z) (sameDay : bool)
  : ElapsedText :=
  let past := (initialTimestamp * 1000)%Z in
  if negb (valid_date past) then InvalidDate
  else
    let secondsDiff := round_div_1000 (now - past) in
    if bool_decide (secondsDiff < 10)%Z then Literal "Right now"
    else if bool_decide (secondsDiff < 15)%Z then Literal "10 seconds ago"
    else if bool_decide (secondsDiff < 20)%Z then Literal "15 seconds ago"
    else if bool_decide (secondsDiff < 30)%Z then Literal "20 seconds ago"
    else if bool_decide (secondsDiff < 45)%Z then Literal "30 seconds ago"
    else if bool_decide (secondsDiff < 60)%Z then Literal "Less than a minute ago"
    else if bool_decide (secondsDiff < 120)%Z then Literal "A minute ago"
    else
      let minutesDiff := (secondsDiff `div` 60)%Z in
      if bool_decide (minutesDiff < 4)%Z then Literal "A few minutes ago"
      else if bool_decide (minutesDiff < 60)%Z then MinutesAgo minutesDiff
      else
        let hoursDiff := (minutesDiff `div` 60)%Z in
        if bool_decide (hoursDiff < 2)%Z then Literal "An hour ago"
        else if bool_decide (hoursDiff < 24)%Z then HoursAgo hoursDiff
        else if sameDay then TodayAt past
        else LocaleString past.

(** ** Timeouts of this part *)

(** The body of a timeout: of [markAllRead] for one button, of
    [dismissToast] for one toast, and the second cue of the reminder. *)
Inductive Later :=
  | LaterMarkRead (button : nat)
  | LaterRemoveToast (toast : nat)
  | LaterPlay (s : Sound).

(** ** The reminder cue (playReminderSound, lines 1267-1293) *)

(** The cue is played with [new Audio(...).play()], not through the
    [play...Sound] methods: [audioAlert] chooses the cue, it does not
    gate it. *)
Definition playReminderSound (w : World) : World * list (Z * Later) :=
  let unreadCount := Z.max 0 (statsUnread (dom w)) in
  if bool_decide (unreadCount = 0%Z) then (w, [])
  else if negb (audioReminder (config (this w))) then (w, [])
  else if audioAlert (config (this w)) then
    (set_played (played (env w) ++ [ding]) w, [(750%Z, LaterPlay notifications_waiting)])
  else
    (set_played (played (env w) ++ [phoneVibrate]) w, [(750%Z, LaterPlay phoneVibrate)]).

(** ** Toast removal (dismissToast, lines 620-628; showToast, 666-675) *)

(** [dismissToast] hides the toast and removes it 300 ms later. *)
Definition dismissToast (toast : nat) (w : World) : World * list (Z * Later) :=
  (w, [(300%Z, LaterRemoveToast toast)]).

(** The last timeout of the life cycle [showToast] starts:
    [toaster.removeChild(notificationElement)] throws when the toast is
    not in the toaster any more. *)
Definition toast_expired (toast : nat) : M unit := λ w,
  if bool_decide (Exists (λ t, t_node t = toast) (toaster (dom w)))
  then (Normal tt,
        set_toaster (filter (λ t, t_node t ≠ toast) (toaster (dom w))) w)
  else (Thrown (Error "NotFoundError: the node is not a child of this node"), w).

(** ** Mark all read and the click listener (lines 595-613, 1001-1011) *)

(** [markAllRead]: one timeout per mark-read button of the document, in
    document order, 110 ms apart. *)
Definition markAllRead (w : World) : list (Z * Later) :=
  imap (λ index e, ((Z.of_nat index * 110)%Z, LaterMarkRead (node e)))
    (centerBody (dom w)).

(** The bodies of the timeouts above.  [button.closest(...)] finds the
    entry of the button whether or not it is still in the document. *)
Definition run_later (l : Later) (w : World) : World :=
  match l with
  | LaterMarkRead button =>
      match find_elem button w with
      | Some e =>
          if negb (el_read e)
          then playClickOffSound (markRead (IdStr (attr e)) button w)
          else w
      | None => w
      end
  | LaterRemoveToast toast =>
      set_toaster (filter (λ t, t_node t ≠ toast) (toaster (dom w))) w
  | LaterPlay s => set_played (played (env w) ++ [s]) w
  end.

(** Timeouts fire in the order of their delays. *)
Definition run_schedule (s : list (Z * Later)) (w : World) : World :=
  foldl (λ w t, run_later t.2 w) w s.

(** What a click in the document can land on, as far as the listener on
    the body tells: the mark-read or the dismiss button of an inbox
    entry, the dismiss button of a toast, the mark-all-read button, or
    anything else. *)
Inductive ClickTarget :=
  | MarkReadButton (entry : nat)
  | DismissButton (entry : nat)
  | ToastDismissButton (toast : nat)
  | MarkAllReadButton
  | Elsewhere.

(** Is the timer the footer interval of the entry. *)
Definition is_footer_of (entry : nat) (t : nat * Timer) : bool :=
  match t.2 with
  | Interval _ (CbUpdateFooter nd) => bool_decide (nd = entry)
  | _ => false
  end.

(** The listener [updateNotificationFooter] puts on the dismiss button
    of the entry it is called for (lines 809-811): it clears the footer
    interval of that entry. *)
Definition clear_footer_interval (entry : nat) (w : World) : World :=
  set_timers (filter (λ t, negb (is_footer_of entry t)) (timers (env w))) w.

(** The listener on the body (lines 595-613).  A click only reaches an
    element of the document: a button of an entry that is not in the
    inbox gets none.  For the dismiss button of an entry the listener of
    the button itself has run before the click reaches the body. *)
Definition on_body_click (target : ClickTarget) (w : World) : World * list (Z * Later) :=
  match target with
  | MarkReadButton entry =>
      match list_find (λ e, node e = entry) (centerBody (dom w)) with
      | Some (_, e) =>
          if negb (btn_open e)
          then (playClickOffSound (markRead (IdStr (attr e)) entry w), [])
          else (w, [])
      | None => (w, [])
      end
  | DismissButton entry =>
      match list_find (λ e, node e = entry) (centerBody (dom w)) with
      | Some (_, e) =>
          let w := clear_footer_interval entry w in
          (playDismissSound (dismissNotification (IdStr (attr e)) entry w), [])
      | None => (w, [])
      end
  | ToastDismissButton toast =>
      if bool_decide (Exists (λ t, t_node t = toast) (toaster (dom w)))
      then dismissToast toast w
      else (w, [])
  | MarkAllReadButton => (w, markAllRead w)
  | Elsewhere => (w, [])
  end.

(** A click in the document.  [setupEventListeners] registers the
    listener on the body when [onSocketIoLoaded] calls it (line 446),
    right after it has set [this.socket]: until the socket.io script has
    loaded the body has no listener, and of the targets above only the
    dismiss button of an entry has one of its own. *)
Definition body_click (target : ClickTarget) (w : World) : World * list (Z * Later) :=
  match socket (this w) with
  | Some _ => on_body_click target w
  | None =>
      match target with
      | DismissButton entry =>
          match list_find (λ e, node e = entry) (centerBody (dom w)) with
          | Some _ => (clear_footer_interval entry w, [])
          | None => (w, [])
          end
      | _ => (w, [])
      end
  end.

(** ** The life of a toast (showToast, lines 634-701; dismissToast, 620-628) *)

(** The bodies of the timeouts in the life of one toast: the 10 ms
    timeout of [showToast] (lines 662-676), the timeout held in
    [toastTimeout], set there (666-675) or by the [mouseleave] listener
    (691-699), its inner timeout that removes the toast (668-674,
    693-698), and the timeout of [dismissToast] (623-627). *)
Inductive ToastTimeout :=
  | ShowStep
  | FadeStep (resumed : bool)
  | RemoveStep (resumed : bool)
  | DismissStep.

(** The variables [showToast] closes over, the timeouts of the toast
    that are pending (by id, with the time they are due, in the order
    they were set), and the errors their bodies have thrown.  The
    classes [show], [hide] and [paused] and the style element only drive
    the CSS and are left out: the style element is in the head whenever
    line 670 removes it. *)
Record ToastLife := {
  toastTimeout : option nat;
  startTime : Z;
  remainingTime : Z;
  pending : list (nat * (Z * ToastTimeout));
  uncaught : list JsError
}.

(** [setTimeout] converts its delay to a 32-bit integer, and takes a
    negative one for 0. *)
Definition timer_delay (ms : Z) : Z :=
  Z.max 0 ((ms + 2147483648) `mod` 4294967296 - 2147483648).

Definition setTimeout (body : ToastTimeout) (ms : Z) (s : World * ToastLife)
  : nat * (World * ToastLife) :=
  let id := nextTimer (env s.1) in
  (id, (set_nextTimer (S id) s.1,
        {| toastTimeout := toastTimeout s.2; startTime := startTime s.2;
           remainingTime := remainingTime s.2;
           pending := pending s.2
                        ++ [(id, ((now (env s.1) + timer_delay ms)%Z, body))];
           uncaught := uncaught s.2 |})).

(** [clearTimeout(id)]; an id that is [undefined], or of a timeout that
    has fired, clears nothing. *)
Definition clearTimeout (id : option nat) (l : ToastLife) : ToastLife :=
  {| toastTimeout := toastTimeout l; startTime := startTime l;
     remainingTime := remainingTime l;
     pending := filter (λ p, Some p.1 ≠ id) (pending l);
     uncaught := uncaught l |}.

Definition in_toaster (toast : nat) (w : World) : bool :=
  bool_decide (Exists (λ t, t_node t = toast) (toaster (dom w))).

(** The body of a timeout.  An error thrown there is reported and
    stops that body only. *)
Definition fire_toast_timeout (toast : nat) (body : ToastTimeout) (s : World * ToastLife)
  : World * ToastLife :=
  match body with
  | ShowStep =>
      let '(id, (w, l)) :=
        setTimeout (FadeStep false) (remainingTime s.2) (playWhooshSound s.1, s.2) in
      (w, {| toastTimeout := Some id; startTime := startTime l;
             remainingTime := remainingTime l; pending := pending l;
             uncaught := uncaught l |})
  | FadeStep resumed => (setTimeout (RemoveStep resumed) 300 s).2
  | RemoveStep _ =>
      match toast_expired toast s.1 with
      | (Normal _, w) => (w, s.2)
      | (Thrown e, w) =>
          (w, {| toastTimeout := toastTimeout s.2; startTime := startTime s.2;
                 remainingTime := remainingTime s.2; pending := pending s.2;
                 uncaught := uncaught s.2 ++ [e] |})
      end
  | DismissStep => (run_later (LaterRemoveToast toast) s.1, s.2)
  end.

(** The pending timeout that fires next: the one due first, and of
    those due together the one set first. *)
Definition earliest (p : list (nat * (Z * ToastTimeout)))
  : option (nat * (Z * ToastTimeout)) :=
  foldr (λ x best, match best with
                   | Some y => if bool_decide (x.2.1 ≤ y.2.1)%Z then Some x else Some y
                   | None => Some x
                   end) None p.

(** What happens to a toast: its next timeout fires, the pointer enters
    or leaves it, or its dismiss button is clicked, at a given time. *)
Inductive ToastEvent :=
  | TimeoutFires
  | MouseEnter (time : Z)
  | MouseLeave (time : Z)
  | ClickDismiss (time : Z).

(** Something the user does at [time]: not before now, and not after a
    pending timeout was due. *)
Definition at_time (time : Z) (f : World * ToastLife → World * ToastLife)
    (s : World * ToastLife) : option (World * ToastLife) :=
  if bool_decide ((now (env s.1) ≤ time)%Z
                  ∧ Forall (λ p, (time ≤ p.2.1)%Z) (pending s.2))
  then Some (f (set_now time s.1, s.2))
  else None.

(** One event in the life of the toast; [None] when it cannot happen
    then.  The [mouseenter] listener (lines 679-683) clears the timeout
    [toastTimeout] names and takes the time since [startTime] off
    [remainingTime]; the [mouseleave] listener (686-700) resets
    [startTime] and sets a new timeout of [remainingTime].  Both are
    listeners of the toast: a toast that has left the document gets no
    pointer events.  The click goes to the listener on the body. *)
Definition toast_step (toast : nat) (ev : ToastEvent) (s : World * ToastLife)
  : option (World * ToastLife) :=
  match ev with
  | TimeoutFires =>
      match earliest (pending s.2) with
      | Some (id, (due, body)) =>
          Some (fire_toast_timeout toast body
                  (set_now (Z.max (now (env s.1)) due) s.1,
                   {| toastTimeout := toastTimeout s.2; startTime := startTime s.2;
                      remainingTime := remainingTime s.2;
                      pending := filter (λ p, p.1 ≠ id) (pending s.2);
                      uncaught := uncaught s.2 |}))
      | None => None
      end
  | MouseEnter time =>
      at_time time (λ s,
        if in_toaster toast s.1 then
          let l := clearTimeout (toastTimeout s.2) s.2 in
          (s.1, {| toastTimeout := toastTimeout l; startTime := startTime l;
                   remainingTime := (remainingTime l - (now (env s.1) - startTime l))%Z;
                   pending := pending l; uncaught := uncaught l |})
        else s) s
  | MouseLeave time =>
      at_time time (λ s,
        if in_toaster toast s.1 then
          let '(id, (w, l)) :=
            setTimeout (FadeStep true) (remainingTime s.2)
              (s.1, {| toastTimeout := toastTimeout s.2; startTime := now (env s.1);
                       remainingTime := remainingTime s.2; pending := pending s.2;
                       uncaught := uncaught s.2 |}) in
          (w, {| toastTimeout := Some id; startTime := startTime l;
                 remainingTime := remainingTime l; pending := pending l;
                 uncaught := uncaught l |})
        else s) s
  | ClickDismiss time =>
      at_time time (λ s,
        match body_click (ToastDismissButton toast) s.1 with
        | (w, [(ms, LaterRemoveToast _)]) => (setTimeout DismissStep ms (w, s.2)).2
        | (w, _) => (w, s.2)
        end) s
  end.

Fixpoint toast_run (toast : nat) (evs : list ToastEvent) (s : World * ToastLife)
  : option (World * ToastLife) :=
  match evs with
  | [] => Some s
  | ev :: evs => toast_step toast ev s ≫= toast_run toast evs
  end.

(** [remainingTime] as [showToast] sets it (line 641). *)
Definition toast_duration (w : World) : Z :=
  ((if truthy_num (toastDuration (config (this w)))
    then toastDuration (config (this w)) else 4) * 1000)%Z.

(** The page and the life of the toast when [showToast] returns: the
    one pending timeout is the 10 ms timeout it has just set, under the
    id [showToast] above gave it. *)
Definition toast_shown (n : Notification) (w : World) : World * ToastLife :=
  (showToast n w,
   {| toastTimeout := None; startTime := now (env w);
      remainingTime := toast_duration w;
      pending := [(nextTimer (env w), ((now (env w) + 10)%Z, ShowStep))];
      uncaught := [] |}).

(** The toast [showToast n] puts up on [w] can live through [trace],
    and at its end it has left the toaster, none of its timeouts is
    pending, and their bodies have thrown [errors]. *)
Definition toast_ends (n : Notification) (w : World) (trace : list ToastEvent)
    (errors : list JsError) : Prop :=
  ∃ final, toast_run (nextNode (env w)) trace (toast_shown n w) = Some final
           ∧ toaster (dom final.1)
             = filter (λ t, t_node t ≠ nextNode (env w)) (toaster (dom w))
           ∧ pending final.2 = []
           ∧ uncaught final.2 = errors.

(** ** Invariants of the parts above *)

(** Is the timer a reminder interval. *)
Definition is_reminder (t : nat * Timer) : bool :=
  match t.2 with
  | Interval _ CbPlayReminderSound => true
  | _ => false
  end.

(** The reminder interval is known to the widget: timer ids are not
    reused, the live reminder intervals are the one [reminderIntervalId]
    names, and there is one exactly when the reminders are on. *)
Definition reminders_ok (w : World) : Prop :=
  NoDup (timers (env w)).*1
  ∧ Forall (λ t, t.1 < nextTimer (env w)) (timers (env w))
  ∧ (filter (λ t, is_reminder t = true) (timers (env w))).*1
    = match reminderIntervalId (this w) with
      | Some i => [i]
      | None => []
      end
  ∧ (is_Some (reminderIntervalId (this w)) ↔ audioReminder (config (this w)) = true).

(** The two read classes of an entry go together. *)
Definition flags_agree (w : World) : Prop :=
  Forall (λ e, btn_open e = el_read e) (centerBody (dom w)).

(** The session cache holds one notification per id. *)
Definition cache_ok (w : World) : Prop :=
  NoDup (nid <$> loadNotifications w).

(** Sample worlds of this part: a page with the toasts switched on, and
    a page loaded at a given time. *)
Definition toasting : World := toggleToastAlert empty_inbox.

Definition loaded_at (time : Z) : World := page_load empty_storage time true.

(** An inbox with a read entry above an unread one, a sequence of
    settings actions, a caller configuration for the compact view, and a
    session cache whose ids are numbers. *)
Definition two_entries : World := addToNotiphyCenter (sample "2" true false) one_unread.

Definition sample_actions : list SettingsAction :=
  [ToggleAudioReminder; ToggleAudioAlert; ChangeToastPosition; ToggleAudioReminder].

Definition compact_config : CallerConfig := {|
  c_serviceUrl := None; c_subscriberId := Some "acme"; c_widgetKey := Some "key-1";
  c_locationId := None; c_widgetTitle := None; c_audioAlert := None;
  c_audioReminder := Some true; c_reminderInterval := None; c_toastAlert := None;
  c_toastPosition := None; c_toastDuration := None; c_width := None;
  c_height := None; c_showInboxOnLoad := None; c_refreshInterval := Some 60%Z;
  c_branded := None; c_compact := Some true; c_targetElement := Some "#inbox"
|}.

Definition numbered (z : Z) (r : bool) : Notification := {|
  nid := IdNum z; title := "Deploy"; text := "Deploy finished";
  alertLevel := Some "info"; read := r; dismissed := false;
  actionUrl := None; _ts := 1700000000
|}.

(** The entry of [one_unread], and the same page with its notification
    in the session cache. *)
Definition first_entry : Elem :=
  {| node := 0; shown := sample "1" false false; btn_open := false; el_read := false |}.

Definition cached_unread : World := saveNotifications [sample "1" false false] one_unread.

Definition numbered_cache : World :=
  saveNotifications [numbered 7 false; numbered 8 false]
    (addToNotiphyCenter (numbered 7 false)
       (set_socket (Some SockConnected) empty_inbox)).

(** The last word of a remote list on an id: [None] when the id does not
    occur, [Some None] when its last entry is dismissed, [Some (Some n)]
    when its last entry [n] is not. *)
Fixpoint verdict (k : JsId) (remote : list Notification)
  : option (option Notification) :=
  match remote with
  | [] => None
  | n :: r =>
      match verdict k r with
      | Some v => Some v
      | None =>
          if bool_decide (nid n = k)
          then Some (if dismissed n then None else Some n)
          else None
      end
  end.

(** The last local entry of an id. *)
Fixpoint last_local (k : JsId) (l : list Notification) : option Notification :=
  match l with
  | [] => None
  | n :: r =>
      match last_local k r with
      | Some m => Some m
      | None => if bool_decide (nid n = k) then Some n else None
      end
  end.

(** * Properties *)

Ltac unfold_M :=
  unfold exec, throws, mbind, M_bind, mret, M_ret, run, with_world, when,
    throw, try_catch in *.

(** Case analysis on the boolean condition of an [if] in the goal. *)
Ltac case_bool :=
  match goal with
  | |- context [if ?c then _ else _] =>
      lazymatch type of c with
      | bool => destruct c eqn:?; simpl
      end
  end.

(** Steps in the life of a toast. *)
Ltac pending_simpl :=
  cbn [toastTimeout startTime remainingTime pending uncaught fst snd app];
  repeat first
    [ rewrite filter_nil
    | rewrite filter_cons;
      first [ rewrite decide_True by (cbn [fst snd]; first [lia | intros [=]; lia])
            | rewrite decide_False by (cbn [fst snd]; intros H; apply H; reflexivity) ] ];
  cbn [app].

Ltac earliest_by_order :=
  cbn [earliest foldr pending fst snd];
  repeat first [ rewrite bool_decide_eq_true_2 by (cbn [fst snd]; lia)
               | rewrite bool_decide_eq_false_2 by (cbn [fst snd]; lia) ];
  reflexivity.

Ltac all_due :=
  cbn [pending]; repeat constructor; cbn [fst snd]; lia.

(** ** Configuration resolution and the constructor *)

Lemma constructor_unfold cfg w :
  constructor cfg w =
  let w1 := constructor_head cfg w in
  if negb (truthy_str (subscriberId (config (this w1)))) then
    (Normal tt, log (LogError "subscriberId is required.") w1)
  else if negb (truthy_str (widgetKey (config (this w1)))) then
    (Normal tt, log (LogError "API Key is required.") w1)
  else constructor_tail w1.
Proof.
  unfold constructor, constructor_tail, constructor_head. unfold_M. simpl.
  repeat case_match; reflexivity.
Qed.

Lemma with_locationId_same c : with_locationId (locationId c) c = c.
Proof. by destruct c. Qed.

Lemma loadSettings_resolve cfg w :
  default (spread_config defaultConfig cfg)
    (loadSettings (set_initialConfig (spread_config defaultConfig cfg) w))
  = spec_resolve cfg (notiphySettings (storage w)).
Proof.
  unfold loadSettings, spec_resolve. simpl.
  destruct (notiphySettings (storage w)) as [p|]; [|done].
  case_bool_decide as Hl; simpl; [done|].
  rewrite Hl. by rewrite with_locationId_same.
Qed.

Lemma constructor_head_config cfg w :
  config (this (constructor_head cfg w)) = spec_resolve cfg (notiphySettings (storage w)).
Proof.
  unfold constructor_head, saveSettings, checkLocationChange, clearStoredData.
  simpl. rewrite loadSettings_resolve.
  repeat case_match; reflexivity.
Qed.

Lemma constructor_head_settings cfg w :
  notiphySettings (storage (constructor_head cfg w))
  = Some (spec_resolve cfg (notiphySettings (storage w))).
Proof.
  unfold constructor_head, saveSettings. simpl. f_equal.
  unfold checkLocationChange, clearStoredData. simpl. rewrite loadSettings_resolve.
  repeat case_match; reflexivity.
Qed.

(** What [checkLocationChange] leaves of the session cache and the
    watermark once the constructor has resolved the configuration. *)
Lemma constructor_head_cache cfg w :
  let changed :=
    match notiphySettings (storage w) with
    | Some p => bool_decide (locationId (spread_config defaultConfig cfg) ≠ locationId p)
    | None => false
    end in
  notiphyWidgetNotifications (storage (constructor_head cfg w))
  = (if changed then None else notiphyWidgetNotifications (storage w))
  ∧ notiphyWidgetLastFetched (storage (constructor_head cfg w))
  = (if changed then None else notiphyWidgetLastFetched (storage w)).
Proof.
  unfold constructor_head, saveSettings, checkLocationChange, clearStoredData.
  simpl. rewrite loadSettings_resolve. unfold spec_resolve.
  destruct (notiphySettings (storage w)) as [p|]; simpl; [|done].
  case_bool_decide; simpl; done.
Qed.

Lemma constructor_head_frame cfg w :
  dom (constructor_head cfg w) = dom w ∧ env (constructor_head cfg w) = env w.
Proof.
  unfold constructor_head, saveSettings, checkLocationChange, clearStoredData.
  simpl. repeat case_match; done.
Qed.

Lemma createDomElements_frame w :
  storage (createDomElements w).2 = storage w
  ∧ this (createDomElements w).2 = this w
  ∧ timers (env (createDomElements w).2) = timers (env w)
  ∧ nextTimer (env (createDomElements w).2) = nextTimer (env w)
  ∧ requests (env (createDomElements w).2) = requests (env w)
  ∧ suspended (env (createDomElements w).2) = suspended (env w).
Proof. unfold createDomElements. simpl. case_match; done. Qed.

Lemma setupPeriodicRefresh_frame w :
  storage (setupPeriodicRefresh w) = storage w
  ∧ this (setupPeriodicRefresh w) = this w
  ∧ dom (setupPeriodicRefresh w) = dom w
  ∧ requests (env (setupPeriodicRefresh w)) = requests (env w)
  ∧ suspended (env (setupPeriodicRefresh w)) = suspended (env w).
Proof. unfold setupPeriodicRefresh. case_match; done. Qed.

Lemma setupAudioReminders_frame w :
  storage (setupAudioReminders w) = storage w
  ∧ config (this (setupAudioReminders w)) = config (this w)
  ∧ dom (setupAudioReminders w) = dom w
  ∧ requests (env (setupAudioReminders w)) = requests (env w)
  ∧ suspended (env (setupAudioReminders w)) = suspended (env w).
Proof. unfold setupAudioReminders. case_match; done. Qed.

(** The tail of the constructor leaves the storages and the
    configuration alone; it issues the first fetch unless
    [createDomElements] throws. *)
Lemma constructor_tail_spec w :
  storage (constructor_tail w).2 = storage w
  ∧ config (this (constructor_tail w).2) = config (this w)
  ∧ ((∃ e, (constructor_tail w).1 = Thrown e
           ∧ requests (env (constructor_tail w).2) = requests (env w)
           ∧ suspended (env (constructor_tail w).2) = suspended (env w))
     ∨ ((constructor_tail w).1 = Normal tt
        ∧ requests (env (constructor_tail w).2)
          = requests (env w)
              ++ [GetNotifications (subscriberId (config (this w)))
                    (locationId (config (this w)))
                    (default 0%Z (notiphyWidgetLastFetched (storage w)))]
        ∧ suspended (env (constructor_tail w).2)
          = suspended (env w) ++ [loadNotifications w])).
Proof.
  unfold constructor_tail. unfold_M.
  set (w0 := set_reminderIntervalId None _).
  destruct (createDomElements_frame w0) as (Hs & Ht & _ & _ & Hr & Hp).
  destruct (createDomElements w0) as [[[]|e] w1]; simpl in *.
  - set (w2 := setupPeriodicRefresh w1).
    destruct (setupPeriodicRefresh_frame w1) as (Hs2 & Ht2 & _ & Hr2 & Hp2).
    destruct (setupAudioReminders_frame w2) as (Hs3 & Hc3 & _ & Hr3 & Hp3).
    fold w2 in Hs2, Ht2, Hr2, Hp2.
    unfold fetchNotifications_request, loadNotifications. simpl.
    rewrite Hs3, Hc3, Hr3, Hp3, Hs2, Ht2, Hr2, Hp2, Hs, Ht, Hr, Hp. simpl.
    split; [done|]. split; [done|]. right. done.
  - rewrite Hs, Ht, Hr, Hp. simpl.
    split; [done|]. split; [done|]. left. eauto.
Qed.

(** After every run of the constructor the durable settings and
    [this.config] are the resolved configuration. *)
Lemma constructor_resolved cfg w :
  notiphySettings (storage (exec (constructor cfg) w))
  = Some (spec_resolve cfg (notiphySettings (storage w)))
  ∧ config (this (exec (constructor cfg) w))
    = spec_resolve cfg (notiphySettings (storage w)).
Proof.
  unfold exec. rewrite constructor_unfold. cbv zeta.
  pose proof (constructor_head_config cfg w) as Hc.
  pose proof (constructor_head_settings cfg w) as Hs.
  set (h := constructor_head cfg w) in *. clearbody h.
  repeat case_match; simpl; try done.
  destruct (constructor_tail_spec h) as (Hs' & Hc' & _).
  by rewrite Hs', Hc'.
Qed.

(** C10. The constructor writes the resolved configuration to the durable
    settings ([saveSettings]) before it validates [subscriberId] and
    [widgetKey]: after every initialization, rejected ones included, the
    settings blob is the resolved configuration, and a rejected
    initialization is the statements up to [saveSettings] followed by
    the error report alone. *)
Theorem constructor_saves_settings_before_validation (cfg : CallerConfig) (w : World) :
  let resolved := spec_resolve cfg (notiphySettings (storage w)) in
  let w' := exec (constructor cfg) w in
  notiphySettings (storage w') = Some resolved
  ∧ config (this w') = resolved
  ∧ notiphySettings (storage (constructor_head cfg w)) = Some resolved
  ∧ (if truthy_str (subscriberId resolved) && truthy_str (widgetKey resolved)
     then w' = exec constructor_tail (constructor_head cfg w)
     else ∃ msg, w' = log (LogError msg) (constructor_head cfg w)).
Proof.
  intros resolved w'. subst w'. unfold exec. rewrite constructor_unfold. cbv zeta.
  pose proof (constructor_head_config cfg w) as Hc.
  pose proof (constructor_head_settings cfg w) as Hs.
  fold resolved in Hc, Hs. rewrite Hc.
  destruct (truthy_str (subscriberId resolved)); simpl;
    [destruct (truthy_str (widgetKey resolved)); simpl|].
  - destruct (constructor_tail_spec (constructor_head cfg w)) as (Hs' & Hc' & _).
    rewrite Hs', Hc'. done.
  - repeat split; eauto.
  - repeat split; eauto.
Qed.

(** C6. When the subscriber identifier or the widget key of the resolved
    configuration is absent (or empty), the constructor returns without
    throwing, reports one error on the console, and constructs nothing:
    the document, the timers, the issued requests and the socket are
    what they were. *)
Theorem constructor_rejects_missing_required (cfg : CallerConfig) (w : World) :
  let resolved := spec_resolve cfg (notiphySettings (storage w)) in
  truthy_str (subscriberId resolved) = false ∨ truthy_str (widgetKey resolved) = false →
  let w' := exec (constructor cfg) w in
  throws (constructor cfg) w = false
  ∧ (∃ msg, console (env w') = console (env w) ++ [LogError msg])
  ∧ dom w' = dom w
  ∧ timers (env w') = timers (env w)
  ∧ requests (env w') = requests (env w)
  ∧ suspended (env w') = suspended (env w)
  ∧ socketCalls (env w') = socketCalls (env w)
  ∧ socket (this w') = socket (this w).
Proof.
  intros resolved Habsent w'. subst w'. unfold exec, throws.
  rewrite constructor_unfold. cbv zeta.
  rewrite (constructor_head_config cfg w). fold resolved.
  destruct (constructor_head_frame cfg w) as [Hd He].
  assert (Hk : socket (this (constructor_head cfg w)) = socket (this w)).
  { unfold constructor_head, saveSettings, checkLocationChange, clearStoredData.
    simpl. repeat case_match; done. }
  set (h := constructor_head cfg w) in *. clearbody h.
  destruct (truthy_str (subscriberId resolved)) eqn:Hsub; simpl.
  - destruct Habsent as [?|Hkey]; [done|]. rewrite Hkey. simpl.
    rewrite Hd, He, Hk. eauto 10.
  - rewrite Hd, He, Hk. eauto 10.
Qed.

Lemma constructor_rejects_missing_required_witness :
  (truthy_str (subscriberId
     (spec_resolve bare_config
        (notiphySettings (storage (page_load empty_storage 0 true))))) = false
   ∨ truthy_str (widgetKey
       (spec_resolve bare_config
          (notiphySettings (storage (page_load empty_storage 0 true))))) = false)
  ∧ throws (constructor bare_config) (page_load empty_storage 0 true) = false
  ∧ dom (exec (constructor bare_config) (page_load empty_storage 0 true))
    = dom (page_load empty_storage 0 true).
Proof.
  assert (Habsent :
    truthy_str (subscriberId
      (spec_resolve bare_config
         (notiphySettings (storage (page_load empty_storage 0 true))))) = false
    ∨ truthy_str (widgetKey
        (spec_resolve bare_config
           (notiphySettings (storage (page_load empty_storage 0 true))))) = false)
    by (left; vm_compute; reflexivity).
  destruct (constructor_rejects_missing_required bare_config
              (page_load empty_storage 0 true) Habsent) as (Hthrow & _ & Hdom & _).
  split; [exact Habsent|]. split; [exact Hthrow|exact Hdom].
Defined.

(** The constructor on a page whose durable settings hold [p]. *)
Lemma constructor_with_persisted (cfg : CallerConfig) (p : Config) (w : World) :
  notiphySettings (storage w) = Some p →
  let caller := spread_config defaultConfig cfg in
  let resolved := with_locationId (locationId caller) p in
  let w' := exec (constructor cfg) w in
  config (this w') = resolved
  ∧ notiphySettings (storage w') = Some resolved
  ∧ (locationId caller ≠ locationId p →
     notiphyWidgetNotifications (storage w') = None
     ∧ notiphyWidgetLastFetched (storage w') = None
     ∧ (requests (env w') = requests (env w)
        ∨ requests (env w')
          = requests (env w)
              ++ [GetNotifications (subscriberId p) (locationId caller) 0%Z])
     ∧ (suspended (env w') = suspended (env w)
        ∨ suspended (env w') = suspended (env w) ++ [[]])).
Proof.
  intros Hp caller resolved w'.
  destruct (constructor_resolved cfg w) as (Hs & Hc).
  rewrite Hp in Hs, Hc. fold w' in Hs, Hc.
  split; [done|]. split; [done|]. intros Hne.
  subst w'. clear Hs Hc. unfold exec. rewrite constructor_unfold. cbv zeta.
  destruct (constructor_head_cache cfg w) as [Hn Hl].
  rewrite Hp in Hn, Hl. fold caller in Hn, Hl.
  rewrite bool_decide_eq_true_2 in Hn, Hl by done.
  destruct (constructor_head_frame cfg w) as [Hd He].
  pose proof (constructor_head_config cfg w) as Hcfg.
  rewrite Hp in Hcfg.
  set (h := constructor_head cfg w) in *. clearbody h.
  repeat case_match; simpl.
  - rewrite Hn, Hl, He. repeat split; auto.
  - rewrite Hn, Hl, He. repeat split; auto.
  - destruct (constructor_tail_spec h)
      as (Hs' & _ & [(e & _ & Hr & Hq)|(_ & Hr & Hq)]);
      rewrite Hs', Hr, Hq, Hn, Hl, He; [repeat split; auto|].
    unfold loadNotifications. rewrite Hn, Hcfg. simpl.
    repeat split; auto.
Qed.

(** C5. Two initializations that share the durable settings: the second
    one runs on any page whose settings blob is the one the first left.
    Its configuration is the persisted one in every field except
    [locationId], which is the one its own caller resolves to; the blob
    it writes back is that configuration.  When the two location ids
    differ, the session cache and the watermark are gone when the
    constructor returns, and the first fetch, if one is issued, was sent
    with watermark 0 and holds an empty cached list. *)
Theorem reinitialization_precedence (cfg1 cfg2 : CallerConfig) (w1 w2 : World) :
  notiphySettings (storage w2)
  = notiphySettings (storage (exec (constructor cfg1) w1)) →
  let persisted := config (this (exec (constructor cfg1) w1)) in
  let caller := spread_config defaultConfig cfg2 in
  let w' := exec (constructor cfg2) w2 in
  config (this w') = with_locationId (locationId caller) persisted
  ∧ notiphySettings (storage w') = Some (with_locationId (locationId caller) persisted)
  ∧ (locationId caller ≠ locationId persisted →
     notiphyWidgetNotifications (storage w') = None
     ∧ notiphyWidgetLastFetched (storage w') = None
     ∧ (requests (env w') = requests (env w2)
        ∨ requests (env w')
          = requests (env w2)
              ++ [GetNotifications (subscriberId persisted) (locationId caller) 0%Z])
     ∧ (suspended (env w') = suspended (env w2)
        ∨ suspended (env w') = suspended (env w2) ++ [[]])).
Proof.
  intros Hshared persisted caller w'.
  destruct (constructor_resolved cfg1 w1) as [Hs Hc].
  assert (Hp : notiphySettings (storage w2) = Some persisted).
  { rewrite Hshared, Hs. subst persisted. by rewrite Hc. }
  exact (constructor_with_persisted cfg2 persisted w2 Hp).
Qed.

Lemma reinitialization_precedence_witness :
  notiphySettings (storage second_page)
  = notiphySettings (storage (exec (constructor site_a) blank_page))
  ∧ config (this (exec (constructor site_b) second_page))
    = with_locationId (locationId (spread_config defaultConfig site_b))
        (config (this (exec (constructor site_a) blank_page)))
  ∧ notiphyWidgetNotifications (storage (exec (constructor site_b) second_page)) = None
  ∧ notiphyWidgetLastFetched (storage (exec (constructor site_b) second_page)) = None.
Proof.
  assert (Hshared : notiphySettings (storage second_page)
                    = notiphySettings (storage (exec (constructor site_a) blank_page)))
    by (vm_compute; reflexivity).
  assert (Hne : locationId (spread_config defaultConfig site_b)
                ≠ locationId (config (this (exec (constructor site_a) blank_page))))
    by (vm_compute; discriminate).
  destruct (reinitialization_precedence site_a site_b blank_page second_page Hshared)
    as (Hc & _ & Hclear).
  destruct (Hclear Hne) as (Hn & Hl & _).
  split; [exact Hshared|]. split; [exact Hc|]. split; [exact Hn|exact Hl].
Defined.

(** C7. [setupPeriodicRefresh] creates no timer when [refreshInterval] is
    0, and otherwise exactly one interval that calls
    [fetchNotifications] every [max(300, refreshInterval)] seconds; with
    [refreshInterval = 60] the period is 300 000 ms. *)
Theorem setupPeriodicRefresh_period (w : World) :
  let refresh := refreshInterval (config (this w)) in
  timers (env (setupPeriodicRefresh w))
  = (if bool_decide (refresh = 0%Z) then timers (env w)
     else timers (env w)
            ++ [(nextTimer (env w),
                 Interval (1000 * Z.max 300 refresh) CbFetchNotifications)])
  ∧ (refresh = 60%Z →
     timers (env (setupPeriodicRefresh w))
     = timers (env w)
         ++ [(nextTimer (env w), Interval 300000 CbFetchNotifications)]).
Proof.
  intros refresh. unfold setupPeriodicRefresh, truthy_num. fold refresh.
  split.
  - case_bool_decide; simpl; [done|].
    by replace (Z.max 300000 (refresh * 1000))%Z
         with (1000 * Z.max 300 refresh)%Z by lia.
  - intros ->. reflexivity.
Qed.

Lemma setupPeriodicRefresh_period_witness :
  refreshInterval (config (this refresh_60)) = 60%Z
  ∧ timers (env (setupPeriodicRefresh refresh_60))
    = timers (env refresh_60)
        ++ [(nextTimer (env refresh_60), Interval 300000 CbFetchNotifications)].
Proof.
  assert (H60 : refreshInterval (config (this refresh_60)) = 60%Z)
    by (vm_compute; reflexivity).
  split; [exact H60|].
  exact (proj2 (setupPeriodicRefresh_period refresh_60) H60).
Defined.

(** ** The inbox and its counters *)

(** What one [addToNotiphyCenter] does to the inbox and the counters. *)
Lemma addToNotiphyCenter_spec (n : Notification) (w : World) :
  let w' := addToNotiphyCenter n w in
  centerBody (dom w')
  = {| node := nextNode (env w); shown := n; btn_open := read n; el_read := read n |}
      :: centerBody (dom w)
  ∧ statsTotal (dom w') = (statsTotal (dom w) + 1)%Z
  ∧ statsUnread (dom w') = (statsUnread (dom w) + if read n then 0 else 1)%Z
  ∧ toaster (dom w') = toaster (dom w)
  ∧ storage w' = storage w
  ∧ this w' = this w
  ∧ requests (env w') = requests (env w)
  ∧ console (env w') = console (env w)
  ∧ connectionStatus (dom w') = connectionStatus (dom w).
Proof.
  unfold addToNotiphyCenter, assembleNotification. simpl.
  destruct (read n); simpl; repeat split; try done; lia.
Qed.

Lemma addToNotiphyCenter_fold (l : list Notification) (w : World) :
  let w' := foldl (λ w n, addToNotiphyCenter n w) w l in
  shown <$> centerBody (dom w') = reverse l ++ (shown <$> centerBody (dom w))
  ∧ statsTotal (dom w') = (statsTotal (dom w) + Z.of_nat (length l))%Z
  ∧ statsUnread (dom w')
    = (statsUnread (dom w) + Z.of_nat (length (filter (λ n, read n = false) l)))%Z
  ∧ storage w' = storage w
  ∧ this w' = this w.
Proof.
  revert w. induction l as [|n l IH]; intros w; simpl.
  { repeat split; try done; lia. }
  destruct (addToNotiphyCenter_spec n w) as (Hb & Ht & Hu & _ & Hs & Hw & _).
  destruct (IH (addToNotiphyCenter n w)) as (Hb' & Ht' & Hu' & Hs' & Hw').
  rewrite Hb', Ht', Hu', Hs', Hw', Hb, Ht, Hu, Hs, Hw.
  rewrite reverse_cons, <- app_assoc. simpl.
  rewrite filter_cons.
  split_and!; try done; [lia|].
  case_decide as Hd; destruct (read n); simplify_eq/=; lia.
Qed.

(** C8. [handleNotification] for a blocker shows the modal at once and
    schedules the inbox insertion on a timeout of 0 ms, whatever
    [toastAlert] says; for any other notification the insertion is
    scheduled after [toastDuration] seconds when [toastAlert] is on (the
    toast is shown at once) and after 0 ms when it is off.  The
    insertion itself is only scheduled: the inbox and the counters change
    when the timeout fires, and firing it looks at neither the modal nor
    [toastAlert]. *)
Theorem handleNotification_delivery (n : Notification) (w : World) :
  let w' := handleNotification n w in
  let blocker := bool_decide (alertLevel n = Some "blocker") in
  let insertion delay id := (id, Timeout delay (CbAddToNotiphyCenter n)) in
  timers (env w')
  = timers (env w)
      ++ (if blocker then [insertion 0%Z (nextTimer (env w))]
          else if toastAlert (config (this w)) then
            [(nextTimer (env w),
              Timeout 10 (CbShowToast (nextNode (env w))
                            ((if truthy_num (toastDuration (config (this w)))
                              then toastDuration (config (this w)) else 4) * 1000)));
             insertion (toastDuration (config (this w)) * 1000)%Z
               (S (nextTimer (env w)))]
          else [insertion 0%Z (nextTimer (env w))])
  ∧ blockerModal (dom w')
    = (if blocker then Some (title n, text n) else blockerModal (dom w))
  ∧ toaster (dom w')
    = (if blocker then toaster (dom w)
       else if toastAlert (config (this w))
            then {| t_node := nextNode (env w); t_shown := n |} :: toaster (dom w)
            else toaster (dom w))
  ∧ centerBody (dom w') = centerBody (dom w)
  ∧ statsTotal (dom w') = statsTotal (dom w)
  ∧ statsUnread (dom w') = statsUnread (dom w)
  ∧ ∀ w0 : World,
      shown <$> centerBody (dom (fire_CbAddToNotiphyCenter n w0))
      = n :: (shown <$> centerBody (dom w0))
      ∧ statsTotal (dom (fire_CbAddToNotiphyCenter n w0)) = (statsTotal (dom w0) + 1)%Z
      ∧ statsUnread (dom (fire_CbAddToNotiphyCenter n w0))
        = (statsUnread (dom w0) + if read n then 0 else 1)%Z.
Proof.
  intros w' blocker insertion. subst w' insertion. unfold handleNotification.
  fold blocker. split_and!.
  - destruct blocker; [|destruct (toastAlert (config (this w)))];
      unfold showBlockerModal, playPingSound, play, showToast; simpl;
      repeat case_match; simpl; try done.
    all: by rewrite <- app_assoc.
  - destruct blocker; [|destruct (toastAlert (config (this w)))];
      unfold showBlockerModal, playPingSound, play, showToast; simpl;
      repeat case_match; done.
  - destruct blocker; [|destruct (toastAlert (config (this w)))];
      unfold showBlockerModal, playPingSound, play, showToast; simpl;
      repeat case_match; done.
  - destruct blocker; [|destruct (toastAlert (config (this w)))];
      unfold showBlockerModal, playPingSound, play, showToast; simpl;
      repeat case_match; done.
  - destruct blocker; [|destruct (toastAlert (config (this w)))];
      unfold showBlockerModal, playPingSound, play, showToast; simpl;
      repeat case_match; done.
  - destruct blocker; [|destruct (toastAlert (config (this w)))];
      unfold showBlockerModal, playPingSound, play, showToast; simpl;
      repeat case_match; done.
  - intros w0. unfold fire_CbAddToNotiphyCenter, playPopSound, play.
    destruct (addToNotiphyCenter_spec n w0) as (Hb & Ht & Hu & _ & _ & Hw & _).
    rewrite Hw. set (w1 := addToNotiphyCenter n w0) in *. clearbody w1.
    destruct (audioAlert (config (this w0))); simpl;
      rewrite ?Hb, ?Ht, ?Hu; done.
Qed.

(** C9. After a successful fetch the two counters are rebuilt from
    nothing: whatever they showed before, the total is the number of
    merged notifications and the unread counter the number of those with
    [read = false]; the inbox shows exactly the merged notifications
    (the last one on top), which are also what is cached. *)
Theorem fetch_success_rebuilds_counters
    (localNotifications fetched : list Notification) (w : World) :
  let merged := mergeNotifications localNotifications fetched in
  let w' := exec (fetchNotifications_response localNotifications (FetchJson fetched)) w in
  throws (fetchNotifications_response localNotifications (FetchJson fetched)) w = false
  ∧ shown <$> centerBody (dom w') = reverse merged
  ∧ statsTotal (dom w') = Z.of_nat (length merged)
  ∧ statsUnread (dom w')
    = Z.of_nat (length (filter (λ n, read n = false) merged))
  ∧ notifications (this w') = merged
  ∧ notiphyWidgetNotifications (storage w') = Some merged.
Proof.
  intros merged w'. subst w'.
  unfold fetchNotifications_response, fetchNotifications_try. fold merged.
  unfold_M. simpl.
  set (w0 := updateTotalCount 0 _).
  destruct (addToNotiphyCenter_fold merged w0) as (Hb & Ht & Hu & Hs & Hw).
  set (w1 := foldl _ w0 merged) in *. clearbody w1.
  unfold toggleNotificationCenter.
  repeat case_bool;
    rewrite ?Hb, ?Ht, ?Hu, ?Hs, ?Hw; subst w0; simpl;
    rewrite ?app_nil_r; split_and!; try done; lia.
Qed.

(** ** The merge of cached and fetched notifications *)

Section jsmap.
Context {V : Type}.
Implicit Types (k : JsId) (v : V) (m : list (JsId * V)).

Lemma jsmap_set_keys k v m :
  (jsmap_set k v m).*1 = if bool_decide (k ∈ m.*1) then m.*1 else m.*1 ++ [k].
Proof.
  induction m as [|[k' v'] m IH]; csimpl; [done|].
  destruct (decide (k' = k)) as [->|Hne].
  - rewrite (bool_decide_eq_true_2 (k = k)) by done.
    rewrite (bool_decide_eq_true_2 (k ∈ k :: m.*1)); [done|].
    apply elem_of_cons. by left.
  - rewrite (bool_decide_eq_false_2 (k' = k)) by done. csimpl. rewrite IH.
    destruct (decide (k ∈ m.*1)) as [Hin|Hin].
    + rewrite (bool_decide_eq_true_2 (k ∈ m.*1)) by done.
      rewrite (bool_decide_eq_true_2 (k ∈ k' :: m.*1)); [done|].
      apply elem_of_cons. by right.
    + rewrite (bool_decide_eq_false_2 (k ∈ m.*1)) by done.
      rewrite (bool_decide_eq_false_2 (k ∈ k' :: m.*1)); [done|].
      rewrite elem_of_cons. intros [->|?]; done.
Qed.

Lemma jsmap_set_fresh k v m : k ∉ m.*1 → jsmap_set k v m = m ++ [(k, v)].
Proof.
  induction m as [|[k' v'] m IH]; simpl; intros Hk; [done|].
  apply not_elem_of_cons in Hk as [Hne Hk].
  rewrite bool_decide_eq_false_2 by done.
  by rewrite IH.
Qed.

Lemma jsmap_set_NoDup k v m : NoDup m.*1 → NoDup (jsmap_set k v m).*1.
Proof.
  intros Hm. rewrite jsmap_set_keys. case_bool_decide; [done|].
  apply NoDup_app. split; [done|]. split; [|apply NoDup_singleton].
  intros k' Hin Hk'. apply list_elem_of_singleton in Hk'. by subst.
Qed.

Lemma jsmap_delete_keys k m : (jsmap_delete k m).*1 = filter (λ k', k' ≠ k) m.*1.
Proof.
  unfold jsmap_delete. induction m as [|[k' v'] m IH]; csimpl; [done|].
  rewrite !filter_cons. csimpl. case_decide; csimpl; by rewrite IH.
Qed.

Lemma jsmap_delete_NoDup k m : NoDup m.*1 → NoDup (jsmap_delete k m).*1.
Proof. intros Hm. rewrite jsmap_delete_keys. by apply NoDup_filter. Qed.

Lemma jsmap_set_to_map k v m :
  (list_to_map (jsmap_set k v m) : gmap JsId V) = <[k:=v]> (list_to_map m).
Proof.
  induction m as [|[k' v'] m IH]; csimpl; [done|].
  case_bool_decide as Hk; subst; csimpl.
  - by rewrite insert_insert_eq.
  - rewrite IH. by apply insert_insert_ne.
Qed.

Lemma jsmap_delete_to_map k m :
  (list_to_map (jsmap_delete k m) : gmap JsId V) = delete k (list_to_map m).
Proof.
  unfold jsmap_delete. induction m as [|[k' v'] m IH]; csimpl.
  { by rewrite delete_empty. }
  rewrite filter_cons. csimpl. case_decide as Hk; csimpl.
  - rewrite IH. by rewrite delete_insert_ne.
  - subst. rewrite IH. by rewrite delete_insert_eq.
Qed.
End jsmap.

Lemma keyed_set n m : keyed m → keyed (jsmap_set (nid n) n m).
Proof.
  intros [Hnd Hk]. split; [by apply jsmap_set_NoDup|].
  clear Hnd. induction m as [|[k' v'] m IH]; simpl.
  { by repeat constructor. }
  inversion Hk; subst. case_bool_decide; constructor; auto.
Qed.

Lemma keyed_delete k m : keyed m → keyed (jsmap_delete k m).
Proof.
  intros [Hnd Hk]. split; [by apply jsmap_delete_NoDup|].
  unfold jsmap_delete. rewrite Forall_forall in Hk. apply Forall_forall.
  intros p Hp. apply list_elem_of_filter in Hp as [_ Hp]. by apply Hk.
Qed.

Lemma keyed_values m : keyed m → nid <$> jsmap_values m = m.*1.
Proof.
  intros [_ Hk]. unfold jsmap_values.
  induction Hk as [|[k v] m Hp _ IH]; csimpl in *; [done|]. by rewrite IH, Hp.
Qed.

Lemma merge_local_keyed l m :
  keyed m → keyed (foldl (λ m n, jsmap_set (nid n) n m) m l).
Proof. revert m. induction l; simpl; auto using keyed_set. Qed.

Lemma merge_remote_keyed l m :
  keyed m →
  keyed (foldl (λ m n, if dismissed n then jsmap_delete (nid n) m
                       else jsmap_set (nid n) n m) m l).
Proof.
  revert m. induction l as [|n l IH]; simpl; [done|]. intros m Hm.
  apply IH. destruct (dismissed n); auto using keyed_set, keyed_delete.
Qed.

Lemma merge_map_keyed localNotifications fetched :
  keyed (merge_map localNotifications fetched).
Proof.
  apply merge_remote_keyed, merge_local_keyed. split; constructor.
Qed.

Lemma merge_map_to_map localNotifications fetched :
  list_to_map (merge_map localNotifications fetched)
  = spec_merge localNotifications fetched.
Proof.
  unfold merge_map, spec_merge.
  assert (Hl : ∀ l m (g : gmap JsId Notification),
             list_to_map m = g →
             list_to_map (foldl (λ m n, jsmap_set (nid n) n m) m l)
             = foldl (λ m n, <[nid n := n]> m) g l).
  { induction l as [|n l IH]; simpl; [done|]. intros m g <-.
    apply IH. apply jsmap_set_to_map. }
  assert (Hr : ∀ l m (g : gmap JsId Notification),
             list_to_map m = g →
             list_to_map (foldl (λ m n, if dismissed n then jsmap_delete (nid n) m
                                        else jsmap_set (nid n) n m) m l)
             = foldl (λ m n, if dismissed n then delete (nid n) m
                             else <[nid n := n]> m) g l).
  { induction l as [|n l IH]; simpl; [done|]. intros m g <-.
    apply IH. destruct (dismissed n);
      [apply jsmap_delete_to_map|apply jsmap_set_to_map]. }
  apply Hr, Hl. done.
Qed.

(** The code's result is the value list of the specification's map, up
    to order. *)
Lemma mergeNotifications_refines localNotifications fetched :
  mergeNotifications localNotifications fetched
  ≡ₚ (map_to_list (spec_merge localNotifications fetched)).*2.
Proof.
  change (mergeNotifications localNotifications fetched)
    with (merge_map localNotifications fetched).*2.
  rewrite <- merge_map_to_map.
  apply fmap_Permutation. symmetry. apply map_to_list_to_map.
  apply merge_map_keyed.
Qed.

Lemma merge_local_fresh (l : list Notification) (m : list (JsId * Notification)) :
  NoDup (m.*1 ++ (nid <$> l)) →
  foldl (λ m n, jsmap_set (nid n) n m) m l = m ++ ((λ n, (nid n, n)) <$> l).
Proof.
  revert m. induction l as [|n l IH]; intros m Hnd; csimpl.
  { by rewrite app_nil_r. }
  csimpl in Hnd.
  assert (Hfresh : nid n ∉ m.*1).
  { apply NoDup_app in Hnd as (_ & Hd & _). intros Hin.
    apply (Hd _ Hin). apply elem_of_cons. by left. }
  rewrite jsmap_set_fresh by done.
  rewrite IH.
  - by rewrite <- app_assoc.
  - rewrite fmap_app. csimpl. by rewrite <- app_assoc.
Qed.

(** With one entry per id in the cache, an empty answer changes nothing. *)
Lemma mergeNotifications_empty_remote (l : list Notification) :
  NoDup (nid <$> l) → mergeNotifications l [] = l.
Proof.
  intros Hnd. unfold mergeNotifications, jsmap_values. csimpl.
  rewrite merge_local_fresh by done. csimpl.
  rewrite <- list_fmap_compose. apply list_fmap_id.
Qed.

Lemma merge_remote_absent (k : JsId) (l : list Notification)
    (m : list (JsId * Notification)) :
  k ∉ m.*1 →
  Forall (λ n, nid n = k → dismissed n = true) l →
  k ∉ (foldl (λ m n, if dismissed n then jsmap_delete (nid n) m
                     else jsmap_set (nid n) n m) m l).*1.
Proof.
  revert m. induction l as [|n l IH]; intros m Hk Hl; csimpl; [done|].
  inversion Hl as [|? ? Hn Hl']; subst. apply IH; [|done].
  destruct (dismissed n) eqn:Hd.
  - rewrite jsmap_delete_keys. intros Hin.
    apply list_elem_of_filter in Hin as [_ Hin]. done.
  - rewrite jsmap_set_keys. case_bool_decide; [done|].
    rewrite elem_of_app. intros [Hin|Hin]; [done|].
    apply list_elem_of_singleton in Hin. subst.
    specialize (Hn eq_refl). congruence.
Qed.

(** A dismissed remote entry removes its id, as long as no later remote
    entry brings the id back. *)
Lemma mergeNotifications_dismissed (localNotifications before after : list Notification)
    (n : Notification) :
  dismissed n = true →
  Forall (λ n', nid n' = nid n → dismissed n' = true) after →
  nid n ∉ nid <$> mergeNotifications localNotifications (before ++ n :: after).
Proof.
  intros Hd Hafter.
  change (mergeNotifications localNotifications (before ++ n :: after))
    with (jsmap_values (merge_map localNotifications (before ++ n :: after))).
  rewrite keyed_values by apply merge_map_keyed.
  unfold merge_map. rewrite foldl_app. csimpl. rewrite Hd.
  apply merge_remote_absent; [|done].
  rewrite jsmap_delete_keys. intros Hin.
  apply list_elem_of_filter in Hin as [Hne _]. done.
Qed.

(** C2, as stated, fails on repeated ids.  A remote list that carries a
    dismissed entry and, after it, a live entry of the same id leaves the
    id in the result; and an empty remote list does not return a local
    list that holds an id twice. *)
Lemma merge_repeated_id_counterexample :
  (dismissed (sample "7" false true) = true
   ∧ sample "7" false true ∈ [sample "7" false true; sample "7" false false]
   ∧ mergeNotifications [] [sample "7" false true; sample "7" false false]
     = [sample "7" false false]
   ∧ ¬ (nid (sample "7" false true)
        ∉ nid <$> mergeNotifications [] [sample "7" false true; sample "7" false false]))
  ∧ mergeNotifications [sample "7" false false; sample "7" true false] []
    = [sample "7" true false]
  ∧ ¬ (mergeNotifications [sample "7" false false; sample "7" true false] []
       ≡ₚ [sample "7" false false; sample "7" true false]).
Proof.
  split_and!.
  - reflexivity.
  - apply elem_of_cons. by left.
  - vm_compute. reflexivity.
  - intros H. apply H. vm_compute. apply elem_of_cons. by left.
  - vm_compute. reflexivity.
  - intros H. apply Permutation_length in H. vm_compute in H. discriminate.
Qed.

(** C2 (amended). The merge is, up to order, the value list of the map
    the specification describes.  Merging an empty remote list returns
    the local list itself when the local ids are pairwise distinct.  A
    remote entry with a dismissed flag removes its id from the result
    unless a later remote entry of the same id carries no dismissed
    flag. *)
Theorem mergeNotifications_spec (localNotifications remote : list Notification) :
  mergeNotifications localNotifications remote
  ≡ₚ (map_to_list (spec_merge localNotifications remote)).*2
  ∧ (NoDup (nid <$> localNotifications) →
     mergeNotifications localNotifications [] = localNotifications)
  ∧ (∀ before n after,
       remote = before ++ n :: after →
       dismissed n = true →
       Forall (λ n', nid n' = nid n → dismissed n' = true) after →
       nid n ∉ nid <$> mergeNotifications localNotifications remote).
Proof.
  split_and!.
  - apply mergeNotifications_refines.
  - apply mergeNotifications_empty_remote.
  - intros before n after -> Hd Hafter. by apply mergeNotifications_dismissed.
Qed.

Lemma mergeNotifications_spec_witness :
  NoDup (nid <$> [sample "1" false false; sample "2" true false])
  ∧ mergeNotifications [sample "1" false false; sample "2" true false] []
    = [sample "1" false false; sample "2" true false]
  ∧ nid (sample "1" false true)
    ∉ nid <$> mergeNotifications [sample "1" false false; sample "2" true false]
                ([sample "3" false false] ++ sample "1" false true :: [sample "2" true false]).
Proof.
  assert (Hnd : NoDup (nid <$> [sample "1" false false; sample "2" true false])).
  { apply (bool_decide_unpack _). vm_compute. exact I. }
  destruct (mergeNotifications_spec
              [sample "1" false false; sample "2" true false]
              ([sample "3" false false] ++ sample "1" false true :: [sample "2" true false]))
    as (_ & Hempty & Hdismissed).
  split; [exact Hnd|]. split; [exact (Hempty Hnd)|].
  apply (Hdismissed [sample "3" false false] (sample "1" false true)
           [sample "2" true false] eq_refl eq_refl).
  repeat constructor. vm_compute. discriminate.
Defined.

(** ** Counters against the inbox *)

Lemma handleDismissedNotification_cases (i : JsId) (w : World) :
  exec (handleDismissedNotification i) w = w
  ∨ ∃ e, find_mark_read_button (id_text i) w = Some e
         ∧ exec (handleDismissedNotification i) w
           = removeLocalNotification i
               (updateStatsAfterDismissal (btn_open e)
                  (remove_matching (id_text i) w)).
Proof.
  unfold exec, handleDismissedNotification.
  destruct (has_attr (id_text i) w); simpl; [|by left].
  destruct (find_mark_read_button (id_text i) w) as [e|]; simpl; [|by left].
  right. by exists e.
Qed.

Lemma handleMarkedReadNotification_cases (i : JsId) (w : World) :
  exec (handleMarkedReadNotification i) w = w
  ∨ ∃ e, find_mark_read_button (id_text i) w = Some e
         ∧ exec (handleMarkedReadNotification i) w
           = updateLocalNotification i (with_read true)
               (updateStatsAfterMarkRead (btn_open e)
                  (if negb (btn_open e)
                   then set_centerBody (mark_first (id_text i) (centerBody (dom w))) w
                   else w)).
Proof.
  unfold exec, handleMarkedReadNotification.
  destruct (has_attr (id_text i) w); simpl; [|by left].
  destruct (find_mark_read_button (id_text i) w) as [e|]; simpl; [|by left].
  right. by exists e.
Qed.

Lemma find_mark_read_button_Some (a : string) (w : World) (e : Elem) :
  find_mark_read_button a w = Some e →
  ∃ before after,
    centerBody (dom w) = before ++ e :: after
    ∧ attr e = a
    ∧ Forall (λ e', attr e' ≠ a) before.
Proof.
  unfold find_mark_read_button. intros H.
  destruct (list_find _ _) as [[i e']|] eqn:Hf; simplify_eq/=.
  apply list_find_Some in Hf as (Hi & Ha & Hbefore).
  apply list_elem_of_split_length in Hi as (before & after & Hcb & ->).
  rewrite Hcb in Hbefore.
  exists before, after. split_and!; [done..|].
  apply Forall_forall. intros e' He'.
  apply list_elem_of_lookup in He' as [j Hj].
  apply (Hbefore j e'); [by rewrite lookup_app_l by (by eapply lookup_lt_Some)|].
  by eapply lookup_lt_Some.
Qed.

Lemma storage_updates_keep_dom (i : JsId) (w : World) :
  dom (removeLocalNotification i w) = dom w
  ∧ dom (updateLocalNotification i (with_read true) w) = dom w.
Proof.
  unfold removeLocalNotification, updateLocalNotification, saveNotifications.
  split; [done|]. by case_match.
Qed.

Lemma filter_all {A} (P : A → Prop) `{∀ x, Decision (P x)} (l : list A) :
  Forall P l → filter P l = l.
Proof.
  induction 1 as [|x l Hx _ IH]; [done|].
  rewrite filter_cons. rewrite decide_True by done. by rewrite IH.
Qed.

(** With one entry per id, removing the entries of an id removes the
    one entry found. *)
Lemma remove_unique (a : string) (before after : list Elem) (e : Elem) :
  NoDup (attr <$> (before ++ e :: after)) →
  attr e = a →
  filter (λ e', attr e' ≠ a) (before ++ e :: after) = before ++ after.
Proof.
  intros Hnd Ha. rewrite fmap_app in Hnd. csimpl in Hnd.
  apply NoDup_app in Hnd as (_ & Hdisj & Hnd).
  apply NoDup_cons in Hnd as [Hafter _].
  rewrite filter_app, filter_cons. rewrite decide_False by (intros ?; done).
  rewrite !filter_all; [done| |].
  - apply Forall_forall. intros e' He' Heq. apply Hafter.
    rewrite Ha, <- Heq. by apply list_elem_of_fmap_2.
  - apply Forall_forall. intros e' He' Heq.
    apply (Hdisj (attr e')); [by apply list_elem_of_fmap_2|].
    rewrite Heq, <- Ha. apply elem_of_cons. by left.
Qed.

Lemma mark_first_split (a : string) (before after : list Elem) (e : Elem) :
  Forall (λ e', attr e' ≠ a) before →
  attr e = a →
  mark_first a (before ++ e :: after)
  = before ++ {| node := node e; shown := shown e; btn_open := true; el_read := true |}
             :: after.
Proof.
  intros Hbefore Ha. induction Hbefore as [|e' before He' _ IH]; csimpl.
  - by rewrite bool_decide_eq_true_2.
  - rewrite bool_decide_eq_false_2 by done. by rewrite IH.
Qed.

Lemma unread_entries_app (l1 l2 : list Elem) :
  unread_entries (l1 ++ l2) = unread_entries l1 ++ unread_entries l2.
Proof. apply filter_app. Qed.

Lemma unread_entries_cons (e : Elem) (l : list Elem) :
  length (unread_entries (e :: l))
  = (if btn_open e then 0 else 1) + length (unread_entries l).
Proof.
  unfold unread_entries. rewrite filter_cons.
  destruct (btn_open e); simpl; done.
Qed.

Lemma addToNotiphyCenter_ok (n : Notification) (w : World) :
  id_text (nid n) ∉ attr <$> centerBody (dom w) →
  inbox_ok w → inbox_ok (addToNotiphyCenter n w).
Proof.
  intros Hfresh [Hnd [Ht Hu]].
  destruct (addToNotiphyCenter_spec n w) as (Hb & Ht' & Hu' & _).
  unfold inbox_ok, counters_agree. rewrite Hb, Ht', Hu', Ht, Hu.
  rewrite unread_entries_cons. csimpl.
  split; [by apply NoDup_cons|].
  destruct (read n); split; lia.
Qed.

Lemma handleDismissedNotification_ok (i : JsId) (w : World) :
  inbox_ok w → inbox_ok (exec (handleDismissedNotification i) w).
Proof.
  intros Hok.
  destruct (handleDismissedNotification_cases i w) as [->|(e & Hfind & ->)]; [done|].
  destruct Hok as [Hnd [Ht Hu]].
  apply find_mark_read_button_Some in Hfind as (before & after & Hcb & Ha & _).
  unfold inbox_ok, counters_agree.
  rewrite (proj1 (storage_updates_keep_dom i _)).
  assert (Hbody : centerBody (dom (updateStatsAfterDismissal (btn_open e)
                                     (remove_matching (id_text i) w)))
                  = before ++ after).
  { unfold updateStatsAfterDismissal, updateUnreadCount, remove_matching.
    destruct (btn_open e); simpl; rewrite Hcb; apply remove_unique; by rewrite <- ?Hcb. }
  assert (Hcount : statsTotal (dom (updateStatsAfterDismissal (btn_open e)
                                      (remove_matching (id_text i) w)))
                   = Z.max 0 (statsTotal (dom w) - 1)
                   ∧ statsUnread (dom (updateStatsAfterDismissal (btn_open e)
                                         (remove_matching (id_text i) w)))
                     = if btn_open e then statsUnread (dom w)
                       else Z.max 0 (statsUnread (dom w) - 1)).
  { unfold updateStatsAfterDismissal, updateUnreadCount, remove_matching.
    destruct (btn_open e); simpl; done. }
  destruct Hcount as [Ht' Hu']. rewrite Hbody, Ht', Hu', Ht, Hu, Hcb.
  rewrite !unread_entries_app, !length_app, unread_entries_cons. csimpl.
  split.
  - rewrite Hcb, fmap_app in Hnd. csimpl in Hnd. rewrite fmap_app.
    apply NoDup_app in Hnd as (Hb & Hdisj & Hnd).
    apply NoDup_cons in Hnd as [_ Hafter].
    apply NoDup_app. split_and!; [done| |done].
    intros x Hx Hx'. apply (Hdisj x Hx). apply elem_of_cons. by right.
  - destruct (btn_open e); split; lia.
Qed.

Lemma handleMarkedReadNotification_ok (i : JsId) (w : World) :
  inbox_ok w → inbox_ok (exec (handleMarkedReadNotification i) w).
Proof.
  intros Hok.
  destruct (handleMarkedReadNotification_cases i w) as [->|(e & Hfind & ->)]; [done|].
  destruct Hok as [Hnd [Ht Hu]].
  apply find_mark_read_button_Some in Hfind as (before & after & Hcb & Ha & Hbefore).
  unfold inbox_ok, counters_agree.
  rewrite (proj2 (storage_updates_keep_dom i _)).
  unfold updateStatsAfterMarkRead, updateUnreadCount.
  destruct (btn_open e) eqn:Hopen; simpl; [done|].
  rewrite Hcb, mark_first_split by done.
  rewrite Hcb in Hnd, Ht, Hu. rewrite Ht, Hu.
  rewrite !unread_entries_app, !length_app, !unread_entries_cons in *.
  rewrite !fmap_app in *. csimpl in *. rewrite Hopen.
  split; [done|]. split; lia.
Qed.

Lemma apply_op_nonneg (op : StoreOp) (w : World) :
  (0 ≤ statsUnread (dom w))%Z → (0 ≤ statsTotal (dom w))%Z →
  (0 ≤ statsUnread (dom (apply_op op w)))%Z
  ∧ (0 ≤ statsTotal (dom (apply_op op w)))%Z.
Proof.
  intros Hu Ht. destruct op as [n|i|i]; unfold apply_op.
  - destruct (addToNotiphyCenter_spec n w) as (_ & Ht' & Hu' & _).
    rewrite Ht', Hu'. destruct (read n); lia.
  - destruct (handleDismissedNotification_cases i w) as [->|(e & _ & ->)]; [done|].
    rewrite (proj1 (storage_updates_keep_dom i _)).
    unfold updateStatsAfterDismissal, updateUnreadCount, remove_matching.
    destruct (btn_open e); simpl; lia.
  - destruct (handleMarkedReadNotification_cases i w) as [->|(e & _ & ->)]; [done|].
    rewrite (proj2 (storage_updates_keep_dom i _)).
    unfold updateStatsAfterMarkRead, updateUnreadCount.
    destruct (btn_open e); simpl; lia.
Qed.

Lemma apply_ops_nonneg (ops : list StoreOp) (w : World) :
  (0 ≤ statsUnread (dom w))%Z → (0 ≤ statsTotal (dom w))%Z →
  (0 ≤ statsUnread (dom (apply_ops ops w)))%Z
  ∧ (0 ≤ statsTotal (dom (apply_ops ops w)))%Z.
Proof.
  revert w. induction ops as [|op ops IH]; intros w Hu Ht; [done|].
  destruct (apply_op_nonneg op w Hu Ht). by apply IH.
Qed.

Lemma apply_ops_ok (ops : list StoreOp) (w : World) :
  adds_fresh ops w = true → inbox_ok w → inbox_ok (apply_ops ops w).
Proof.
  revert w. induction ops as [|op ops IH]; intros w Hfresh Hok; [done|].
  cbn [adds_fresh] in Hfresh. apply andb_true_iff in Hfresh as [Hop Hfresh].
  apply IH; [done|]. destruct op as [n|i|i]; unfold apply_op.
  - apply addToNotiphyCenter_ok; [|done]. by apply bool_decide_eq_true_1 in Hop.
  - by apply handleDismissedNotification_ok.
  - by apply handleMarkedReadNotification_ok.
Qed.

(** C1, as stated, fails when an id is added twice: the [dismiss] event
    removes every inbox entry of the id and decrements each counter
    once.  After two insertions of notification 7 and one dismissal the
    inbox is empty and both counters show 1. *)
Lemma duplicate_add_counterexample :
  centerBody (dom (apply_ops [Add (sample "7" false false);
                              Add (sample "7" false false);
                              Remove (IdStr "7")] empty_inbox)) = []
  ∧ statsTotal (dom (apply_ops [Add (sample "7" false false);
                                Add (sample "7" false false);
                                Remove (IdStr "7")] empty_inbox)) = 1%Z
  ∧ statsUnread (dom (apply_ops [Add (sample "7" false false);
                                 Add (sample "7" false false);
                                 Remove (IdStr "7")] empty_inbox)) = 1%Z
  ∧ ¬ counters_agree (apply_ops [Add (sample "7" false false);
                                 Add (sample "7" false false);
                                 Remove (IdStr "7")] empty_inbox).
Proof.
  split_and!; [vm_compute; reflexivity..|].
  intros [Ht _]. vm_compute in Ht. discriminate.
Qed.

(** C1 (amended). Starting from an empty inbox with both counters at 0,
    after every sequence of [addToNotiphyCenter], [dismiss] events and
    [mark-read] events both counters are non-negative, and every
    decrement is [max(0, count - 1)].  When no insertion of the sequence
    brings an id the inbox already shows, the total counter is the number
    of inbox entries and the unread counter the number of entries not
    marked read. *)
Theorem counters_track_inbox (ops : list StoreOp) (w : World) :
  centerBody (dom w) = [] →
  statsUnread (dom w) = 0%Z →
  statsTotal (dom w) = 0%Z →
  (0 ≤ statsUnread (dom (apply_ops ops w)))%Z
  ∧ (0 ≤ statsTotal (dom (apply_ops ops w)))%Z
  ∧ (adds_fresh ops w = true → counters_agree (apply_ops ops w))
  ∧ (∀ isRead w0,
       statsTotal (dom (updateStatsAfterDismissal isRead w0))
       = Z.max 0 (statsTotal (dom w0) - 1)
       ∧ statsUnread (dom (updateStatsAfterDismissal isRead w0))
         = (if isRead then statsUnread (dom w0)
            else Z.max 0 (statsUnread (dom w0) - 1))
       ∧ statsUnread (dom (updateStatsAfterMarkRead isRead w0))
         = (if isRead then statsUnread (dom w0)
            else Z.max 0 (statsUnread (dom w0) - 1))).
Proof.
  intros Hb Hu Ht.
  destruct (apply_ops_nonneg ops w) as [Hu' Ht']; [lia..|].
  split_and!; [done..| |].
  - intros Hfresh. apply apply_ops_ok; [done|].
    split; [|split]; rewrite ?Hb, ?Hu, ?Ht; [constructor|done..].
  - intros [] w0; done.
Qed.

Lemma counters_track_inbox_witness :
  centerBody (dom empty_inbox) = []
  ∧ statsUnread (dom empty_inbox) = 0%Z
  ∧ statsTotal (dom empty_inbox) = 0%Z
  ∧ adds_fresh [Add (sample "1" false false); Add (sample "2" true false);
                MarkRead (IdStr "1"); Remove (IdStr "2")] empty_inbox = true
  ∧ counters_agree
      (apply_ops [Add (sample "1" false false); Add (sample "2" true false);
                  MarkRead (IdStr "1"); Remove (IdStr "2")] empty_inbox).
Proof.
  assert (Hb : centerBody (dom empty_inbox) = []) by (vm_compute; reflexivity).
  assert (Hu : statsUnread (dom empty_inbox) = 0%Z) by (vm_compute; reflexivity).
  assert (Ht : statsTotal (dom empty_inbox) = 0%Z) by (vm_compute; reflexivity).
  assert (Hfresh : adds_fresh [Add (sample "1" false false); Add (sample "2" true false);
                               MarkRead (IdStr "1"); Remove (IdStr "2")] empty_inbox
                   = true) by (vm_compute; reflexivity).
  destruct (counters_track_inbox
              [Add (sample "1" false false); Add (sample "2" true false);
               MarkRead (IdStr "1"); Remove (IdStr "2")] empty_inbox Hb Hu Ht)
    as (_ & _ & Hagree & _).
  split_and!; [exact Hb|exact Hu|exact Ht|exact Hfresh|exact (Hagree Hfresh)].
Defined.

(** The scenario of the specification: add 1 unread, add 2 read, mark 1
    read, remove 2. *)
Example counters_scenario :
  let count w := (statsUnread (dom w), statsTotal (dom w)) in
  count (apply_ops [Add (sample "1" false false)] empty_inbox) = (1, 1)%Z
  ∧ count (apply_ops [Add (sample "1" false false); Add (sample "2" true false)]
             empty_inbox) = (1, 2)%Z
  ∧ count (apply_ops [Add (sample "1" false false); Add (sample "2" true false);
                      MarkRead (IdStr "1")] empty_inbox) = (0, 2)%Z
  ∧ count (apply_ops [Add (sample "1" false false); Add (sample "2" true false);
                      MarkRead (IdStr "1"); Remove (IdStr "2")] empty_inbox)
    = (0, 1)%Z.
Proof. vm_compute. done. Qed.

(** ** Local actions against the backend *)

(** C3, as stated, fails for [markRead]: the entry is marked and the
    unread counter decremented before the request is sent, so a
    rejected request leaves the counter at 0 and the entry read.  And
    neither callback looks at the HTTP status: a dismissal the backend
    answers with status 500 and a JSON body still removes the entry. *)
Lemma markRead_optimistic_counterexample :
  (statsUnread (dom one_unread) = 1%Z
   ∧ btn_open <$> centerBody (dom one_unread) = [false]
   ∧ statsUnread
       (dom (exec (markRead_response (IdStr "1") PostRejected)
               (markRead (IdStr "1") 0 one_unread))) = 0%Z
   ∧ btn_open
       <$> centerBody
             (dom (exec (markRead_response (IdStr "1") PostRejected)
                     (markRead (IdStr "1") 0 one_unread))) = [true]
   ∧ dom (exec (markRead_response (IdStr "1") PostRejected)
            (markRead (IdStr "1") 0 one_unread)) ≠ dom one_unread)
  ∧ (length (centerBody (dom one_unread)) = 1
     ∧ centerBody
         (dom (exec (dismissNotification_response (IdStr "1") 0
                       (PostJson 500 "Internal Server Error"))
                 (dismissNotification (IdStr "1") 0 one_unread))) = []).
Proof.
  split; [|split; vm_compute; reflexivity].
  split_and!; [vm_compute; reflexivity..|].
  intros H. apply (f_equal statsUnread) in H. vm_compute in H. discriminate.
Qed.

(** C3 (amended). [dismissNotification] only sends its request; the
    total and unread counters, the inbox entry, the cache and the
    [dismissNotification] emit change in the callback that runs once the
    response body has parsed as JSON, whatever the HTTP status, and a
    rejected request changes nothing.  [markRead] marks the entry and
    decrements the unread counter before it sends its request; only the
    [markReadNotification] emit and the cache update wait for the parsed
    response, and a rejected request changes nothing more. *)
Theorem local_actions_and_backend (notificationId : JsId) (targetElement : nat)
    (w : World) :
  (dom (dismissNotification notificationId targetElement w) = dom w
   ∧ storage (dismissNotification notificationId targetElement w) = storage w
   ∧ this (dismissNotification notificationId targetElement w) = this w
   ∧ socketCalls (env (dismissNotification notificationId targetElement w))
     = socketCalls (env w)
   ∧ requests (env (dismissNotification notificationId targetElement w))
     = requests (env w) ++ [PostDismiss notificationId])
  ∧ exec (dismissNotification_response notificationId targetElement PostRejected) w = w
  ∧ (∀ status message s e,
       socket (this w) = Some s →
       find_elem targetElement w = Some e →
       let w' := exec (dismissNotification_response notificationId targetElement
                         (PostJson status message)) w in
       statsTotal (dom w') = Z.max 0 (statsTotal (dom w) - 1)
       ∧ statsUnread (dom w')
         = (if el_read e then statsUnread (dom w)
            else Z.max 0 (statsUnread (dom w) - 1))
       ∧ centerBody (dom w')
         = filter (λ e', node e' ≠ targetElement) (centerBody (dom w))
       ∧ notiphyWidgetNotifications (storage w')
         = Some (filter (λ n, nid n ≠ notificationId) (loadNotifications w))
       ∧ socketCalls (env w')
         = socketCalls (env w) ++ [EmitId "dismissNotification" notificationId])
  ∧ (statsUnread (dom (markRead notificationId targetElement w))
     = Z.max 0 (statsUnread (dom w) - 1)
     ∧ centerBody (dom (markRead notificationId targetElement w))
       = set_classes_read targetElement (centerBody (dom w))
     ∧ storage (markRead notificationId targetElement w) = storage w
     ∧ socketCalls (env (markRead notificationId targetElement w))
       = socketCalls (env w)
     ∧ requests (env (markRead notificationId targetElement w))
       = requests (env w) ++ [PostMarkRead notificationId])
  ∧ exec (markRead_response notificationId PostRejected) w = w
  ∧ (∀ status message s,
       socket (this w) = Some s →
       let w' := exec (markRead_response notificationId (PostJson status message)) w in
       dom w' = dom w
       ∧ storage w' = storage (updateLocalNotification notificationId (with_read true) w)
       ∧ socketCalls (env w')
         = socketCalls (env w) ++ [EmitId "markReadNotification" notificationId]).
Proof.
  split_and!; try done.
  - intros status message s e Hs He w'. subst w'.
    unfold dismissNotification_response, socket_emit. unfold_M. simpl.
    rewrite Hs. simpl.
    replace (find_elem targetElement _) with (Some e) by (by rewrite <- He).
    destruct (el_read e); simpl; done.
  - intros status message s Hs w'. subst w'.
    unfold markRead_response, socket_emit. unfold_M. simpl.
    rewrite Hs. simpl.
    unfold updateLocalNotification, loadNotifications, saveNotifications. simpl.
    case_match; done.
Qed.

Lemma local_actions_and_backend_witness :
  socket (this one_unread) = Some SockConnected
  ∧ find_elem 0 one_unread
    = Some {| node := 0; shown := sample "1" false false;
              btn_open := false; el_read := false |}
  ∧ statsTotal
      (dom (exec (dismissNotification_response (IdStr "1") 0 (PostJson 500 "failed"))
              one_unread))
    = Z.max 0 (statsTotal (dom one_unread) - 1)
  ∧ centerBody
      (dom (exec (dismissNotification_response (IdStr "1") 0 (PostJson 500 "failed"))
              one_unread))
    = filter (λ e', node e' ≠ 0) (centerBody (dom one_unread))
  ∧ socketCalls
      (env (exec (markRead_response (IdStr "1") (PostJson 500 "failed")) one_unread))
    = socketCalls (env one_unread) ++ [EmitId "markReadNotification" (IdStr "1")].
Proof.
  assert (Hs : socket (this one_unread) = Some SockConnected)
    by (vm_compute; reflexivity).
  assert (He : find_elem 0 one_unread
               = Some {| node := 0; shown := sample "1" false false;
                         btn_open := false; el_read := false |})
    by (vm_compute; reflexivity).
  destruct (local_actions_and_backend (IdStr "1") 0 one_unread)
    as (_ & _ & Hdismiss & _ & _ & Hmark).
  destruct (Hdismiss 500%Z "failed" SockConnected _ Hs He) as (Ht & _ & Hb & _).
  destruct (Hmark 500%Z "failed" SockConnected Hs) as (_ & _ & Hc).
  split_and!; [exact Hs|exact He|exact Ht|exact Hb|exact Hc].
Defined.

(** ** A failed fetch *)

Lemma toggleAudioReminder_off (w : World) :
  audioReminder (config (this w)) = true →
  audioReminder (config (this (toggleAudioReminder w))) = false
  ∧ reminderIntervalId (this (toggleAudioReminder w)) = None
  ∧ timers (env (toggleAudioReminder w))
    = match reminderIntervalId (this w) with
      | Some i => filter (λ t, t.1 ≠ i) (timers (env w))
      | None => timers (env w)
      end
  ∧ dom (toggleAudioReminder w)
    = dom (set_reminderButton (negb (reminderButton (dom w))) w)
  ∧ socket (this (toggleAudioReminder w)) = socket (this w)
  ∧ requests (env (toggleAudioReminder w)) = requests (env w)
  ∧ console (env (toggleAudioReminder w)) = console (env w)
  ∧ notiphyWidgetNotifications (storage (toggleAudioReminder w))
    = notiphyWidgetNotifications (storage w).
Proof.
  intros Hon. unfold toggleAudioReminder. simpl. rewrite Hon. simpl.
  unfold playClickOffSound, play, clearInterval, saveSettings. simpl.
  destruct (reminderIntervalId (this w)); simpl;
    destruct (audioAlert (config (this w))); simpl; done.
Qed.

Lemma play_frame (s : Sound) (w : World) :
  this (play s w) = this w ∧ dom (play s w) = dom w
  ∧ storage (play s w) = storage w
  ∧ timers (env (play s w)) = timers (env w)
  ∧ requests (env (play s w)) = requests (env w)
  ∧ console (env (play s w)) = console (env w).
Proof. unfold play. by case_match. Qed.

Lemma toggled_frame (s : SockState) (w : World) :
  config (this (toggled s w)) = config (this w)
  ∧ reminderIntervalId (this (toggled s w)) = reminderIntervalId (this w)
  ∧ socket (this (toggled s w))
    = Some (if bool_decide (s = SockConnected) then SockClosed else SockConnecting)
  ∧ connectionStatus (dom (toggled s w))
    = (if bool_decide (s = SockConnected) then "Offline" else connectionStatus (dom w))
  ∧ centerBody (dom (toggled s w)) = centerBody (dom w)
  ∧ statsTotal (dom (toggled s w)) = statsTotal (dom w)
  ∧ statsUnread (dom (toggled s w)) = statsUnread (dom w)
  ∧ storage (toggled s w) = storage w
  ∧ timers (env (toggled s w)) = timers (env w)
  ∧ requests (env (toggled s w)) = requests (env w)
  ∧ console (env (toggled s w)) = console (env w).
Proof.
  unfold toggled, playStartSound, playClickOnSound, playClickOffSound.
  destruct s; simpl;
    repeat (match goal with
            | |- context [play ?s ?w] =>
                destruct (play_frame s w) as (-> & -> & -> & -> & -> & ->)
            end);
    done.
Qed.

(** The failure branch of [fetchNotifications], statement by statement. *)
Lemma fetch_failure_unfold (localNotifications : list Notification) (status : Z)
    (w : World) :
  fetchNotifications_response localNotifications (FetchNotOk status) w
  = let caught e := LogCaught "Failed to fetch notifications:" e in
    let w1 := addToNotiphyCenter (apiKeyErrorNotification w) w in
    match socket (this w) with
    | None => (Normal tt, log (caught (TypeError "this.socket is null")) w1)
    | Some s =>
        let w2 := toggled s w1 in
        let w3 := if audioReminder (config (this w)) then toggleAudioReminder w2 else w2 in
        (Normal tt,
         log (caught (Error ("Request failed with status: " +:+ pretty status))) w3)
    end.
Proof.
  unfold fetchNotifications_response, fetchNotifications_try, toggleConnection.
  unfold_M. cbv zeta.
  destruct (addToNotiphyCenter_spec (apiKeyErrorNotification w) w)
    as (_ & _ & _ & _ & _ & Hthis & _).
  set (w1 := addToNotiphyCenter (apiKeyErrorNotification w) w) in *. clearbody w1.
  rewrite Hthis. destruct (socket (this w)) as [s|]; [|done].
  assert (Htoggle : (match s with
                     | SockConnected => (Normal tt, playClickOffSound (socket_disconnect w1))
                     | _ => (Normal tt, playStartSound (playClickOnSound (socket_connect w1)))
                     end) = (Normal tt, toggled s w1)) by (by destruct s).
  rewrite Htoggle.
  destruct (toggled_frame s w1) as (Hc & _). rewrite Hthis in Hc.
  set (w2 := toggled s w1) in *. clearbody w2. rewrite Hc.
  by destruct (audioReminder (config (this w))).
Qed.

Lemma toggled_indicator (s : SockState) (w : World) :
  statusConnected (dom (toggled s w))
  = (if bool_decide (s = SockConnected) then negb (statusConnected (dom w))
     else statusConnected (dom w))
  ∧ notificationsLoaded (this (toggled s w)) = notificationsLoaded (this w).
Proof.
  unfold toggled, playStartSound, playClickOnSound, playClickOffSound.
  destruct s;
    rewrite !(proj1 (play_frame _ _)), !(proj1 (proj2 (play_frame _ _))); done.
Qed.

Lemma addToNotiphyCenter_indicator (n : Notification) (w : World) :
  timers (env (addToNotiphyCenter n w))
  = timers (env w) ++ [(nextTimer (env w), Interval 5000 (CbUpdateFooter (nextNode (env w))))]
  ∧ statusConnected (dom (addToNotiphyCenter n w)) = statusConnected (dom w).
Proof.
  unfold addToNotiphyCenter, assembleNotification, updateUnreadCount, add_timer.
  cbv zeta. by destruct (negb (read n)).
Qed.

(** C4, as stated, fails on the code.  When the answer to the
    constructor's fetch arrives before the socket exists,
    [toggleConnection] throws and the reminders stay enabled, their
    timer running.  When the fetch of the [connect] listener fails, the
    socket is closed and the indicator reads [Offline] with its
    [connected] class set, and the listener then writes [Online: site-a]
    over it.  And on a socket that is not connected [toggleConnection]
    asks to connect and leaves the indicator alone, here at
    [Online: site-a]. *)
Lemma fetch_failure_counterexample :
  (socket (this just_built) = None
   ∧ audioReminder (config (this just_built)) = true
   ∧ audioReminder
       (config (this (exec (fetchNotifications_response [] (FetchNotOk 401))
                        just_built))) = true
   ∧ timers (env (exec (fetchNotifications_response [] (FetchNotOk 401)) just_built))
     = [(1, Interval 180000 CbPlayReminderSound); (2, Interval 5000 (CbUpdateFooter 0))])
  ∧ (socket (this connected_widget) = Some SockConnected
     ∧ connectionStatus
         (dom (exec (fetchNotifications_response [] (FetchNotOk 401)) connected_widget))
       = "Offline"
     ∧ statusConnected
         (dom (exec (fetchNotifications_response [] (FetchNotOk 401)) connected_widget))
       = true
     ∧ statusConnected (dom after_failed_connect) = false)
  ∧ (socket (this after_failed_connect) = Some SockClosed
     ∧ connectionStatus (dom after_failed_connect) = "Online: site-a"
     ∧ socket (this (exec (fetchNotifications_response [] (FetchNotOk 401))
                       (fetchNotifications_request after_failed_connect)))
       = Some SockConnecting
     ∧ connectionStatus
         (dom (exec (fetchNotifications_response [] (FetchNotOk 401))
                 (fetchNotifications_request after_failed_connect)))
       = "Online: site-a").
Proof. split_and!; vm_compute; reflexivity. Qed.

(** C4. What the failure branch of [fetchNotifications] does on a
    non-success status, whatever the state of the socket.  It adds
    exactly one unread error-level entry titled "Notiphy.me API Key
    Error" to the inbox and increments both counters, without caching
    it and without issuing any request, starts the footer interval of
    that entry, and returns normally with the error caught and logged.
    In between it calls [toggleConnection] without a guard.  On a
    connected socket this disconnects: the indicator text is [Offline],
    its [connected] class is flipped, not cleared, and the reminders are
    off afterwards, their interval cleared and no other timer.  On a
    socket that is not connected it asks to connect and leaves the
    indicator alone, the reminders again off and their interval
    cleared.  Without a socket it throws into the [catch]: indicator,
    configuration and reminder interval stay as they were. *)
Theorem fetch_failure_recovery (localNotifications : list Notification) (status : Z)
    (w : World) :
  let failed := fetchNotifications_response localNotifications (FetchNotOk status) in
  let with_footer :=
    timers (env w)
      ++ [(nextTimer (env w), Interval 5000 (CbUpdateFooter (nextNode (env w))))] in
  let reminders_cleared :=
    if audioReminder (config (this w)) then
      match reminderIntervalId (this w) with
      | Some i => filter (λ t, t.1 ≠ i) with_footer
      | None => with_footer
      end
    else with_footer in
  throws failed w = false
  ∧ title (apiKeyErrorNotification w) = "Notiphy.me API Key Error"
  ∧ alertLevel (apiKeyErrorNotification w) = Some "error"
  ∧ centerBody (dom (exec failed w))
    = {| node := nextNode (env w); shown := apiKeyErrorNotification w;
         btn_open := false; el_read := false |} :: centerBody (dom w)
  ∧ statsTotal (dom (exec failed w)) = (statsTotal (dom w) + 1)%Z
  ∧ statsUnread (dom (exec failed w)) = (statsUnread (dom w) + 1)%Z
  ∧ notiphyWidgetNotifications (storage (exec failed w))
    = notiphyWidgetNotifications (storage w)
  ∧ requests (env (exec failed w)) = requests (env w)
  ∧ (∃ e, console (env (exec failed w))
          = console (env w) ++ [LogCaught "Failed to fetch notifications:" e])
  ∧ (socket (this w) = Some SockConnected →
     socket (this (exec failed w)) = Some SockClosed
     ∧ connectionStatus (dom (exec failed w)) = "Offline"
     ∧ statusConnected (dom (exec failed w)) = negb (statusConnected (dom w))
     ∧ audioReminder (config (this (exec failed w))) = false
     ∧ (audioReminder (config (this w)) = true →
        reminderIntervalId (this (exec failed w)) = None)
     ∧ timers (env (exec failed w)) = reminders_cleared)
  ∧ (socket (this w) = Some SockClosed ∨ socket (this w) = Some SockConnecting →
     socket (this (exec failed w)) = Some SockConnecting
     ∧ connectionStatus (dom (exec failed w)) = connectionStatus (dom w)
     ∧ statusConnected (dom (exec failed w)) = statusConnected (dom w)
     ∧ audioReminder (config (this (exec failed w))) = false
     ∧ timers (env (exec failed w)) = reminders_cleared)
  ∧ (socket (this w) = None →
     socket (this (exec failed w)) = None
     ∧ connectionStatus (dom (exec failed w)) = connectionStatus (dom w)
     ∧ statusConnected (dom (exec failed w)) = statusConnected (dom w)
     ∧ config (this (exec failed w)) = config (this w)
     ∧ reminderIntervalId (this (exec failed w)) = reminderIntervalId (this w)
     ∧ timers (env (exec failed w)) = with_footer
     ∧ console (env (exec failed w))
       = console (env w)
           ++ [LogCaught "Failed to fetch notifications:"
                 (TypeError "this.socket is null")]).
Proof.
  intros failed with_footer reminders_cleared.
  subst failed with_footer reminders_cleared. unfold exec, throws.
  rewrite fetch_failure_unfold. cbv zeta.
  destruct (addToNotiphyCenter_spec (apiKeyErrorNotification w) w)
    as (Hb & Ht & Hu & _ & Hs & Hthis & Hr & Hconsole & Hx).
  destruct (addToNotiphyCenter_indicator (apiKeyErrorNotification w) w) as (Htm & Hsc).
  set (w1 := addToNotiphyCenter (apiKeyErrorNotification w) w) in *. clearbody w1.
  simpl in Hu.
  destruct (socket (this w)) as [s|] eqn:Hsock.
  - destruct (toggled_frame s w1)
      as (Hc2 & Hi2 & Hk2 & Hx2 & Hb2 & Ht2 & Hu2 & Hs2 & Htm2 & Hr2 & Hl2).
    destruct (toggled_indicator s w1) as (Hsc2 & _).
    set (w2 := toggled s w1) in *. clearbody w2.
    destruct (audioReminder (config (this w))) eqn:Hrem.
    + destruct (toggleAudioReminder_off w2)
        as (Ha3 & Hi3 & Htm3 & Hd3 & Hk3 & Hr3 & Hl3 & Hn3).
      { rewrite Hc2, Hthis. done. }
      set (w3 := toggleAudioReminder w2) in *. clearbody w3.
      simpl. rewrite Hd3, Hn3, Hr3, Hl3, Ha3, Hi3, Hk3, Htm3. simpl.
      rewrite Hi2, Htm2, Hsc2, Hb2, Ht2, Hu2, Hs2, Hr2, Hl2, Hk2, Hx2, Htm, Hsc, Hb, Ht, Hu,
        Hs, Hr, Hconsole, Hx, Hthis.
      split_and!; eauto.
      * intros [= ->]. done.
      * intros [[= ->]|[= ->]]; done.
      * done.
    + simpl.
      rewrite Htm2, Hsc2, Hb2, Ht2, Hu2, Hs2, Hr2, Hl2, Hk2, Hx2, Hc2, Hthis, Htm, Hsc, Hb,
        Ht, Hu, Hs, Hr, Hconsole, Hx, Hrem.
      split_and!; eauto.
      * intros [= ->]. done.
      * intros [[= ->]|[= ->]]; done.
      * done.
  - simpl. rewrite Htm, Hsc, Hb, Ht, Hu, Hs, Hr, Hconsole, Hx, Hthis, Hsock.
    split_and!; eauto; [done|intros [?|?]; done|done].
Qed.

Lemma fetch_failure_recovery_witness :
  (socket (this just_built) = None
   ∧ audioReminder (config (this just_built)) = true
   ∧ config (this (exec (fetchNotifications_response [] (FetchNotOk 401)) just_built))
     = config (this just_built)
   ∧ reminderIntervalId
       (this (exec (fetchNotifications_response [] (FetchNotOk 401)) just_built))
     = reminderIntervalId (this just_built)
   ∧ timers (env (exec (fetchNotifications_response [] (FetchNotOk 401)) just_built))
     = [(1, Interval 180000 CbPlayReminderSound); (2, Interval 5000 (CbUpdateFooter 0))])
  ∧ (socket (this connected_widget) = Some SockConnected
     ∧ audioReminder (config (this connected_widget)) = true
     ∧ socket (this (exec (fetchNotifications_response [] (FetchNotOk 401))
                       connected_widget)) = Some SockClosed
     ∧ connectionStatus (dom (exec (fetchNotifications_response [] (FetchNotOk 401))
                                connected_widget)) = "Offline"
     ∧ statusConnected (dom (exec (fetchNotifications_response [] (FetchNotOk 401))
                               connected_widget))
       = negb (statusConnected (dom connected_widget))
     ∧ audioReminder
         (config (this (exec (fetchNotifications_response [] (FetchNotOk 401))
                          connected_widget))) = false
     ∧ reminderIntervalId
         (this (exec (fetchNotifications_response [] (FetchNotOk 401))
                  connected_widget)) = None
     ∧ timers (env (exec (fetchNotifications_response [] (FetchNotOk 401))
                      connected_widget))
       = [(2, Interval 5000 (CbUpdateFooter 0))])
  ∧ ((socket (this connecting_widget) = Some SockClosed
      ∨ socket (this connecting_widget) = Some SockConnecting)
     ∧ socket (this (exec (fetchNotifications_response [] (FetchNotOk 401))
                       connecting_widget)) = Some SockConnecting
     ∧ statusConnected (dom (exec (fetchNotifications_response [] (FetchNotOk 401))
                               connecting_widget))
       = statusConnected (dom connecting_widget)
     ∧ audioReminder
         (config (this (exec (fetchNotifications_response [] (FetchNotOk 401))
                          connecting_widget))) = false).
Proof.
  assert (Hnone : socket (this just_built) = None) by (vm_compute; reflexivity).
  assert (Hnag : audioReminder (config (this just_built)) = true)
    by (vm_compute; reflexivity).
  assert (Hon : socket (this connected_widget) = Some SockConnected)
    by (vm_compute; reflexivity).
  assert (Hrem : audioReminder (config (this connected_widget)) = true)
    by (vm_compute; reflexivity).
  assert (Hopening : socket (this connecting_widget) = Some SockClosed
                     ∨ socket (this connecting_widget) = Some SockConnecting)
    by (right; vm_compute; reflexivity).
  destruct (fetch_failure_recovery [] 401 just_built)
    as (_ & _ & _ & _ & _ & _ & _ & _ & _ & _ & _ & Hnull).
  destruct (Hnull Hnone) as (_ & _ & _ & Hc0 & Hi0 & Ht0 & _).
  destruct (fetch_failure_recovery [] 401 connected_widget)
    as (_ & _ & _ & _ & _ & _ & _ & _ & _ & Hconnected & _).
  destruct (Hconnected Hon) as (Hk & Hx & Hs & Ha & Hi & Ht).
  destruct (fetch_failure_recovery [] 401 connecting_widget)
    as (_ & _ & _ & _ & _ & _ & _ & _ & _ & _ & Hother & _).
  destruct (Hother Hopening) as (Hk' & _ & Hs' & Ha' & _).
  split_and!;
    [exact Hnone|exact Hnag|exact Hc0|exact Hi0|rewrite Ht0; vm_compute; reflexivity
    |exact Hon|exact Hrem|exact Hk|exact Hx|exact Hs|exact Ha|exact (Hi Hrem)
    |rewrite Ht; vm_compute; reflexivity
    |exact Hopening|exact Hk'|exact Hs'|exact Ha'].
Defined.

(** * Properties of the rest of the widget *)

(** ** Lists *)

Lemma filter_ext_in {A} (P Q : A → Prop) `{∀ x, Decision (P x)} `{∀ x, Decision (Q x)}
    (l : list A) :
  (∀ x, x ∈ l → P x ↔ Q x) → filter P l = filter Q l.
Proof.
  induction l as [|x l IH]; intros Hext; [done|].
  rewrite !filter_cons.
  assert (Hx : P x ↔ Q x) by (apply Hext, elem_of_cons; auto).
  rewrite IH by (intros y Hy; apply Hext, elem_of_cons; auto).
  destruct (decide (P x)), (decide (Q x)); tauto.
Qed.

Lemma filter_none {A} (P : A → Prop) `{∀ x, Decision (P x)} (l : list A) :
  (∀ x, x ∈ l → ¬ P x) → filter P l = [].
Proof.
  induction l as [|x l IH]; intros Hnone; [done|].
  rewrite filter_cons, IH by (intros y Hy; apply Hnone, elem_of_cons; auto).
  case_decide as Hx; [|done]. destruct (Hnone x); [apply elem_of_cons; auto|done].
Qed.

Lemma NoDup_fst_inj {A B} (l : list (A * B)) (x y : A * B) :
  NoDup l.*1 → x ∈ l → y ∈ l → x.1 = y.1 → x = y.
Proof.
  induction l as [|z l IH]; csimpl; [by intros _ Hx; apply elem_of_nil in Hx|].
  rewrite NoDup_cons, !elem_of_cons. intros (Hz & Hl) [->|Hx] [->|Hy] Hxy; [done| | |by apply IH].
  - destruct Hz. rewrite Hxy. by apply list_elem_of_fmap_2.
  - destruct Hz. rewrite <- Hxy. by apply list_elem_of_fmap_2.
Qed.

(** ** The relative-time footer *)

Lemma round_div_1000_spec (x : Z) :
  (1000 * round_div_1000 x - 500 ≤ x < 1000 * round_div_1000 x + 500)%Z.
Proof.
  unfold round_div_1000.
  pose proof (Z.div_mod (x + 500) 1000 ltac:(lia)).
  pose proof (Z.mod_pos_bound (x + 500) 1000 ltac:(lia)). lia.
Qed.

Lemma getTimeElapsedString_right_now (now ts : Z) (sameDay : bool) :
  valid_date (ts * 1000) = true →
  (now - ts * 1000 < 9500)%Z →
  getTimeElapsedString now ts sameDay = Literal "Right now".
Proof.
  intros Hvalid Hrecent. unfold getTimeElapsedString. cbv zeta.
  rewrite Hvalid. cbn [negb].
  pose proof (round_div_1000_spec (now - ts * 1000)).
  rewrite bool_decide_eq_true_2 by lia. done.
Qed.

(** X1. The footer text of [getTimeElapsedString].  A timestamp beyond
    the range of [Date] (8.64e15 ms either way) gives "Invalid Date".
    Within it, by the age of the notification in whole seconds
    (rounded): "Right now" is shown exactly while less than 9.5 s have
    passed, which includes every timestamp in the future that is still
    a date; "N minutes ago" is shown exactly for N from 4 to 59, with N
    the whole minutes passed; "N hours ago" exactly for N from 2 to 23;
    and a date or time of day is shown exactly from 24 hours on, so
    "Today at ..." is never shown for a notification less than a day
    old. *)
Theorem getTimeElapsedString_counts (now ts : Z) (sameDay : bool) :
  let elapsed := round_div_1000 (now - ts * 1000) in
  let shown := getTimeElapsedString now ts sameDay in
  (shown = InvalidDate ↔ valid_date (ts * 1000) = false)
  ∧ (shown = Literal "Right now"
     ↔ valid_date (ts * 1000) = true ∧ (now - ts * 1000 < 9500)%Z)
  ∧ (∀ m, shown = MinutesAgo m ↔
          valid_date (ts * 1000) = true
          ∧ (4 ≤ m ≤ 59 ∧ 60 * m ≤ elapsed < 60 * m + 60)%Z)
  ∧ (∀ h, shown = HoursAgo h ↔
          valid_date (ts * 1000) = true
          ∧ (2 ≤ h ≤ 23 ∧ 3600 * h ≤ elapsed < 3600 * h + 3600)%Z)
  ∧ (valid_date (ts * 1000) = true ∧ (86400 ≤ elapsed)%Z ↔
       shown = (if sameDay then TodayAt (ts * 1000) else LocaleString (ts * 1000))).
Proof.
  intros elapsed shown. subst shown. unfold getTimeElapsedString. cbv zeta.
  fold elapsed.
  destruct (valid_date (ts * 1000)) eqn:Hvalid; cbn [negb].
  2: { split_and!; try intros ?; split; try (intros [? _]);
         try (destruct sameDay); try discriminate; done. }
  pose proof (round_div_1000_spec (now - ts * 1000)) as Hr. fold elapsed in Hr.
  pose proof (Z.div_mod elapsed 60 ltac:(lia)) as Hm.
  pose proof (Z.mod_pos_bound elapsed 60 ltac:(lia)) as Hm'.
  pose proof (Z.div_mod (elapsed `div` 60) 60 ltac:(lia)) as Hh.
  pose proof (Z.mod_pos_bound (elapsed `div` 60) 60 ltac:(lia)) as Hh'.
  set (m := (elapsed `div` 60)%Z) in *.
  set (h := (m `div` 60)%Z) in *.
  repeat case_bool_decide; (split_and!; [| | intros ?..|]); split;
    try (intros [= <-]); try (intros [_ ?]); try intros;
    try discriminate; try (destruct sameDay; discriminate);
    try (split; [done|]); try done; try lia; try (f_equal; lia).
Qed.

(** X2. The entry [fetchNotifications] adds on a failed request is
    stamped with [Date.getTime()], in milliseconds, and the footer
    multiplies the stamp by 1000: whatever time has passed (up to a
    thousand times the age of the epoch), its footer stays at "Right
    now", where an entry stamped in seconds at the same moment reads "An
    hour ago" one hour later.  (Late in the year 2243 the stamp times
    1000 stops being a date, and the footer reads "Invalid Date".) *)
Theorem api_key_error_footer (w : World) (later : Z) (sameDay : bool) :
  (later ≤ 1000 * now (env w))%Z →
  getTimeElapsedString later (_ts (apiKeyErrorNotification w)) sameDay
  = (if valid_date (1000 * now (env w)) then Literal "Right now" else InvalidDate)
  ∧ getTimeElapsedString (now (env w) + 3600000) (now (env w) `div` 1000) sameDay
    = (if valid_date (now (env w) `div` 1000 * 1000) then Literal "An hour ago"
       else InvalidDate).
Proof.
  intros Hlater. split.
  - change (_ts (apiKeyErrorNotification w)) with (now (env w)).
    replace (1000 * now (env w))%Z with (now (env w) * 1000)%Z by lia.
    destruct (valid_date (now (env w) * 1000)) eqn:Hvalid.
    + apply getTimeElapsedString_right_now; [done|lia].
    + unfold getTimeElapsedString. cbv zeta. by rewrite Hvalid.
  - unfold getTimeElapsedString. cbv zeta.
    destruct (valid_date (now (env w) `div` 1000 * 1000)); cbn [negb]; [|done].
    pose proof (round_div_1000_spec (now (env w) + 3600000 - now (env w) `div` 1000 * 1000))
      as Hr.
    pose proof (Z.div_mod (now (env w)) 1000 ltac:(lia)) as Hd.
    pose proof (Z.mod_pos_bound (now (env w)) 1000 ltac:(lia)) as Hd'.
    set (elapsed := round_div_1000 _) in *.
    assert (He : (3600 ≤ elapsed ≤ 3601)%Z) by lia.
    pose proof (Z.div_mod elapsed 60 ltac:(lia)) as Hm.
    pose proof (Z.mod_pos_bound elapsed 60 ltac:(lia)) as Hm'.
    assert (Hmin : (elapsed `div` 60 = 60)%Z) by lia.
    rewrite Hmin.
    repeat (rewrite bool_decide_eq_false_2 by lia).
    change (60 `div` 60)%Z with 1%Z.
    rewrite (bool_decide_eq_true_2 (1 < 2)%Z) by lia. done.
Qed.

Lemma api_key_error_footer_witness :
  (1700003600000 ≤ 1000 * now (env (loaded_at 1700000000000)))%Z
  ∧ getTimeElapsedString 1700003600000
      (_ts (apiKeyErrorNotification (loaded_at 1700000000000))) false
    = Literal "Right now".
Proof.
  assert (H : (1700003600000 ≤ 1000 * now (env (loaded_at 1700000000000)))%Z)
    by (change (now (env (loaded_at 1700000000000))) with 1700000000000%Z; lia).
  split; [exact H|].
  rewrite (proj1 (api_key_error_footer (loaded_at 1700000000000) 1700003600000 false H)).
  reflexivity.
Defined.

(** ** Settings *)

Lemma toggleAudioReminder_frame (w : World) :
  notiphyWidgetLastFetched (storage (toggleAudioReminder w))
  = notiphyWidgetLastFetched (storage w)
  ∧ notiphyWidgetNotifications (storage (toggleAudioReminder w))
    = notiphyWidgetNotifications (storage w)
  ∧ notificationsLoaded (this (toggleAudioReminder w)) = notificationsLoaded (this w)
  ∧ notifications (this (toggleAudioReminder w)) = notifications (this w)
  ∧ requests (env (toggleAudioReminder w)) = requests (env w)
  ∧ centerOpen (dom (toggleAudioReminder w)) = centerOpen (dom w)
  ∧ centerBody (dom (toggleAudioReminder w)) = centerBody (dom w)
  ∧ config (this (toggleAudioReminder w))
    = with_audioReminder (negb (audioReminder (config (this w)))) (config (this w))
  ∧ notiphySettings (storage (toggleAudioReminder w))
    = Some (config (this (toggleAudioReminder w))).
Proof.
  destruct (audioReminder (config (this w))) eqn:Hrem;
    unfold toggleAudioReminder; simpl; rewrite Hrem; simpl.
  - unfold playClickOffSound, play, clearInterval, saveSettings. simpl.
    destruct (reminderIntervalId (this w)); simpl;
      destruct (audioAlert (config (this w))); simpl; done.
  - unfold playClickOnSound, play, setupAudioReminders, saveSettings, log, add_timer. simpl.
    destruct (bool_decide (is_Some (reminderIntervalId (this w)))); simpl;
      destruct (audioAlert (config (this w))); simpl; done.
Qed.

Lemma toggleAudioAlert_frame (w : World) :
  config (this (toggleAudioAlert w))
  = with_audioAlert (negb (audioAlert (config (this w)))) (config (this w))
  ∧ notiphySettings (storage (toggleAudioAlert w)) = Some (config (this (toggleAudioAlert w)))
  ∧ initialConfig (this (toggleAudioAlert w)) = initialConfig (this w)
  ∧ reminderIntervalId (this (toggleAudioAlert w)) = reminderIntervalId (this w)
  ∧ timers (env (toggleAudioAlert w)) = timers (env w)
  ∧ nextTimer (env (toggleAudioAlert w)) = nextTimer (env w)
  ∧ targetFound (env (toggleAudioAlert w)) = targetFound (env w)
  ∧ played (env (toggleAudioAlert w))
    = played (env w) ++ (if audioAlert (config (this w)) then [] else [clickOn]).
Proof.
  unfold toggleAudioAlert, playClickOnSound, playClickOffSound, play, saveSettings, log.
  destruct (audioAlert (config (this w))) eqn:Ha; simpl; rewrite ?app_nil_r; done.
Qed.

Lemma toggleToastAlert_frame (w : World) :
  config (this (toggleToastAlert w))
  = with_toastAlert (negb (toastAlert (config (this w)))) (config (this w))
  ∧ notiphySettings (storage (toggleToastAlert w)) = Some (config (this (toggleToastAlert w)))
  ∧ initialConfig (this (toggleToastAlert w)) = initialConfig (this w)
  ∧ reminderIntervalId (this (toggleToastAlert w)) = reminderIntervalId (this w)
  ∧ timers (env (toggleToastAlert w)) = timers (env w)
  ∧ nextTimer (env (toggleToastAlert w)) = nextTimer (env w)
  ∧ targetFound (env (toggleToastAlert w)) = targetFound (env w).
Proof.
  unfold toggleToastAlert, playClickOnSound, playClickOffSound, play, saveSettings, log.
  destruct (toastAlert (config (this w))) eqn:Ht;
    destruct (audioAlert (config (this w))) eqn:Ha; simpl; rewrite ?Ha; done.
Qed.

Lemma changeToastPosition_frame (w : World) :
  config (this (changeToastPosition w))
  = with_toastPosition (next_position (toastPosition (config (this w)))) (config (this w))
  ∧ notiphySettings (storage (changeToastPosition w))
    = Some (config (this (changeToastPosition w)))
  ∧ initialConfig (this (changeToastPosition w)) = initialConfig (this w)
  ∧ reminderIntervalId (this (changeToastPosition w)) = reminderIntervalId (this w)
  ∧ timers (env (changeToastPosition w)) = timers (env w)
  ∧ nextTimer (env (changeToastPosition w)) = nextTimer (env w)
  ∧ targetFound (env (changeToastPosition w)) = targetFound (env w).
Proof.
  unfold changeToastPosition, playClickOnSound, play, saveSettings, log.
  destruct (audioAlert (config (this w))) eqn:Ha; simpl; rewrite ?Ha; done.
Qed.

Lemma toggleAudioReminder_more (w : World) :
  initialConfig (this (toggleAudioReminder w)) = initialConfig (this w)
  ∧ targetFound (env (toggleAudioReminder w)) = targetFound (env w).
Proof.
  destruct (audioReminder (config (this w))) eqn:Hrem;
    unfold toggleAudioReminder; simpl; rewrite Hrem; simpl.
  - unfold playClickOffSound, play, clearInterval, saveSettings. simpl.
    destruct (reminderIntervalId (this w)); simpl;
      destruct (audioAlert (config (this w))); simpl; done.
  - unfold playClickOnSound, play, setupAudioReminders, saveSettings, log, add_timer. simpl.
    destruct (bool_decide (is_Some (reminderIntervalId (this w)))); simpl;
      destruct (audioAlert (config (this w))); simpl; done.
Qed.

Lemma settings_action_frame (a : SettingsAction) (w : World) :
  notiphySettings (storage (settings_action a w)) = Some (config (this (settings_action a w)))
  ∧ locationId (config (this (settings_action a w))) = locationId (config (this w))
  ∧ initialConfig (this (settings_action a w)) = initialConfig (this w)
  ∧ targetFound (env (settings_action a w)) = targetFound (env w).
Proof.
  destruct a; cbn [settings_action].
  - destruct (toggleAudioAlert_frame w) as (Hc & Hs & Hi & _ & _ & _ & Ht & _).
    rewrite Hs, Hi, Ht, Hc. done.
  - destruct (toggleAudioReminder_frame w) as (_ & _ & _ & _ & _ & _ & _ & Hc & Hs).
    destruct (toggleAudioReminder_more w) as (Hi & Ht).
    rewrite Hs, Hi, Ht, Hc. done.
  - destruct (toggleToastAlert_frame w) as (Hc & Hs & Hi & _ & _ & _ & Ht).
    rewrite Hs, Hi, Ht, Hc. done.
  - destruct (changeToastPosition_frame w) as (Hc & Hs & Hi & _ & _ & _ & Ht).
    rewrite Hs, Hi, Ht, Hc. done.
Qed.

Lemma settings_actions_frame (actions : list SettingsAction) (w : World) :
  notiphySettings (storage w) = Some (config (this w)) →
  notiphySettings (storage (settings_actions actions w))
  = Some (config (this (settings_actions actions w)))
  ∧ locationId (config (this (settings_actions actions w))) = locationId (config (this w))
  ∧ initialConfig (this (settings_actions actions w)) = initialConfig (this w)
  ∧ targetFound (env (settings_actions actions w)) = targetFound (env w).
Proof.
  revert w. induction actions as [|a actions IH]; intros w Hw; [done|].
  unfold settings_actions. cbn [foldl]. fold (settings_actions actions (settings_action a w)).
  destruct (settings_action_frame a w) as (Hs & Hl & Hi & Ht).
  destruct (IH _ Hs) as (Hs' & Hl' & Hi' & Ht').
  rewrite Hs', Hl', Hi', Ht', Hl, Hi, Ht. done.
Qed.

Lemma spec_resolve_locationId (cfg : CallerConfig) (persisted : option Config) :
  locationId (spec_resolve cfg persisted) = locationId (spread_config defaultConfig cfg).
Proof. by destruct persisted. Qed.

Lemma constructor_reloaded (cfg : CallerConfig) (w : World) (time : Z) :
  notiphySettings (storage w) = Some (config (this w)) →
  locationId (config (this w)) = locationId (spread_config defaultConfig cfg) →
  config (this (exec (constructor cfg) (reload time w))) = config (this w).
Proof.
  intros Hs Hl.
  destruct (constructor_resolved cfg (reload time w)) as (_ & ->).
  unfold reload. cbn [storage page_load]. rewrite Hs. cbn [spec_resolve].
  rewrite <- Hl. apply with_locationId_same.
Qed.

Lemma next_position_cases (p : string) :
  next_position p
  = if bool_decide (p = "top-left") then "top-center"
    else if bool_decide (p = "top-center") then "top-right"
    else if bool_decide (p = "top-right") then "bottom-right"
    else if bool_decide (p = "bottom-right") then "bottom-center"
    else if bool_decide (p = "bottom-center") then "bottom-left"
    else if bool_decide (p = "bottom-left") then "top-left"
    else "top-left".
Proof.
  unfold next_position, indexOf, positions.
  repeat case_bool_decide; subst; try reflexivity.
  simpl. repeat (case_decide; [congruence|]). reflexivity.
Qed.

Lemma next_position_valid (p : string) : next_position p ∈ positions.
Proof.
  rewrite next_position_cases. unfold positions.
  repeat case_bool_decide; set_solver.
Qed.

Lemma positions_cycle (q : string) (k : nat) :
  q ∈ positions →
  Nat.iter 6 next_position q = q
  ∧ ((0 < k < 6)%nat → Nat.iter k next_position q ≠ q).
Proof.
  unfold positions. intros Hq.
  repeat (apply elem_of_cons in Hq as [->|Hq]); [..|by apply elem_of_nil in Hq];
    (split; [vm_compute; reflexivity|]);
    intros Hk; destruct k as [|[|[|[|[|[|k]]]]]]; try lia; vm_compute; discriminate.
Qed.

(** X3. [changeToastPosition] always leaves one of the six positions,
    also when the configured position was none of them, and saves the
    settings; from then on the positions cycle with period six: six more
    calls give the same position and fewer never do. *)
Theorem changeToastPosition_cycles (w : World) :
  let position w := toastPosition (config (this w)) in
  position (changeToastPosition w) ∈ positions
  ∧ position (Nat.iter 6 changeToastPosition (changeToastPosition w))
    = position (changeToastPosition w)
  ∧ (∀ k, (0 < k < 6)%nat →
          position (Nat.iter k changeToastPosition (changeToastPosition w))
          ≠ position (changeToastPosition w))
  ∧ notiphySettings (storage (changeToastPosition w))
    = Some (config (this (changeToastPosition w))).
Proof.
  intros position.
  assert (Hstep : ∀ w, position (changeToastPosition w) = next_position (position w)).
  { intros w0. unfold position. by rewrite (proj1 (changeToastPosition_frame w0)). }
  assert (Hiter : ∀ k w, position (Nat.iter k changeToastPosition w)
                         = Nat.iter k next_position (position w)).
  { induction k as [|k IH]; intros w0; [done|]. simpl. by rewrite Hstep, IH. }
  pose proof (next_position_valid (position w)) as Hin.
  split_and!.
  - by rewrite Hstep.
  - rewrite Hiter, Hstep. by apply (positions_cycle _ 1).
  - intros k Hk. rewrite Hiter, Hstep. by apply positions_cycle.
  - apply changeToastPosition_frame.
Qed.

Lemma changeToastPosition_cycles_witness :
  (0 < 3 < 6)%nat
  ∧ toastPosition
      (config (this (Nat.iter 3 changeToastPosition (changeToastPosition blank_page))))
    ≠ toastPosition (config (this (changeToastPosition blank_page))).
Proof.
  split; [lia|].
  exact (proj1 (proj2 (proj2 (changeToastPosition_cycles blank_page))) 3 ltac:(lia)).
Defined.

(** X4. [toggleAudioAlert] flips the switch and saves it, and its cue is
    heard only when the sound is turned on: the click-off cue it asks
    for when turning the sound off is gated by the switch it has just
    cleared.  Two toggles restore the configuration and play one
    click-on cue, whichever way the switch stood. *)
Theorem toggleAudioAlert_cue (w : World) :
  played (env (toggleAudioAlert w))
  = played (env w) ++ (if audioAlert (config (this w)) then [] else [clickOn])
  ∧ audioAlert (config (this (toggleAudioAlert w))) = negb (audioAlert (config (this w)))
  ∧ config (this (toggleAudioAlert (toggleAudioAlert w))) = config (this w)
  ∧ played (env (toggleAudioAlert (toggleAudioAlert w))) = played (env w) ++ [clickOn]
  ∧ notiphySettings (storage (toggleAudioAlert w))
    = Some (config (this (toggleAudioAlert w))).
Proof.
  destruct (toggleAudioAlert_frame w) as (Hc & Hs & _ & _ & _ & _ & _ & Hp).
  destruct (toggleAudioAlert_frame (toggleAudioAlert w)) as (Hc' & _ & _ & _ & _ & _ & _ & Hp').
  rewrite Hc', Hp', Hs, Hp, Hc.
  destruct (config (this w)) as [? ? ? ? ? sound ? ? ? ? ? ? ? ? ? ? ? ?]. simpl.
  destruct sound; simpl; rewrite ?app_nil_r; done.
Qed.

(** X5. Whatever sequence of settings actions follows the constructor,
    the saved settings are the live configuration, and a reload of the
    page with the same caller configuration comes back with exactly
    that configuration. *)
Theorem settings_survive_reload (cfg : CallerConfig) (actions : list SettingsAction)
    (w : World) (time : Z) :
  let changed := settings_actions actions (exec (constructor cfg) w) in
  notiphySettings (storage changed) = Some (config (this changed))
  ∧ config (this (exec (constructor cfg) (reload time changed))) = config (this changed).
Proof.
  intros changed. subst changed.
  destruct (constructor_resolved cfg w) as (Hs & Hc).
  assert (Hsaved : notiphySettings (storage (exec (constructor cfg) w))
                   = Some (config (this (exec (constructor cfg) w)))) by (by rewrite Hs, Hc).
  assert (Hloc : locationId (config (this (exec (constructor cfg) w)))
                 = locationId (spread_config defaultConfig cfg))
    by (rewrite Hc; apply spec_resolve_locationId).
  set (w1 := exec (constructor cfg) w) in *. clearbody w1.
  destruct (settings_actions_frame actions w1 Hsaved) as (Hs' & Hl' & _).
  split; [done|].
  apply constructor_reloaded; [done|]. by rewrite Hl'.
Qed.

(** ** The reminder interval *)

Lemma reminders_ok_frame (w w' : World) :
  timers (env w') = timers (env w) →
  nextTimer (env w') = nextTimer (env w) →
  reminderIntervalId (this w') = reminderIntervalId (this w) →
  audioReminder (config (this w')) = audioReminder (config (this w)) →
  reminders_ok w → reminders_ok w'.
Proof. unfold reminders_ok. by intros -> -> -> ->. Qed.

Lemma toggleAudioReminder_timers (w : World) :
  let w' := toggleAudioReminder w in
  audioReminder (config (this w')) = negb (audioReminder (config (this w)))
  ∧ if audioReminder (config (this w)) then
      timers (env w') = match reminderIntervalId (this w) with
                        | Some i => filter (λ t, t.1 ≠ i) (timers (env w))
                        | None => timers (env w)
                        end
      ∧ nextTimer (env w') = nextTimer (env w)
      ∧ reminderIntervalId (this w') = None
    else
      match reminderIntervalId (this w) with
      | Some i =>
          timers (env w') = timers (env w)
          ∧ nextTimer (env w') = nextTimer (env w)
          ∧ reminderIntervalId (this w') = Some i
      | None =>
          timers (env w')
          = timers (env w)
              ++ [(nextTimer (env w),
                   Interval ((if truthy_num (reminderInterval (config (this w)))
                              then reminderInterval (config (this w)) else 180) * 1000)
                     CbPlayReminderSound)]
          ∧ nextTimer (env w') = S (nextTimer (env w))
          ∧ reminderIntervalId (this w') = Some (nextTimer (env w))
      end.
Proof.
  cbv zeta.
  destruct (audioReminder (config (this w))) eqn:Hrem;
    unfold toggleAudioReminder; simpl; rewrite Hrem; simpl.
  - unfold playClickOffSound, play, clearInterval, saveSettings. simpl.
    destruct (reminderIntervalId (this w)); simpl;
      destruct (audioAlert (config (this w))); simpl; done.
  - unfold playClickOnSound, play, setupAudioReminders, saveSettings, log, add_timer. simpl.
    destruct (reminderIntervalId (this w)) as [i|] eqn:Hid; simpl.
    + destruct (audioAlert (config (this w))); simpl; done.
    + destruct (audioAlert (config (this w))); simpl; done.
Qed.

Lemma toggleAudioReminder_reminders_ok (w : World) :
  reminders_ok w →
  reminders_ok (toggleAudioReminder w)
  ∧ filter (λ t, is_reminder t = false) (timers (env (toggleAudioReminder w)))
    = filter (λ t, is_reminder t = false) (timers (env w)).
Proof.
  intros (Hnodup & Hlt & Hrem & Hiff).
  destruct (toggleAudioReminder_timers w) as (Ha & Hcase). cbv zeta in Ha, Hcase.
  unfold reminders_ok. rewrite Ha.
  destruct (audioReminder (config (this w))) eqn:Hon.
  - destruct Hcase as (Ht & Hn & Hi). rewrite Ht, Hn, Hi.
    destruct (proj2 Hiff eq_refl) as (i & Hid). rewrite Hid in *.
    assert (Hall : ∀ t, t ∈ timers (env w) → is_reminder t = true → t.1 = i).
    { intros t Hin Hr.
      assert (t.1 ∈ (filter (λ t, is_reminder t = true) (timers (env w))).*1) as Hin'.
      { apply list_elem_of_fmap_2. by apply list_elem_of_filter. }
      rewrite Hrem in Hin'. by apply list_elem_of_singleton in Hin'. }
    assert (Hone : ∀ t, t ∈ timers (env w) → t.1 = i → is_reminder t = true).
    { intros t Hin Hti.
      assert (i ∈ (filter (λ t, is_reminder t = true) (timers (env w))).*1) as Hi'
        by (rewrite Hrem; apply list_elem_of_singleton; done).
      apply list_elem_of_fmap in Hi' as (t0 & Ht0 & Hin0).
      apply list_elem_of_filter in Hin0 as (Hr0 & Hin0).
      assert (t = t0) as ->; [|done].
      apply (NoDup_fst_inj (timers (env w))); [done..|]. by rewrite Hti. }
    split; [split_and!|].
    + eapply sublist_NoDup; [exact Hnodup|]. apply fmap_sublist, sublist_filter; apply _.
    + rewrite Forall_forall in Hlt |- *. intros t Hin.
      apply list_elem_of_filter in Hin as (_ & Hin). by apply Hlt.
    + rewrite list_filter_filter.
      rewrite filter_none; [done|]. intros t Hin (Hr & Hne). apply Hne. by apply Hall.
    + split; [by intros [? ?]|done].
    + rewrite list_filter_filter. apply filter_ext_in. intros t Hin.
      split; [by intros (? & _)|]. intros Hnr. split; [done|].
      intros Hti. rewrite (Hone t Hin Hti) in Hnr. done.
  - assert (Hnone : reminderIntervalId (this w) = None).
    { destruct (reminderIntervalId (this w)) eqn:Hid; [|done].
      assert (false = true) by (apply Hiff; eauto). done. }
    rewrite Hnone in *. destruct Hcase as (Ht & Hn & Hi). rewrite Ht, Hn, Hi.
    split; [split_and!|].
    + rewrite fmap_app. apply NoDup_app. split_and!; [done| |apply NoDup_singleton].
      intros x Hx Hx'. apply list_elem_of_singleton in Hx'. subst x.
      apply list_elem_of_fmap in Hx as (t & Ht1 & Hin).
      rewrite Forall_forall in Hlt. specialize (Hlt t Hin). simpl in Ht1. lia.
    + rewrite Forall_app. split.
      * eapply Forall_impl; [exact Hlt|]. simpl. intros; lia.
      * apply Forall_singleton. simpl. lia.
    + rewrite filter_app, fmap_app, Hrem. done.
    + split; [done|]. eauto.
    + rewrite filter_app. rewrite (filter_none _ [_]); [by rewrite app_nil_r|].
      intros t Hin. apply list_elem_of_singleton in Hin. by subst t.
Qed.

Lemma settings_action_reminders_ok (a : SettingsAction) (w : World) :
  reminders_ok w →
  reminders_ok (settings_action a w)
  ∧ filter (λ t, is_reminder t = false) (timers (env (settings_action a w)))
    = filter (λ t, is_reminder t = false) (timers (env w)).
Proof.
  intros Hok. destruct a; cbn [settings_action].
  - destruct (toggleAudioAlert_frame w) as (Hc & _ & _ & Hi & Ht & Hn & _).
    split; [|by rewrite Ht].
    eapply reminders_ok_frame; [exact Ht|exact Hn|exact Hi| |exact Hok]. by rewrite Hc.
  - by apply toggleAudioReminder_reminders_ok.
  - destruct (toggleToastAlert_frame w) as (Hc & _ & _ & Hi & Ht & Hn & _).
    split; [|by rewrite Ht].
    eapply reminders_ok_frame; [exact Ht|exact Hn|exact Hi| |exact Hok]. by rewrite Hc.
  - destruct (changeToastPosition_frame w) as (Hc & _ & _ & Hi & Ht & Hn & _).
    split; [|by rewrite Ht].
    eapply reminders_ok_frame; [exact Ht|exact Hn|exact Hi| |exact Hok]. by rewrite Hc.
Qed.

Lemma setupPeriodicRefresh_timers (w : World) :
  ∃ extra,
    timers (env (setupPeriodicRefresh w)) = timers (env w) ++ extra
    ∧ nextTimer (env (setupPeriodicRefresh w)) = nextTimer (env w) + length extra
    ∧ Forall (λ t, t.1 = nextTimer (env w) ∧ is_reminder t = false) extra
    ∧ length extra ≤ 1.
Proof.
  unfold setupPeriodicRefresh. cbv zeta.
  destruct (truthy_num (refreshInterval (config (this w)))).
  - eexists [_]. unfold log, add_timer. simpl. split_and!; [done|lia| |lia].
    by apply Forall_singleton.
  - exists []. rewrite app_nil_r. simpl. split_and!; [done|lia|done|lia].
Qed.

Lemma setupAudioReminders_timers (w : World) :
  reminderIntervalId (this w) = None →
  if audioReminder (config (this w)) then
    timers (env (setupAudioReminders w))
    = timers (env w)
        ++ [(nextTimer (env w),
             Interval ((if truthy_num (reminderInterval (config (this w)))
                        then reminderInterval (config (this w)) else 180) * 1000)
               CbPlayReminderSound)]
    ∧ nextTimer (env (setupAudioReminders w)) = S (nextTimer (env w))
    ∧ reminderIntervalId (this (setupAudioReminders w)) = Some (nextTimer (env w))
  else setupAudioReminders w = w.
Proof.
  intros Hid. unfold setupAudioReminders. cbv zeta. rewrite Hid.
  destruct (audioReminder (config (this w))); [|done].
  unfold log, add_timer. simpl. done.
Qed.

Lemma createDomElements_stage (w : World) :
  match (createDomElements w).1 with
  | Normal _ => True
  | Thrown _ => stage (dom (createDomElements w).2) = ScriptOnly
  end.
Proof.
  unfold createDomElements. cbv zeta.
  by destruct (compact (config (this w)) && truthy_str (targetElement (config (this w)))
               && negb (targetFound (env (set_toaster [] (set_stage ScriptOnly w))))).
Qed.

Lemma constructor_tail_reminders_ok (w : World) :
  timers (env w) = [] →
  stage (dom (constructor_tail w).2) = Rendered →
  reminders_ok (constructor_tail w).2.
Proof.
  intros Hempty. unfold constructor_tail. unfold_M.
  set (w0 := set_reminderIntervalId None _).
  assert (Hid0 : reminderIntervalId (this w0) = None) by done.
  assert (Ht0 : timers (env w0) = []) by (by rewrite <- Hempty).
  clearbody w0.
  destruct (createDomElements_frame w0) as (_ & Hthis & Ht & Hn & _).
  pose proof (createDomElements_stage w0) as Hstage.
  destruct (createDomElements w0) as [[[]|e] w1]; cbn [fst snd] in *;
    [|by rewrite Hstage].
  intros _.
  destruct (setupPeriodicRefresh_timers w1) as (extra & Ht2 & Hn2 & Hextra & Hlen).
  destruct (setupPeriodicRefresh_frame w1) as (_ & Hthis2 & _).
  set (w2 := setupPeriodicRefresh w1) in *. clearbody w2.
  assert (Hid2 : reminderIntervalId (this w2) = None) by (by rewrite Hthis2, Hthis).
  pose proof (setupAudioReminders_timers w2 Hid2) as H3.
  destruct (setupAudioReminders_frame w2) as (_ & Hc3 & _).
  assert (Hbase : NoDup (timers (env w2)).*1
                  ∧ Forall (λ t, t.1 < nextTimer (env w2)) (timers (env w2))
                  ∧ filter (λ t, is_reminder t = true) (timers (env w2)) = []).
  { rewrite Ht2, Hn2, Ht, Ht0. cbn [app].
    destruct extra as [|t [|t' extra]]; [| |simpl in Hlen; lia].
    - split_and!; [apply NoDup_nil_2|done|done].
    - apply Forall_singleton in Hextra as (Hid & Hrem).
      split_and!; [apply NoDup_singleton|apply Forall_singleton; simpl; lia|].
      rewrite filter_cons. case_decide; [congruence|done]. }
  destruct Hbase as (Hnodup & Hlt & Hnone).
  assert (Hfetch : ∀ w, reminders_ok w → reminders_ok (fetchNotifications_request w)).
  { intros w3. by apply reminders_ok_frame. }
  apply Hfetch. unfold reminders_ok. rewrite Hc3.
  destruct (audioReminder (config (this w2))) eqn:Hrem.
  - destruct H3 as (-> & -> & ->). split_and!.
    + rewrite fmap_app. apply NoDup_app. split_and!; [done| |apply NoDup_singleton].
      intros x Hx Hx'. apply list_elem_of_singleton in Hx'. subst x.
      apply list_elem_of_fmap in Hx as (t & Ht1 & Hin).
      rewrite Forall_forall in Hlt. specialize (Hlt t Hin). simpl in Ht1. lia.
    + rewrite Forall_app. split.
      * eapply Forall_impl; [exact Hlt|]. simpl. intros; lia.
      * apply Forall_singleton. simpl. lia.
    + rewrite filter_app, fmap_app, Hnone. done.
    + split; [done|]. eauto.
  - rewrite H3, Hid2, Hnone. split_and!; [done|done|done|].
    split; [by intros [? ?]|done].
Qed.

Lemma constructor_reminders_ok (cfg : CallerConfig) (s : Storage) (time : Z) (target : bool) :
  stage (dom (exec (constructor cfg) (page_load s time target))) = Rendered →
  reminders_ok (exec (constructor cfg) (page_load s time target)).
Proof.
  unfold exec. rewrite constructor_unfold. cbv zeta.
  destruct (constructor_head_frame cfg (page_load s time target)) as (Hd & He).
  set (w1 := constructor_head cfg (page_load s time target)) in *. clearbody w1.
  assert (Hstage : ∀ l, stage (dom (log l w1)) = NotCreated)
    by (intros l; change (stage (dom w1) = NotCreated); by rewrite Hd).
  destruct (negb (truthy_str (subscriberId (config (this w1))))).
  { cbn [snd]. by rewrite Hstage. }
  destruct (negb (truthy_str (widgetKey (config (this w1))))).
  { cbn [snd]. by rewrite Hstage. }
  apply constructor_tail_reminders_ok. by rewrite He.
Qed.

(** X6. On a widget the constructor has rendered, through any sequence
    of settings actions: timer ids stay distinct, exactly one reminder
    interval is live while the reminders are on and none while they are
    off, it is the one [reminderIntervalId] names, and no other timer is
    added or cleared. *)
Theorem reminder_interval_never_leaks (cfg : CallerConfig) (s : Storage) (time : Z)
    (target : bool) (actions : list SettingsAction) :
  let built := exec (constructor cfg) (page_load s time target) in
  stage (dom built) = Rendered →
  reminders_ok (settings_actions actions built)
  ∧ filter (λ t, is_reminder t = false) (timers (env (settings_actions actions built)))
    = filter (λ t, is_reminder t = false) (timers (env built)).
Proof.
  intros built Hstage. subst built.
  pose proof (constructor_reminders_ok cfg s time target Hstage) as Hok.
  set (w := exec (constructor cfg) (page_load s time target)) in *. clearbody w.
  clear Hstage. revert w Hok.
  induction actions as [|a actions IH]; intros w Hok; [done|].
  unfold settings_actions. cbn [foldl]. fold (settings_actions actions (settings_action a w)).
  destruct (settings_action_reminders_ok a w Hok) as (Hok' & Hsame).
  destruct (IH _ Hok') as (Hok'' & Hsame'').
  split; [done|]. by rewrite Hsame''.
Qed.

Lemma reminder_interval_never_leaks_witness :
  stage (dom (exec (constructor site_a) (page_load empty_storage 0 true))) = Rendered
  ∧ reminders_ok
      (settings_actions sample_actions
         (exec (constructor site_a) (page_load empty_storage 0 true))).
Proof.
  assert (H : stage (dom (exec (constructor site_a) (page_load empty_storage 0 true)))
              = Rendered) by (vm_compute; reflexivity).
  split; [exact H|].
  exact (proj1 (reminder_interval_never_leaks site_a empty_storage 0 true sample_actions H)).
Defined.

(** ** Reset *)

Lemma constructor_initialConfig (cfg : CallerConfig) (w : World) :
  initialConfig (this (exec (constructor cfg) w)) = spread_config defaultConfig cfg.
Proof.
  unfold exec. rewrite constructor_unfold. cbv zeta.
  assert (Hhead : initialConfig (this (constructor_head cfg w))
                  = spread_config defaultConfig cfg).
  { unfold constructor_head, saveSettings, checkLocationChange, clearStoredData. cbv zeta.
    repeat case_match; done. }
  set (w1 := constructor_head cfg w) in *. clearbody w1.
  destruct (negb (truthy_str (subscriberId (config (this w1))))); [done|].
  destruct (negb (truthy_str (widgetKey (config (this w1))))); [done|].
  unfold constructor_tail. unfold_M.
  set (w0 := set_reminderIntervalId None _).
  assert (Hi0 : initialConfig (this w0) = spread_config defaultConfig cfg) by done.
  clearbody w0.
  destruct (createDomElements_frame w0) as (_ & Hthis & _).
  destruct (createDomElements w0) as [[[]|e] w2]; cbn [fst snd] in *;
    [|by rewrite Hthis].
  destruct (setupPeriodicRefresh_frame w2) as (_ & Hthis2 & _).
  set (w3 := setupPeriodicRefresh w2) in *. clearbody w3.
  assert (Hi3 : initialConfig (this (setupAudioReminders w3)) = initialConfig (this w3)).
  { unfold setupAudioReminders. cbv zeta. by case_match. }
  change (initialConfig (this (setupAudioReminders w3)) = spread_config defaultConfig cfg).
  by rewrite Hi3, Hthis2, Hthis.
Qed.

Lemma resetSettings_effects (shared : bool) (w : World) :
  notiphyWidgetNotifications (storage (resetSettings shared w)) = None
  ∧ notiphyWidgetLastFetched (storage (resetSettings shared w)) = None
  ∧ config (this (resetSettings shared w))
    = (if shared then config (this w) else initialConfig (this w))
  ∧ notiphySettings (storage (resetSettings shared w))
    = Some (config (this (resetSettings shared w)))
  ∧ timers (env (resetSettings shared w)) = timers (env w).
Proof.
  unfold resetSettings, read_initialConfig, playClickOffSound, play, saveSettings, log.
  cbv zeta. destruct shared; simpl; case_match; done.
Qed.

(** X7. [resetSettings] clears the cache and the watermark and saves
    the configuration it resets to, which the reloaded page then runs
    with.  On a page that found persisted settings this is the caller's
    configuration over the defaults.  On a page that found none,
    [this.config] is the object [this.initialConfig], every settings
    action has changed both, and the reset keeps the configuration as
    the user left it. *)
Theorem resetSettings_restores (cfg : CallerConfig) (s : Storage) (time time' : Z)
    (target : bool) (actions : list SettingsAction) :
  let shared := bool_decide (notiphySettings s = None) in
  let changed :=
    settings_actions actions (exec (constructor cfg) (page_load s time target)) in
  let after := resetSettings shared changed in
  notiphyWidgetNotifications (storage after) = None
  ∧ notiphyWidgetLastFetched (storage after) = None
  ∧ notiphySettings (storage after) = Some (config (this after))
  ∧ config (this after)
    = (if shared then config (this changed) else spread_config defaultConfig cfg)
  ∧ config (this (exec (constructor cfg) (reload time' after))) = config (this after).
Proof.
  intros shared changed after. subst changed after.
  pose proof (constructor_initialConfig cfg (page_load s time target)) as Hinit.
  destruct (constructor_resolved cfg (page_load s time target)) as (Hs & Hc).
  assert (Hsaved : notiphySettings (storage (exec (constructor cfg) (page_load s time target)))
                   = Some (config (this (exec (constructor cfg) (page_load s time target)))))
    by (by rewrite Hs, Hc).
  assert (Hloc : locationId (config (this (exec (constructor cfg) (page_load s time target))))
                 = locationId (spread_config defaultConfig cfg))
    by (rewrite Hc; apply spec_resolve_locationId).
  set (w1 := exec (constructor cfg) (page_load s time target)) in *. clearbody w1.
  destruct (settings_actions_frame actions w1 Hsaved) as (Hs' & Hl' & Hi' & _).
  set (w2 := settings_actions actions w1) in *. clearbody w2.
  destruct (resetSettings_effects shared w2) as (Hn & Hf & Hcfg & Hset & _).
  assert (Hcfg' : config (this (resetSettings shared w2))
                  = (if shared then config (this w2) else spread_config defaultConfig cfg)).
  { rewrite Hcfg. destruct shared; [done|]. by rewrite Hi', Hinit. }
  split_and!; [done..|].
  apply constructor_reloaded; [done|].
  rewrite Hcfg'. destruct shared; [by rewrite Hl'|done].
Qed.

(** ** Display mode *)

Lemma setTheme_known (t : string) (p : ThemePage) :
  t ∈ ["light"; "dark"; "auto"] →
  notiphy_theme (setTheme t p) = Some t
  ∧ current_theme (setTheme t p) = t
  ∧ data_theme (setTheme t p)
    = Some (if bool_decide (t = "auto")
            then (if prefersDarkScheme p then "dark" else "light") else t)
  ∧ prefersDarkScheme (setTheme t p) = prefersDarkScheme p.
Proof.
  intros Ht. repeat (apply elem_of_cons in Ht as [->|Ht]); [..|by apply elem_of_nil in Ht];
    done.
Qed.

Lemma next_theme_known (t : string) : next_theme t ∈ ["light"; "dark"; "auto"].
Proof. unfold next_theme. repeat case_bool_decide; set_solver. Qed.

(** X8. After [changeDisplayMode], whatever was stored before, the
    stored theme is one of light, dark and auto, the applied
    [data-theme] is light or dark (dark exactly for dark, or for auto on
    a browser that prefers dark), the menu has an icon for it, and
    [initializeTheme] on the next load applies the same.  The modes
    cycle with period three. *)
Theorem changeDisplayMode_cycles (p : ThemePage) (w : World) :
  let p1 := (changeDisplayMode (p, w)).1 in
  let again pw := changeDisplayMode pw in
  notiphy_theme p1 ∈ [Some "light"; Some "dark"; Some "auto"]
  ∧ data_theme p1 ∈ [Some "light"; Some "dark"]
  ∧ (data_theme p1 = Some "dark"
     ↔ notiphy_theme p1 = Some "dark"
       ∨ notiphy_theme p1 = Some "auto" ∧ prefersDarkScheme p = true)
  ∧ is_Some (getDisplayModeIcon p1)
  ∧ initializeTheme p1 = p1
  ∧ notiphy_theme (again (again (again (p1, w)))).1 = notiphy_theme p1
  ∧ notiphy_theme (again (p1, w)).1 ≠ notiphy_theme p1
  ∧ notiphy_theme (again (again (p1, w))).1 ≠ notiphy_theme p1.
Proof.
  intros p1 again. subst p1 again.
  unfold changeDisplayMode, getDisplayModeIcon, initializeTheme. cbn [fst snd].
  pose proof (next_theme_known (current_theme p)) as Hin.
  set (t := next_theme (current_theme p)) in *. clearbody t.
  destruct p as [stored applied dark].
  repeat (apply elem_of_cons in Hin as [->|Hin]); [..|by apply elem_of_nil in Hin];
    destruct dark; vm_compute;
    (split; [repeat constructor|]); (split; [repeat constructor|]);
    (split; [split; [intros; eauto; done|intros [|[]]; done]|]);
    (split; [by eexists|]); done.
Qed.

(** ** The compact view without its target *)

Lemma constructor_tail_throws (w : World) :
  compact (config (this w)) = true →
  truthy_str (targetElement (config (this w))) = true →
  targetFound (env w) = false →
  constructor_tail w
  = (Thrown (TypeError "settingsButton is null"),
     log (LogWarn "Target element not found for Notiphy Widget compact view.")
       (set_toaster []
          (set_stage ScriptOnly
             (set_reminderIntervalId None
                (set_notificationsLoaded false (set_socket None w)))))).
Proof.
  intros Hc Ht Hf. unfold constructor_tail, createDomElements. unfold_M. cbv zeta.
  cbn [config this set_reminderIntervalId set_notificationsLoaded set_socket with_this
       set_toaster set_stage with_dom env targetFound].
  rewrite Hc, Ht, Hf. done.
Qed.

(** X9. With a subscriber and a key, the compact view asked for and a
    target selector the page has no element for, the constructor throws
    out of [createDomElements] after saving the settings and logging
    one warning: the document holds the script tag and the toaster only,
    no timer runs although intervals are configured, and nothing is
    fetched. *)
Theorem constructor_compact_target_missing (cfg : CallerConfig) (s : Storage) (time : Z) :
  let resolved := spec_resolve cfg (notiphySettings s) in
  truthy_str (subscriberId resolved) = true →
  truthy_str (widgetKey resolved) = true →
  compact resolved = true →
  truthy_str (targetElement resolved) = true →
  let w' := exec (constructor cfg) (page_load s time false) in
  throws (constructor cfg) (page_load s time false) = true
  ∧ stage (dom w') = ScriptOnly
  ∧ notiphySettings (storage w') = Some resolved
  ∧ timers (env w') = []
  ∧ requests (env w') = []
  ∧ console (env w')
    = [LogWarn "Target element not found for Notiphy Widget compact view."].
Proof.
  intros resolved Hsub Hkey Hcompact Htarget w'. subst w' resolved.
  unfold exec, throws. rewrite constructor_unfold. cbv zeta.
  pose proof (constructor_head_config cfg (page_load s time false)) as Hc.
  pose proof (constructor_head_settings cfg (page_load s time false)) as Hs.
  destruct (constructor_head_frame cfg (page_load s time false)) as (Hd & He).
  cbn [storage page_load] in Hc, Hs.
  set (w1 := constructor_head cfg (page_load s time false)) in *. clearbody w1.
  rewrite Hc, Hsub, Hkey. cbn [negb].
  rewrite constructor_tail_throws; [| by rewrite Hc.. | by rewrite He].
  cbn [fst snd]. split_and!; try done.
  - change (timers (env w1) = []). by rewrite He.
  - change (requests (env w1) = []). by rewrite He.
  - change (console (env w1) ++ [LogWarn "Target element not found for Notiphy Widget compact view."]
            = [LogWarn "Target element not found for Notiphy Widget compact view."]).
    by rewrite He.
Qed.

Lemma constructor_compact_target_missing_witness :
  truthy_str (subscriberId (spec_resolve compact_config (notiphySettings empty_storage)))
  = true
  ∧ throws (constructor compact_config) (page_load empty_storage 0 false) = true
  ∧ timers (env (exec (constructor compact_config) (page_load empty_storage 0 false))) = [].
Proof.
  assert (H1 : truthy_str (subscriberId
                 (spec_resolve compact_config (notiphySettings empty_storage))) = true)
    by (vm_compute; reflexivity).
  assert (H2 : truthy_str (widgetKey
                 (spec_resolve compact_config (notiphySettings empty_storage))) = true)
    by (vm_compute; reflexivity).
  assert (H3 : compact (spec_resolve compact_config (notiphySettings empty_storage)) = true)
    by (vm_compute; reflexivity).
  assert (H4 : truthy_str (targetElement
                 (spec_resolve compact_config (notiphySettings empty_storage))) = true)
    by (vm_compute; reflexivity).
  destruct (constructor_compact_target_missing compact_config empty_storage 0 H1 H2 H3 H4)
    as (Ht & _ & _ & Htimers & _).
  split_and!; [exact H1|exact Ht|exact Htimers].
Defined.

(** ** Events from sibling widgets *)

Lemma update_found_idempotent (i : JsId) (l l' : list Notification) :
  update_found i (with_read true) l = Some l' →
  update_found i (with_read true) l' = Some l'.
Proof.
  revert l'. induction l as [|n r IH]; intros l'; simpl; [done|].
  case_bool_decide as Hn.
  - intros [= <-]. simpl. by rewrite bool_decide_eq_true_2.
  - destruct (update_found i (with_read true) r) as [r'|] eqn:Hr; [|done].
    intros [= <-]. simpl. rewrite bool_decide_eq_false_2 by done.
    by rewrite (IH r').
Qed.

Lemma updateLocalNotification_idempotent (i : JsId) (w : World) :
  updateLocalNotification i (with_read true) (updateLocalNotification i (with_read true) w)
  = updateLocalNotification i (with_read true) w.
Proof.
  unfold updateLocalNotification at 2 3.
  destruct (update_found i (with_read true) (loadNotifications w)) as [l'|] eqn:Hl.
  - unfold updateLocalNotification, loadNotifications, saveNotifications. simpl.
    by rewrite (update_found_idempotent i _ _ Hl).
  - unfold updateLocalNotification. by rewrite Hl.
Qed.

Lemma has_attr_removed (a : string) (w w' : World) :
  centerBody (dom w') = filter (λ e, attr e ≠ a) (centerBody (dom w)) →
  toaster (dom w') = filter (λ t, t_attr t ≠ a) (toaster (dom w)) →
  has_attr a w' = false.
Proof.
  intros Hb Ht. unfold has_attr. rewrite Hb, Ht.
  rewrite !bool_decide_eq_false_2; [done|..];
    rewrite Exists_exists; intros (x & Hx & Hax);
    apply list_elem_of_filter in Hx as [Hne _]; done.
Qed.

(** X10. The [dismiss] and [mark-read] events are idempotent: a
    second delivery of the same event leaves the widget exactly as the
    first did, counters and cache included, and a [mark-read] for a
    notification a [dismiss] has removed changes nothing. *)
Theorem remote_events_idempotent (i : JsId) (w : World) :
  exec (handleDismissedNotification i) (exec (handleDismissedNotification i) w)
  = exec (handleDismissedNotification i) w
  ∧ exec (handleMarkedReadNotification i) (exec (handleMarkedReadNotification i) w)
    = exec (handleMarkedReadNotification i) w
  ∧ exec (handleMarkedReadNotification i) (exec (handleDismissedNotification i) w)
    = exec (handleDismissedNotification i) w.
Proof.
  assert (Hgone : ∀ w1, has_attr (id_text i) w1 = false →
            exec (handleDismissedNotification i) w1 = w1
            ∧ exec (handleMarkedReadNotification i) w1 = w1).
  { intros w1 H1. unfold exec, handleDismissedNotification, handleMarkedReadNotification.
    cbv zeta. by rewrite H1. }
  assert (Hdismissed : exec (handleDismissedNotification i) w = w
            ∨ has_attr (id_text i) (exec (handleDismissedNotification i) w) = false).
  { destruct (handleDismissedNotification_cases i w) as [Hsame|(e & He & ->)]; [by left|].
    right. apply (has_attr_removed _ w);
      rewrite (proj1 (storage_updates_keep_dom i _));
      unfold updateStatsAfterDismissal, updateUnreadCount, remove_matching;
      by destruct (negb (btn_open e)). }
  split_and!.
  - destruct Hdismissed as [Hsame|Hd]; [by rewrite !Hsame|]. by apply Hgone.
  - destruct (handleMarkedReadNotification_cases i w) as [Hsame|(e & He & Hw)].
    { by rewrite !Hsame. }
    destruct (find_mark_read_button_Some _ _ _ He) as (before & after & Hb & Ha & Hbefore).
    set (w0 := if negb (btn_open e)
               then set_centerBody (mark_first (id_text i) (centerBody (dom w))) w
               else w) in *.
    set (e' := {| node := node e; shown := shown e; btn_open := true; el_read := true |}).
    assert (Hfound : ∃ e1 rest, centerBody (dom w0) = before ++ e1 :: rest
                                ∧ attr e1 = id_text i ∧ btn_open e1 = true).
    { subst w0. destruct (btn_open e) eqn:Ho; simpl.
      - exists e, after. by rewrite Hb.
      - exists e', after. rewrite Hb, (mark_first_split _ _ _ _ Hbefore Ha). done. }
    destruct Hfound as (e1 & rest & Hb1 & Ha1 & Ho1).
    set (w1 := exec (handleMarkedReadNotification i) w) in *.
    assert (Hdom : centerBody (dom w1) = before ++ e1 :: rest
                   ∧ toaster (dom w1) = toaster (dom w0)).
    { rewrite Hw. rewrite (proj2 (storage_updates_keep_dom i _)).
      unfold updateStatsAfterMarkRead, updateUnreadCount.
      destruct (negb (btn_open e)); simpl; done. }
    destruct Hdom as (Hd1 & _).
    assert (Hfind : find_mark_read_button (id_text i) w1 = Some e1).
    { unfold find_mark_read_button. rewrite Hd1.
      assert (list_find (λ e, attr e = id_text i) (before ++ e1 :: rest)
              = Some (length before, e1)) as ->; [|done].
      apply list_find_Some. split_and!.
      - by rewrite lookup_app_r, Nat.sub_diag.
      - done.
      - intros j y Hj Hlt. rewrite lookup_app_l in Hj by done.
        rewrite Forall_forall in Hbefore. apply Hbefore.
        by eapply list_elem_of_lookup_2. }
    assert (Hhas : has_attr (id_text i) w1 = true).
    { unfold has_attr. rewrite Hd1. rewrite bool_decide_eq_true_2; [done|].
      rewrite Exists_exists. exists e1. split; [|done].
      rewrite elem_of_app, elem_of_cons. auto. }
    unfold exec at 1. unfold handleMarkedReadNotification at 1. cbv zeta.
    rewrite Hhas, Hfind, Ho1. cbn [negb snd].
    unfold updateStatsAfterMarkRead. cbn [negb].
    subst w1. rewrite Hw. apply updateLocalNotification_idempotent.
  - destruct Hdismissed as [Hsame|Hd]; [|by apply Hgone].
    rewrite Hsame.
    (* the dismissal changed nothing: either nothing carries the id, or it threw *)
    unfold exec, handleDismissedNotification in Hsame. cbv zeta in Hsame.
    unfold exec, handleMarkedReadNotification. cbv zeta.
    destruct (has_attr (id_text i) w) eqn:Hh; [|done]. cbn [negb] in *.
    destruct (find_mark_read_button (id_text i) w) as [e|] eqn:He; [|done].
    cbn [snd] in Hsame.
    destruct (find_mark_read_button_Some _ _ _ He) as (before & after & Hb & Ha & _).
    apply (f_equal (λ w, length (centerBody (dom w)))) in Hsame.
    rewrite (proj1 (storage_updates_keep_dom i _)) in Hsame.
    unfold updateStatsAfterDismissal, updateUnreadCount, remove_matching in Hsame.
    exfalso. revert Hsame.
    destruct (negb (btn_open e)); simpl; rewrite Hb;
      rewrite filter_app, filter_cons_False by (intros H; by apply H);
      rewrite !length_app; simpl;
      pose proof (length_filter (λ e, attr e ≠ id_text i) before);
      pose proof (length_filter (λ e, attr e ≠ id_text i) after); lia.
Qed.

Lemma handleNotification_toast (n : Notification) (w : World) :
  toastAlert (config (this w)) = true →
  alertLevel n ≠ Some "blocker" →
  toaster (dom (handleNotification n w))
  = {| t_node := nextNode (env w); t_shown := n |} :: toaster (dom w)
  ∧ centerBody (dom (handleNotification n w)) = centerBody (dom w).
Proof.
  intros Htoast Hlevel. unfold handleNotification.
  rewrite (bool_decide_eq_false_2 _ Hlevel), Htoast.
  unfold showToast. simpl. done.
Qed.

Lemma fire_CbAddToNotiphyCenter_shown (n : Notification) (w : World) :
  shown <$> centerBody (dom (fire_CbAddToNotiphyCenter n w))
  = n :: (shown <$> centerBody (dom w)).
Proof.
  unfold fire_CbAddToNotiphyCenter, playPopSound.
  rewrite (proj1 (proj2 (play_frame pop _))).
  by rewrite (proj1 (addToNotiphyCenter_spec n w)).
Qed.

(** X11. While a notification is on screen as a toast and not yet in
    the inbox, a [dismiss] or [mark-read] event for it finds the toast's
    button but no mark-read button: the handler throws and changes
    nothing, the toast stays, and the notification still enters the
    inbox when its timeout fires. *)
Theorem remote_event_during_toast (n : Notification) (w : World) :
  toastAlert (config (this w)) = true →
  alertLevel n ≠ Some "blocker" →
  id_text (nid n) ∉ attr <$> centerBody (dom w) →
  let w1 := handleNotification n w in
  throws (handleDismissedNotification (nid n)) w1 = true
  ∧ exec (handleDismissedNotification (nid n)) w1 = w1
  ∧ throws (handleMarkedReadNotification (nid n)) w1 = true
  ∧ exec (handleMarkedReadNotification (nid n)) w1 = w1
  ∧ shown <$> centerBody
                (dom (fire_CbAddToNotiphyCenter n
                        (exec (handleDismissedNotification (nid n)) w1)))
    = n :: (shown <$> centerBody (dom w)).
Proof.
  intros Htoast Hlevel Hfresh w1.
  destruct (handleNotification_toast n w Htoast Hlevel) as (Ht & Hb).
  fold w1 in Ht, Hb.
  assert (Hhas : has_attr (id_text (nid n)) w1 = true).
  { unfold has_attr. rewrite Ht. apply orb_true_iff. right.
    apply bool_decide_eq_true_2, Exists_cons_hd. done. }
  assert (Hnone : find_mark_read_button (id_text (nid n)) w1 = None).
  { unfold find_mark_read_button. rewrite Hb.
    destruct (list_find _ (centerBody (dom w))) as [[j e]|] eqn:Hfind; [|done].
    apply list_find_Some in Hfind as (Hj & Ha & _).
    exfalso. apply Hfresh. rewrite <- Ha.
    apply list_elem_of_fmap_2. by eapply list_elem_of_lookup_2. }
  assert (Hd : handleDismissedNotification (nid n) w1
               = (Thrown (TypeError "markReadButton is undefined"), w1)).
  { unfold handleDismissedNotification. cbv zeta. by rewrite Hhas, Hnone. }
  assert (Hm : handleMarkedReadNotification (nid n) w1
               = (Thrown (TypeError "markReadButton is undefined"), w1)).
  { unfold handleMarkedReadNotification. cbv zeta. by rewrite Hhas, Hnone. }
  unfold throws, exec. rewrite Hd, Hm. cbn [fst snd].
  split_and!; try done.
  rewrite fire_CbAddToNotiphyCenter_shown. by rewrite Hb.
Qed.

Lemma remote_event_during_toast_witness :
  toastAlert (config (this toasting)) = true
  ∧ alertLevel (sample "1" false false) ≠ Some "blocker"
  ∧ (id_text (nid (sample "1" false false)) ∉ attr <$> centerBody (dom toasting))
  ∧ throws (handleDismissedNotification (nid (sample "1" false false)))
      (handleNotification (sample "1" false false) toasting) = true
  ∧ exec (handleDismissedNotification (nid (sample "1" false false)))
      (handleNotification (sample "1" false false) toasting)
    = handleNotification (sample "1" false false) toasting.
Proof.
  assert (H1 : toastAlert (config (this toasting)) = true) by (vm_compute; reflexivity).
  assert (H2 : alertLevel (sample "1" false false) ≠ Some "blocker")
    by (vm_compute; discriminate).
  assert (H3 : id_text (nid (sample "1" false false)) ∉ attr <$> centerBody (dom toasting))
    by (vm_compute; apply not_elem_of_nil).
  destruct (remote_event_during_toast (sample "1" false false) toasting H1 H2 H3)
    as (Ha & Hb & _).
  split_and!; [exact H1|exact H2|exact H3|exact Ha|exact Hb].
Defined.

(** ** What a response leaves behind *)

Lemma addToNotiphyCenter_env (n : Notification) (w : World) :
  let w' := addToNotiphyCenter n w in
  timers (env w')
  = timers (env w) ++ [(nextTimer (env w), Interval 5000 (CbUpdateFooter (nextNode (env w))))]
  ∧ nextTimer (env w') = S (nextTimer (env w))
  ∧ nextNode (env w') = S (nextNode (env w))
  ∧ requests (env w') = requests (env w)
  ∧ suspended (env w') = suspended (env w)
  ∧ now (env w') = now (env w)
  ∧ console (env w') = console (env w)
  ∧ centerOpen (dom w') = centerOpen (dom w)
  ∧ detached (dom w') = detached (dom w).
Proof.
  unfold addToNotiphyCenter, assembleNotification, updateUnreadCount, add_timer.
  cbv zeta. by destruct (negb (read n)).
Qed.

Lemma addToNotiphyCenter_fold_env (l : list Notification) (w : World) :
  let w' := foldl (λ w n, addToNotiphyCenter n w) w l in
  timers (env w')
  = timers (env w)
      ++ imap (λ k _, (nextTimer (env w) + k,
                       Interval 5000 (CbUpdateFooter (nextNode (env w) + k)))) l
  ∧ nextTimer (env w') = nextTimer (env w) + length l
  ∧ nextNode (env w') = nextNode (env w) + length l
  ∧ requests (env w') = requests (env w)
  ∧ suspended (env w') = suspended (env w)
  ∧ now (env w') = now (env w)
  ∧ console (env w') = console (env w)
  ∧ centerOpen (dom w') = centerOpen (dom w)
  ∧ detached (dom w') = detached (dom w).
Proof.
  revert w. induction l as [|n l IH]; intros w; cbv zeta.
  { simpl. rewrite app_nil_r, !Nat.add_0_r. done. }
  cbn [foldl].
  destruct (addToNotiphyCenter_env n w) as (Ht & Hn & Hd & Hr & Hs & Hnow & Hc & Ho & Hx).
  destruct (IH (addToNotiphyCenter n w)) as (Ht' & Hn' & Hd' & Hr' & Hs' & Hnow' & Hc' & Ho' & Hx').
  rewrite Ht', Hn', Hd', Hr', Hs', Hnow', Hc', Ho', Hx', Ht, Hn, Hd, Hr, Hs, Hnow, Hc, Ho, Hx.
  split_and!; try done; [|simpl; lia..].
  rewrite <- app_assoc. f_equal. cbn [imap app]. rewrite !Nat.add_0_r. f_equal.
  apply imap_ext. intros k x _. simpl. do 3 f_equal; lia.
Qed.

Lemma fetch_success_unfold (localNotifications fetched : list Notification) (w : World) :
  let merged := mergeNotifications localNotifications fetched in
  let w0 := updateTotalCount 0
              (updateUnreadCount 0
                 (set_detached (centerBody (dom w) ++ detached (dom w))
                    (set_centerBody []
                       (saveNotifications merged (set_notifications merged w))))) in
  let w1 := foldl (λ w n, addToNotiphyCenter n w) w0 merged in
  let w2 := if negb (notificationsLoaded (this w)) && showInboxOnLoad (config (this w))
            then toggleNotificationCenter w1 else w1 in
  fetchNotifications_response localNotifications (FetchJson fetched) w
  = (Normal tt,
     set_notiphyWidgetLastFetched (Some (now (env w) `div` 1000)%Z)
       (set_notificationsLoaded true w2)).
Proof.
  cbv zeta.
  unfold fetchNotifications_response, fetchNotifications_try.
  unfold_M. cbv zeta.
  set (merged := mergeNotifications localNotifications fetched).
  simpl.
  set (w0 := updateTotalCount 0 _).
  destruct (addToNotiphyCenter_fold merged w0) as (_ & _ & _ & Hs & Hthis).
  destruct (addToNotiphyCenter_fold_env merged w0) as (_ & _ & _ & Hr & _ & Hnow & _).
  set (w1 := foldl _ w0 merged) in *. clearbody w1.
  rewrite Hthis. simpl.
  destruct (negb (notificationsLoaded (this w)) && showInboxOnLoad (config (this w)));
    simpl; unfold toggleNotificationCenter, add_timer;
    [destruct (centerOpen (dom w1))|]; simpl; rewrite ?Hnow; done.
Qed.

Lemma fetch_success_effects (localNotifications fetched : list Notification) (w : World) :
  let merged := mergeNotifications localNotifications fetched in
  let w' := exec (fetchNotifications_response localNotifications (FetchJson fetched)) w in
  let opened := negb (notificationsLoaded (this w)) && showInboxOnLoad (config (this w)) in
  timers (env w')
  = timers (env w)
      ++ imap (λ k _, (nextTimer (env w) + k,
                       Interval 5000 (CbUpdateFooter (nextNode (env w) + k)))) merged
      ++ (if opened && centerOpen (dom w)
          then [(nextTimer (env w) + length merged, Timeout 300 CbHideCenter)] else [])
  ∧ detached (dom w') = centerBody (dom w) ++ detached (dom w)
  ∧ node <$> centerBody (dom w')
    = reverse (seq (nextNode (env w)) (length merged))
  ∧ centerOpen (dom w') = (if opened then negb (centerOpen (dom w)) else centerOpen (dom w))
  ∧ notificationsLoaded (this w') = true
  ∧ config (this w') = config (this w)
  ∧ notiphyWidgetLastFetched (storage w') = Some (now (env w) `div` 1000)%Z
  ∧ notiphyWidgetNotifications (storage w') = Some merged
  ∧ requests (env w') = requests (env w)
  ∧ shown <$> centerBody (dom w') = reverse merged.
Proof.
  intros merged w' opened. subst w'. unfold exec.
  rewrite fetch_success_unfold. cbv zeta. fold merged. fold opened.
  set (w0 := updateTotalCount 0 _).
  destruct (addToNotiphyCenter_fold_env merged w0)
    as (Ht & Hn & Hd & Hr & _ & _ & _ & Ho & Hx).
  destruct (addToNotiphyCenter_fold merged w0) as (Hshown & _ & _ & Hs & Hthis).
  cbv zeta in Hshown. change (centerBody (dom w0)) with (@nil Elem) in Hshown.
  rewrite fmap_nil, app_nil_r in Hshown.
  assert (Hnodes : ∀ l w, node <$> centerBody (dom (foldl (λ w n, addToNotiphyCenter n w) w l))
                          = reverse (seq (nextNode (env w)) (length l))
                              ++ (node <$> centerBody (dom w))).
  { induction l as [|n l IH]; intros w2; [done|]. cbn [foldl].
    rewrite IH.
    destruct (addToNotiphyCenter_env n w2) as (_ & _ & -> & _).
    rewrite (proj1 (addToNotiphyCenter_spec n w2)). simpl.
    rewrite reverse_cons, <- app_assoc. done. }
  specialize (Hnodes merged w0).
  set (w1 := foldl _ w0 merged) in *. clearbody w1.
  destruct opened; simpl; unfold toggleNotificationCenter, add_timer;
    [destruct (centerOpen (dom w1)) eqn:Hopen|]; simpl;
    rewrite ?Ht, ?Hx, ?Hn, ?Hnodes, ?Hs, ?Hthis, ?Hr, ?Hshown; simpl; rewrite ?app_nil_r;
    simpl in Ho; rewrite <- ?Ho, ?Hopen; simpl; rewrite ?app_nil_r.
  all: by rewrite <- ?app_assoc.
Qed.

Lemma toggled_frame_more (s : SockState) (w : World) :
  notificationsLoaded (this (toggled s w)) = notificationsLoaded (this w)
  ∧ notifications (this (toggled s w)) = notifications (this w)
  ∧ centerOpen (dom (toggled s w)) = centerOpen (dom w).
Proof.
  unfold toggled, playStartSound, playClickOnSound, playClickOffSound.
  destruct s;
    rewrite !(proj1 (play_frame _ _)), !(proj1 (proj2 (play_frame _ _))); done.
Qed.

Lemma fetch_failure_keeps_cache (localNotifications : list Notification)
    (response : FetchResult) (w : World) :
  (∀ fetched, response ≠ FetchJson fetched) →
  let w' := exec (fetchNotifications_response localNotifications response) w in
  notiphyWidgetNotifications (storage w') = notiphyWidgetNotifications (storage w)
  ∧ notiphyWidgetLastFetched (storage w') = notiphyWidgetLastFetched (storage w)
  ∧ notificationsLoaded (this w') = notificationsLoaded (this w)
  ∧ notifications (this w') = notifications (this w)
  ∧ subscriberId (config (this w')) = subscriberId (config (this w))
  ∧ locationId (config (this w')) = locationId (config (this w))
  ∧ requests (env w') = requests (env w).
Proof.
  intros Hfail. cbv zeta.
  destruct response as [| status | | fetched]; [| | |by destruct (Hfail fetched)].
  - unfold fetchNotifications_response, fetchNotifications_try, exec. unfold_M. done.
  - unfold exec. rewrite fetch_failure_unfold. cbv zeta.
    destruct (addToNotiphyCenter_spec (apiKeyErrorNotification w) w)
      as (_ & _ & _ & _ & Hs & Hthis & Hr & _).
    set (w1 := addToNotiphyCenter (apiKeyErrorNotification w) w) in *. clearbody w1.
    assert (Hlog : ∀ l w0, storage (log l w0) = storage w0 ∧ this (log l w0) = this w0
                           ∧ requests (env (log l w0)) = requests (env w0)) by done.
    destruct (socket (this w)) as [s|] eqn:Hsock.
    + destruct (toggled_frame s w1) as (Hc2 & _ & _ & _ & _ & _ & _ & Hs2 & _ & Hr2 & _).
      destruct (toggled_frame_more s w1) as (Hl2 & Hn2 & _).
      set (w2 := toggled s w1) in *. clearbody w2.
      destruct (audioReminder (config (this w))) eqn:Hrem; cbn [snd];
        destruct (Hlog (LogCaught "Failed to fetch notifications:"
                          (Error ("Request failed with status: " +:+ pretty status)))
                    (if true then toggleAudioReminder w2 else w2)) as (Hq1 & Hq2 & Hq3);
        cbn iota in Hq1, Hq2, Hq3.
      * rewrite Hq1, Hq2, Hq3.
        destruct (toggleAudioReminder_frame w2)
          as (Hf3 & Hn3 & Hl3 & Hm3 & Hr3 & _ & _ & Hc3 & _).
        rewrite Hf3, Hn3, Hl3, Hm3, Hr3, Hc3, Hs2, Hl2, Hn2, Hc2, Hr2, Hs, Hthis, Hr. done.
      * destruct (Hlog (LogCaught "Failed to fetch notifications:"
                          (Error ("Request failed with status: " +:+ pretty status))) w2)
          as (Hp1 & Hp2 & Hp3).
        rewrite Hp1, Hp2, Hp3, Hs2, Hl2, Hn2, Hc2, Hr2, Hs, Hthis, Hr. done.
    + cbn [snd].
      destruct (Hlog (LogCaught "Failed to fetch notifications:"
                        (TypeError "this.socket is null")) w1) as (Hp1 & Hp2 & Hp3).
      rewrite Hp1, Hp2, Hp3, Hs, Hthis, Hr. done.
  - unfold fetchNotifications_response, fetchNotifications_try, exec. unfold_M. done.
Qed.

Lemma fetchNotifications_response_returns (localNotifications : list Notification)
    (response : FetchResult) (w : World) :
  throws (fetchNotifications_response localNotifications response) w = false.
Proof.
  unfold throws, fetchNotifications_response, try_catch, run.
  by destruct (fetchNotifications_try localNotifications response w) as [[|] ?].
Qed.

(** X12. [fetchNotifications] never throws.  Only a response that
    parsed moves the watermark, to the second the response arrived in;
    any failure leaves the watermark, the cache, [this.notifications]
    and the loaded flag as they were.  So the next request repeats the
    old watermark after a failure and carries the new one after a
    success. *)
Theorem fetch_response_watermark (localNotifications : list Notification)
    (response : FetchResult) (w : World) :
  let w' := exec (fetchNotifications_response localNotifications response) w in
  let succeeded := match response with FetchJson _ => true | _ => false end in
  throws (fetchNotifications_response localNotifications response) w = false
  ∧ notiphyWidgetLastFetched (storage w')
    = (if succeeded then Some (now (env w) `div` 1000)%Z
       else notiphyWidgetLastFetched (storage w))
  ∧ notificationsLoaded (this w') = (succeeded || notificationsLoaded (this w))
  ∧ (if succeeded then True
     else notiphyWidgetNotifications (storage w') = notiphyWidgetNotifications (storage w)
          ∧ notifications (this w') = notifications (this w))
  ∧ requests (env (fetchNotifications_request w'))
    = requests (env w)
        ++ [GetNotifications (subscriberId (config (this w))) (locationId (config (this w)))
              (if succeeded then (now (env w) `div` 1000)%Z
               else default 0%Z (notiphyWidgetLastFetched (storage w)))].
Proof.
  intros w' succeeded. subst w' succeeded.
  split; [apply fetchNotifications_response_returns|].
  assert (Hnext : ∀ w0, requests (env (fetchNotifications_request w0))
            = requests (env w0)
                ++ [GetNotifications (subscriberId (config (this w0)))
                      (locationId (config (this w0)))
                      (default 0%Z (notiphyWidgetLastFetched (storage w0)))]) by done.
  rewrite Hnext.
  assert (Hfailed : (∀ fetched, response ≠ FetchJson fetched) →
            let w' := exec (fetchNotifications_response localNotifications response) w in
            notiphyWidgetLastFetched (storage w') = notiphyWidgetLastFetched (storage w)
            ∧ notificationsLoaded (this w') = notificationsLoaded (this w)
            ∧ (notiphyWidgetNotifications (storage w')
               = notiphyWidgetNotifications (storage w)
               ∧ notifications (this w') = notifications (this w))
            ∧ requests (env w')
                ++ [GetNotifications (subscriberId (config (this w')))
                      (locationId (config (this w')))
                      (default 0%Z (notiphyWidgetLastFetched (storage w')))]
              = requests (env w)
                  ++ [GetNotifications (subscriberId (config (this w)))
                        (locationId (config (this w)))
                        (default 0%Z (notiphyWidgetLastFetched (storage w)))]).
  { intros Hfail. cbv zeta.
    destruct (fetch_failure_keeps_cache localNotifications response w Hfail)
      as (Hn & Hf & Hl & Hm & Hsub & Hloc & Hr).
    cbv zeta in Hn, Hf, Hl, Hm, Hsub, Hloc, Hr.
    by rewrite Hn, Hf, Hl, Hm, Hsub, Hloc, Hr. }
  destruct response as [| status | | fetched]; [by apply Hfailed..|].
  clear Hfailed.
  destruct (fetch_success_effects localNotifications fetched w)
    as (_ & _ & _ & _ & Hl & Hc & Hf & _ & Hr & _).
  cbv zeta in Hl, Hc, Hf, Hr. rewrite Hl, Hc, Hf, Hr. done.
Qed.

(** X13. A response that parsed rebuilds the inbox from fresh
    elements and starts one footer interval per merged notification,
    but clears none: every timer that ran before still runs, the footer
    intervals of the detached entries included, so the live intervals
    grow with every refresh. *)
Theorem fetch_success_keeps_footer_intervals
    (localNotifications fetched : list Notification) (w : World) :
  let merged := mergeNotifications localNotifications fetched in
  let w' := exec (fetchNotifications_response localNotifications (FetchJson fetched)) w in
  timers (env w')
  = timers (env w)
      ++ imap (λ k _, (nextTimer (env w) + k,
                       Interval 5000 (CbUpdateFooter (nextNode (env w) + k)))) merged
      ++ (if negb (notificationsLoaded (this w)) && showInboxOnLoad (config (this w))
             && centerOpen (dom w)
          then [(nextTimer (env w) + length merged, Timeout 300 CbHideCenter)] else [])
  ∧ detached (dom w') = centerBody (dom w) ++ detached (dom w)
  ∧ node <$> centerBody (dom w')
    = reverse (seq (nextNode (env w)) (length merged)).
Proof.
  intros merged w'.
  destruct (fetch_success_effects localNotifications fetched w) as (Ht & Hd & Hn & _).
  done.
Qed.

Lemma later_fetch_keeps_inbox (localNotifications : list Notification)
    (response : FetchResult) (w : World) :
  notificationsLoaded (this w) = true →
  centerOpen (dom (exec (fetchNotifications_response localNotifications response) w))
  = centerOpen (dom w).
Proof.
  intros Hloaded.
  destruct response as [| status | | fetched].
  - unfold fetchNotifications_response, fetchNotifications_try, exec. unfold_M. done.
  - unfold exec. rewrite fetch_failure_unfold. cbv zeta.
    destruct (addToNotiphyCenter_env (apiKeyErrorNotification w) w)
      as (_ & _ & _ & _ & _ & _ & _ & Ho & _).
    set (w3 := addToNotiphyCenter (apiKeyErrorNotification w) w) in *. clearbody w3.
    destruct (socket (this w)) as [s|]; [|simpl; done].
    destruct (toggled_frame_more s w3) as (_ & _ & Ho').
    set (w4 := toggled s w3) in *. clearbody w4.
    assert (Hlog : ∀ l w, centerOpen (dom (log l w)) = centerOpen (dom w)) by done.
    destruct (audioReminder (config (this w))); cbn [snd]; rewrite Hlog.
    + destruct (toggleAudioReminder_frame w4) as (_ & _ & _ & _ & _ & -> & _). congruence.
    + congruence.
  - unfold fetchNotifications_response, fetchNotifications_try, exec. unfold_M. done.
  - destruct (fetch_success_effects localNotifications fetched w) as (_ & _ & _ & -> & _).
    by rewrite Hloaded.
Qed.

(** X14. [showInboxOnLoad] acts on the first response that parsed
    and on no later one, and it toggles: it opens a closed inbox and
    closes one the user has opened meanwhile.  No later response, of
    any kind, changes the visibility. *)
Theorem showInboxOnLoad_toggles_once
    (local1 fetched local2 : list Notification) (response : FetchResult) (w : World) :
  let w1 := exec (fetchNotifications_response local1 (FetchJson fetched)) w in
  let w2 := exec (fetchNotifications_response local2 response) w1 in
  centerOpen (dom w1)
  = (if negb (notificationsLoaded (this w)) && showInboxOnLoad (config (this w))
     then negb (centerOpen (dom w)) else centerOpen (dom w))
  ∧ centerOpen (dom w2) = centerOpen (dom w1).
Proof.
  intros w1 w2. subst w1 w2.
  destruct (fetch_success_effects local1 fetched w) as (_ & _ & _ & Ho & Hl & _).
  split; [exact Ho|].
  exact (later_fetch_keeps_inbox local2 response _ Hl).
Qed.

(** ** The merge, id by id *)

Lemma last_local_snoc (k : JsId) (l : list Notification) (n : Notification) :
  last_local k (l ++ [n]) = if bool_decide (nid n = k) then Some n else last_local k l.
Proof.
  induction l as [|m l IH]; simpl.
  - by case_bool_decide.
  - rewrite IH. case_bool_decide; [done|]. done.
Qed.

Lemma verdict_snoc (k : JsId) (r : list Notification) (n : Notification) :
  verdict k (r ++ [n])
  = if bool_decide (nid n = k) then Some (if dismissed n then None else Some n)
    else verdict k r.
Proof.
  induction r as [|m r IH]; simpl.
  - by case_bool_decide.
  - rewrite IH. case_bool_decide; [done|]. done.
Qed.

Lemma spec_merge_local (k : JsId) (l : list Notification) :
  foldl (λ (m : gmap JsId Notification) n, <[nid n := n]> m) ∅ l !! k = last_local k l.
Proof.
  induction l as [|n l IH] using rev_ind; [done|].
  rewrite foldl_app, last_local_snoc. simpl.
  case_bool_decide as Hk.
  - subst k. by rewrite lookup_insert_eq.
  - by rewrite lookup_insert_ne.
Qed.

Lemma spec_merge_remote (k : JsId) (r : list Notification) (m : gmap JsId Notification) :
  foldl (λ (m : gmap JsId Notification) n,
           if dismissed n then delete (nid n) m else <[nid n := n]> m) m r !! k
  = match verdict k r with Some v => v | None => m !! k end.
Proof.
  induction r as [|n r IH] using rev_ind; [done|].
  rewrite foldl_app, verdict_snoc. simpl.
  case_bool_decide as Hk.
  - subst k. destruct (dismissed n).
    + by rewrite lookup_delete_eq.
    + by rewrite lookup_insert_eq.
  - destruct (dismissed n).
    + by rewrite lookup_delete_ne.
    + by rewrite lookup_insert_ne.
Qed.

Lemma keyed_lookup (m : list (JsId * Notification)) (n : Notification) :
  keyed m →
  n ∈ jsmap_values m ↔ (list_to_map m : gmap JsId Notification) !! nid n = Some n.
Proof.
  intros (Hnodup & Hkeys). unfold jsmap_values.
  rewrite <- elem_of_list_to_map by done.
  rewrite list_elem_of_fmap. split.
  - intros ((k & n') & -> & Hin). simpl.
    rewrite Forall_forall in Hkeys. specialize (Hkeys _ Hin). simpl in Hkeys.
    by rewrite <- Hkeys.
  - intros Hin. by exists (nid n, n).
Qed.

Lemma merge_map_lookup (localNotifications remote : list Notification) (k : JsId) :
  (list_to_map (merge_map localNotifications remote) : gmap JsId Notification) !! k
  = match verdict k remote with
    | Some v => v
    | None => last_local k localNotifications
    end.
Proof.
  rewrite merge_map_to_map. unfold spec_merge.
  by rewrite spec_merge_remote, spec_merge_local.
Qed.

Lemma last_local_one_per_id (k : JsId) (l : list Notification) (n : Notification) :
  NoDup (nid <$> l) →
  last_local k l = Some n ↔ n ∈ l ∧ nid n = k.
Proof.
  revert n. induction l as [|m l IH]; intros n; csimpl.
  - intros _. split; [done|]. intros (Hin & _). by apply elem_of_nil in Hin.
  - rewrite NoDup_cons. intros (Hm & Hl).
    rewrite elem_of_cons.
    destruct (last_local k l) as [n'|] eqn:Hlast.
    + destruct (proj1 (IH n' Hl) eq_refl) as (Hin' & Hk').
      split.
      * intros [= ->]. eauto.
      * intros ([->|Hin] & Hk).
        -- exfalso. apply Hm. rewrite Hk, <- Hk'. by apply list_elem_of_fmap_2.
        -- by apply (IH n Hl).
    + case_bool_decide as Hmk.
      * split.
        -- intros [= ->]. eauto.
        -- intros ([->|Hin] & Hk); [done|].
           assert (None = Some n) by (by apply (IH n Hl)). done.
      * split; [done|].
        intros ([->|Hin] & Hk); [done|].
        assert (None = Some n) by (by apply (IH n Hl)). done.
Qed.

Lemma mergeNotifications_one_per_id (localNotifications fetched : list Notification) :
  NoDup (nid <$> mergeNotifications localNotifications fetched).
Proof.
  pose proof (merge_map_keyed localNotifications fetched) as Hk.
  change (mergeNotifications localNotifications fetched)
    with (jsmap_values (merge_map localNotifications fetched)).
  rewrite (keyed_values _ Hk). apply Hk.
Qed.

(** X15. What the merge keeps, for arbitrary lists (ids may repeat):
    a notification is in the result exactly when it is the last remote
    entry of its id and not dismissed, or no remote entry has its id and
    it is the last local entry of its id. *)
Theorem mergeNotifications_membership (localNotifications remote : list Notification)
    (n : Notification) :
  n ∈ mergeNotifications localNotifications remote
  ↔ match verdict (nid n) remote with
    | Some v => v = Some n
    | None => last_local (nid n) localNotifications = Some n
    end.
Proof.
  change (mergeNotifications localNotifications remote)
    with (jsmap_values (merge_map localNotifications remote)).
  rewrite (keyed_lookup _ _ (merge_map_keyed localNotifications remote)).
  rewrite merge_map_lookup.
  by destruct (verdict (nid n) remote).
Qed.

(** X16. Merging the same response a second time changes nothing but
    possibly the order: the result of the merge, merged again with the
    same remote list, holds the same notifications. *)
Theorem mergeNotifications_idempotent (localNotifications remote : list Notification) :
  mergeNotifications (mergeNotifications localNotifications remote) remote
  ≡ₚ mergeNotifications localNotifications remote.
Proof.
  pose proof (mergeNotifications_one_per_id localNotifications remote) as H1.
  pose proof (mergeNotifications_one_per_id
                (mergeNotifications localNotifications remote) remote) as H2.
  apply NoDup_Permutation.
  - by apply (NoDup_fmap_1 nid).
  - by apply (NoDup_fmap_1 nid).
  - intros n.
    assert (Hmem : ∀ l, n ∈ mergeNotifications l remote
              ↔ match verdict (nid n) remote with
                | Some v => v = Some n
                | None => last_local (nid n) l = Some n
                end).
    { intros l.
      change (mergeNotifications l remote) with (jsmap_values (merge_map l remote)).
      rewrite (keyed_lookup _ _ (merge_map_keyed l remote)), merge_map_lookup.
      by destruct (verdict (nid n) remote). }
    rewrite (Hmem (mergeNotifications localNotifications remote)).
    rewrite (Hmem localNotifications).
    destruct (verdict (nid n) remote) as [v|] eqn:Hv; [done|].
    rewrite (last_local_one_per_id _ _ _ H1).
    rewrite (Hmem localNotifications). tauto.
Qed.

(** ** The session cache *)

Lemma update_found_ids (i : JsId) (l l' : list Notification) :
  update_found i (with_read true) l = Some l' → nid <$> l' = nid <$> l.
Proof.
  revert l'. induction l as [|n r IH]; intros l'; simpl; [done|].
  case_bool_decide.
  - by intros [= <-].
  - destruct (update_found i (with_read true) r) as [r'|]; [|done].
    intros [= <-]. csimpl. by rewrite (IH r').
Qed.

Lemma updateLocalNotification_cache_ok (i : JsId) (w : World) :
  cache_ok w → cache_ok (updateLocalNotification i (with_read true) w).
Proof.
  unfold cache_ok, updateLocalNotification.
  destruct (update_found _ _ _) as [l'|] eqn:Hl; [|done].
  intros Hok. unfold loadNotifications, saveNotifications. simpl.
  by rewrite (update_found_ids _ _ _ Hl).
Qed.

Lemma removeLocalNotification_cache_ok (i : JsId) (w : World) :
  cache_ok w → cache_ok (removeLocalNotification i w).
Proof.
  unfold cache_ok, removeLocalNotification. intros Hok.
  unfold loadNotifications at 1. unfold saveNotifications. simpl.
  revert Hok. generalize (loadNotifications w). intros l.
  induction l as [|n l IH]; simpl; [done|].
  rewrite NoDup_cons. intros (Hn & Hl).
  rewrite filter_cons. case_decide; [|by apply IH].
  simpl. rewrite NoDup_cons. split; [|by apply IH].
  intros Hin. apply Hn. apply list_elem_of_fmap in Hin as (m & Hm & Hin).
  apply list_elem_of_filter in Hin as (_ & Hin).
  rewrite Hm. by apply list_elem_of_fmap_2.
Qed.

Lemma cache_ok_storage (w w' : World) :
  notiphyWidgetNotifications (storage w') = notiphyWidgetNotifications (storage w) →
  cache_ok w → cache_ok w'.
Proof. unfold cache_ok, loadNotifications. by intros ->. Qed.

Lemma markRead_response_cache_ok (i : JsId) (result : PostResult) (w : World) :
  cache_ok w → cache_ok (exec (markRead_response i result) w).
Proof.
  intros Hok. destruct result as [|status message]; [done|].
  unfold exec, markRead_response, socket_emit. unfold_M. simpl.
  destruct (socket (this w)); simpl; [|done].
  by apply updateLocalNotification_cache_ok.
Qed.

Lemma dismissNotification_response_cache_ok (i : JsId) (targetElement : nat)
    (result : PostResult) (w : World) :
  cache_ok w → cache_ok (exec (dismissNotification_response i targetElement result) w).
Proof.
  intros Hok. destruct result as [|status message]; [done|].
  unfold exec, dismissNotification_response, socket_emit. unfold_M. simpl.
  destruct (socket (this w)); simpl; [|done].
  destruct (find_elem targetElement _); simpl; [|done].
  unfold when. destruct (negb (el_read _)); simpl;
    by apply removeLocalNotification_cache_ok.
Qed.

Lemma constructor_cache_ok (cfg : CallerConfig) (w : World) :
  cache_ok w → cache_ok (exec (constructor cfg) w).
Proof.
  intros Hok.
  assert (Hhead : cache_ok (constructor_head cfg w)).
  { destruct (constructor_head_cache cfg w) as (Hc & _). cbv zeta in Hc.
    unfold cache_ok, loadNotifications. rewrite Hc.
    case_match; [|done]. simpl. apply NoDup_nil_2. }
  unfold exec. rewrite constructor_unfold. cbv zeta.
  set (w1 := constructor_head cfg w) in *. clearbody w1.
  destruct (negb (truthy_str (subscriberId (config (this w1))))); [done|].
  destruct (negb (truthy_str (widgetKey (config (this w1))))); [done|].
  destruct (constructor_tail_spec w1) as (Hs & _).
  eapply cache_ok_storage; [|exact Hhead]. by rewrite Hs.
Qed.

(** X17. One cached notification per id is an invariant: a cache
    that holds no id twice still holds none twice after any response to
    a fetch (whatever list the request had read and whatever ids the
    response repeats), after either event from a sibling widget, after a
    local mark-read or dismissal and its response, and after a reload
    with any caller configuration. *)
Theorem cache_stays_one_per_id (w : World) :
  cache_ok w →
  (∀ localNotifications response,
     cache_ok (exec (fetchNotifications_response localNotifications response) w))
  ∧ (∀ id,
       cache_ok (exec (handleMarkedReadNotification id) w)
       ∧ cache_ok (exec (handleDismissedNotification id) w)
       ∧ (∀ target result,
            cache_ok (exec (markRead_response id result) (markRead id target w))
            ∧ cache_ok (exec (dismissNotification_response id target result)
                          (dismissNotification id target w))))
  ∧ (∀ cfg time, cache_ok (exec (constructor cfg) (reload time w))).
Proof.
  intros Hok. split_and!.
  - intros l response.
    destruct response as [| status | | fetched].
    1-3: eapply cache_ok_storage; [|exact Hok];
         by apply fetch_failure_keeps_cache.
    destruct (fetch_success_effects l fetched w) as (_ & _ & _ & _ & _ & _ & _ & Hc & _).
    unfold cache_ok, loadNotifications. rewrite Hc. simpl.
    apply mergeNotifications_one_per_id.
  - intros id. split_and!.
    + destruct (handleMarkedReadNotification_cases id w) as [->|(e & _ & ->)]; [done|].
      apply updateLocalNotification_cache_ok.
      eapply cache_ok_storage; [|exact Hok].
      unfold updateStatsAfterMarkRead, updateUnreadCount.
      by repeat case_match.
    + destruct (handleDismissedNotification_cases id w) as [->|(e & _ & ->)]; [done|].
      apply removeLocalNotification_cache_ok.
      eapply cache_ok_storage; [|exact Hok].
      unfold updateStatsAfterDismissal, updateUnreadCount, remove_matching.
      by repeat case_match.
    + intros target result. split.
      * apply markRead_response_cache_ok. by eapply cache_ok_storage.
      * apply dismissNotification_response_cache_ok. by eapply cache_ok_storage.
  - intros cfg time. apply constructor_cache_ok. by eapply cache_ok_storage.
Qed.

Lemma cache_stays_one_per_id_witness :
  cache_ok second_page
  ∧ cache_ok (exec (fetchNotifications_response []
                      (FetchJson [sample "n-1" true false; sample "n-1" false false]))
                second_page).
Proof.
  assert (H : cache_ok second_page)
    by (apply (bool_decide_unpack _); vm_compute; exact I).
  split; [exact H|].
  exact (proj1 (cache_stays_one_per_id second_page H) []
           (FetchJson [sample "n-1" true false; sample "n-1" false false])).
Defined.

Lemma update_found_numeric (a : string) (updates : Notification → Notification)
    (l : list Notification) :
  Forall (λ n, ∃ z, nid n = IdNum z) l →
  update_found (IdStr a) updates l = None
  ∧ filter (λ n, nid n ≠ IdStr a) l = l.
Proof.
  induction 1 as [|n l (z & Hz) _ (IH1 & IH2)]; [done|]. simpl.
  rewrite bool_decide_eq_false_2 by (by rewrite Hz).
  rewrite IH1. split; [done|].
  rewrite filter_cons, decide_True by (by rewrite Hz). by rewrite IH2.
Qed.

Lemma cache_untouched_numeric (a : string) (w : World) :
  Forall (λ n, ∃ z, nid n = IdNum z) (loadNotifications w) →
  updateLocalNotification (IdStr a) (with_read true) w = w
  ∧ loadNotifications (removeLocalNotification (IdStr a) w) = loadNotifications w.
Proof.
  intros Hnum.
  destruct (update_found_numeric a (with_read true) _ Hnum) as (Hu & Hf).
  unfold updateLocalNotification, removeLocalNotification. rewrite Hu, Hf. done.
Qed.

Lemma loadNotifications_storage (w w' : World) :
  notiphyWidgetNotifications (storage w') = notiphyWidgetNotifications (storage w) →
  loadNotifications w' = loadNotifications w.
Proof. unfold loadNotifications. by intros ->. Qed.

(** X18. The ids the widget reads back from [data-notification-id]
    are strings, and the cache is searched with [===]: when the cached
    notifications carry numbers as ids, no click, no response and no
    event from a sibling widget with such an id changes the cached
    list.  The entry is marked or removed on screen and stays as it was
    in the cache. *)
Theorem string_ids_miss_numeric_cache (a : string) (target : nat) (result : PostResult)
    (w : World) :
  Forall (λ n, ∃ z, nid n = IdNum z) (loadNotifications w) →
  loadNotifications (exec (markRead_response (IdStr a) result) (markRead (IdStr a) target w))
  = loadNotifications w
  ∧ loadNotifications
      (exec (dismissNotification_response (IdStr a) target result)
         (dismissNotification (IdStr a) target w))
    = loadNotifications w
  ∧ loadNotifications (exec (handleMarkedReadNotification (IdStr a)) w)
    = loadNotifications w
  ∧ loadNotifications (exec (handleDismissedNotification (IdStr a)) w)
    = loadNotifications w.
Proof.
  intros Hnum.
  assert (Hany : ∀ w', notiphyWidgetNotifications (storage w')
                       = notiphyWidgetNotifications (storage w) →
            loadNotifications (updateLocalNotification (IdStr a) (with_read true) w')
            = loadNotifications w
            ∧ loadNotifications (removeLocalNotification (IdStr a) w')
              = loadNotifications w).
  { intros w' Hs. pose proof (loadNotifications_storage w w' Hs) as Hl.
    destruct (cache_untouched_numeric a w') as (-> & ->); by rewrite Hl. }
  split_and!.
  - destruct result as [|status message]; [done|].
    unfold exec, markRead_response, socket_emit. unfold_M. simpl.
    destruct (socket (this w)); simpl; [|done].
    by apply Hany.
  - destruct result as [|status message]; [done|].
    unfold exec, dismissNotification_response, socket_emit. unfold_M. simpl.
    destruct (socket (this w)); simpl; [|done].
    destruct (find_elem target _); simpl; [|done].
    unfold when. destruct (negb (el_read _)); simpl; by apply Hany.
  - destruct (handleMarkedReadNotification_cases (IdStr a) w) as [->|(e & _ & ->)]; [done|].
    apply Hany. unfold updateStatsAfterMarkRead, updateUnreadCount. by repeat case_match.
  - destruct (handleDismissedNotification_cases (IdStr a) w) as [->|(e & _ & ->)]; [done|].
    apply Hany. unfold updateStatsAfterDismissal, updateUnreadCount, remove_matching.
    by repeat case_match.
Qed.

Lemma string_ids_miss_numeric_cache_witness :
  Forall (λ n, ∃ z, nid n = IdNum z) (loadNotifications numbered_cache)
  ∧ loadNotifications
      (exec (markRead_response (IdStr "7") (PostJson 200 "ok"))
         (markRead (IdStr "7") 0 numbered_cache))
    = loadNotifications numbered_cache.
Proof.
  assert (H : Forall (λ n, ∃ z, nid n = IdNum z) (loadNotifications numbered_cache)).
  { change (loadNotifications numbered_cache) with [numbered 7 false; numbered 8 false].
    repeat constructor; eexists; reflexivity. }
  split; [exact H|].
  exact (proj1 (string_ids_miss_numeric_cache "7" 0 (PostJson 200 "ok") numbered_cache H)).
Defined.

Lemma dismissNotification_response_effects (i : JsId) (target : nat) (status : Z)
    (message : string) (s : SockState) (e : Elem) (w : World) :
  socket (this w) = Some s →
  find_elem target w = Some e →
  let w' := exec (dismissNotification_response i target (PostJson status message)) w in
  statsTotal (dom w') = Z.max 0 (statsTotal (dom w) - 1)
  ∧ statsUnread (dom w')
    = (if el_read e then statsUnread (dom w) else Z.max 0 (statsUnread (dom w) - 1))
  ∧ centerBody (dom w') = filter (λ e', node e' ≠ target) (centerBody (dom w))
  ∧ detached (dom w')
    = filter (λ e', node e' = target) (centerBody (dom w)) ++ detached (dom w)
  ∧ socket (this w') = Some s.
Proof.
  intros Hs He w'. subst w'.
  unfold dismissNotification_response, socket_emit. unfold_M. simpl.
  rewrite Hs. simpl.
  replace (find_elem target _) with (Some e) by (by rewrite <- He).
  destruct (el_read e); simpl; done.
Qed.

Lemma fetchNotifications_request_effects (w : World) :
  suspended (env (fetchNotifications_request w)) = suspended (env w) ++ [loadNotifications w]
  ∧ storage (fetchNotifications_request w) = storage w
  ∧ dom (fetchNotifications_request w) = dom w
  ∧ this (fetchNotifications_request w) = this w.
Proof. done. Qed.

(** X19. [fetchNotifications] reads the cache before it awaits the
    response and merges with that list.  A dismissal whose response
    arrives while the fetch is in flight removes the notification from
    the cache; the fetch's response, unless it mentions the id, then
    puts it back into the cache and into the inbox. *)
Theorem fetch_in_flight_undoes_dismissal (n : Notification) (target : nat) (e : Elem)
    (s : SockState) (status : Z) (message : string) (fetched : list Notification)
    (w : World) :
  socket (this w) = Some s →
  find_elem target w = Some e →
  NoDup (nid <$> loadNotifications w) →
  n ∈ loadNotifications w →
  verdict (nid n) fetched = None →
  let requested := fetchNotifications_request w in
  let dismissed :=
    exec (dismissNotification_response (nid n) target (PostJson status message)) requested in
  let answered :=
    exec (fetchNotifications_response (loadNotifications w) (FetchJson fetched)) dismissed in
  last (suspended (env requested)) = Some (loadNotifications w)
  ∧ (n ∉ loadNotifications dismissed)
  ∧ (n ∈ loadNotifications answered)
  ∧ (n ∈ shown <$> centerBody (dom answered)).
Proof.
  intros Hs He Hnodup Hin Hverdict requested dismissed answered.
  subst requested dismissed answered.
  destruct (fetchNotifications_request_effects w) as (Hsusp & Hst & Hd & Hthis).
  assert (Hs1 : socket (this (fetchNotifications_request w)) = Some s) by (by rewrite Hthis).
  assert (He1 : find_elem target (fetchNotifications_request w) = Some e)
    by (unfold find_elem; rewrite Hd; exact He).
  assert (Hl1 : loadNotifications (fetchNotifications_request w) = loadNotifications w)
    by (unfold loadNotifications; by rewrite Hst).
  set (w1 := fetchNotifications_request w) in *. clearbody w1.
  assert (Hcache : loadNotifications
                     (exec (dismissNotification_response (nid n) target
                              (PostJson status message)) w1)
                   = filter (λ m, nid m ≠ nid n) (loadNotifications w)).
  { unfold exec, dismissNotification_response, socket_emit. unfold_M. simpl.
    rewrite Hs1. simpl.
    replace (find_elem target _) with (Some e) by (by rewrite <- He1).
    unfold when. destruct (negb (el_read e)); simpl;
      unfold removeLocalNotification, loadNotifications; simpl;
      fold (loadNotifications w1); by rewrite Hl1. }
  set (w2 := exec _ w1) in *. clearbody w2.
  destruct (fetch_success_effects (loadNotifications w) fetched w2)
    as (_ & _ & _ & _ & _ & _ & _ & Hc & _ & Hshown).
  assert (Hmerged : n ∈ mergeNotifications (loadNotifications w) fetched).
  { change (mergeNotifications (loadNotifications w) fetched)
      with (jsmap_values (merge_map (loadNotifications w) fetched)).
    rewrite (keyed_lookup _ _ (merge_map_keyed (loadNotifications w) fetched)).
    rewrite merge_map_lookup, Hverdict.
    by apply last_local_one_per_id. }
  split_and!.
  - by rewrite Hsusp, last_snoc.
  - rewrite Hcache. intros Hn. apply list_elem_of_filter in Hn as (Hn & _). done.
  - unfold loadNotifications at 1. rewrite Hc. done.
  - rewrite Hshown. by apply elem_of_reverse.
Qed.

Lemma fetch_in_flight_undoes_dismissal_witness :
  socket (this cached_unread) = Some SockConnected
  ∧ find_elem 0 cached_unread = Some first_entry
  ∧ NoDup (nid <$> loadNotifications cached_unread)
  ∧ (sample "1" false false ∈ loadNotifications cached_unread)
  ∧ verdict (nid (sample "1" false false)) [sample "2" false false] = None
  ∧ (sample "1" false false
     ∉ loadNotifications
         (exec (dismissNotification_response (nid (sample "1" false false)) 0
                  (PostJson 200 "ok"))
            (fetchNotifications_request cached_unread)))
  ∧ (sample "1" false false
     ∈ loadNotifications
         (exec (fetchNotifications_response (loadNotifications cached_unread)
                  (FetchJson [sample "2" false false]))
            (exec (dismissNotification_response (nid (sample "1" false false)) 0
                     (PostJson 200 "ok"))
               (fetchNotifications_request cached_unread)))).
Proof.
  assert (H1 : socket (this cached_unread) = Some SockConnected) by (vm_compute; reflexivity).
  assert (H2 : find_elem 0 cached_unread = Some first_entry) by (vm_compute; reflexivity).
  assert (H3 : NoDup (nid <$> loadNotifications cached_unread))
    by (apply (bool_decide_unpack _); vm_compute; exact I).
  assert (H4 : sample "1" false false ∈ loadNotifications cached_unread)
    by (apply (bool_decide_unpack _); vm_compute; exact I).
  assert (H5 : verdict (nid (sample "1" false false)) [sample "2" false false] = None)
    by (vm_compute; reflexivity).
  destruct (fetch_in_flight_undoes_dismissal (sample "1" false false) 0 first_entry
              SockConnected 200 "ok" [sample "2" false false] cached_unread
              H1 H2 H3 H4 H5) as (_ & Hgone & Hback & _).
  split_and!; [exact H1|exact H2|exact H3|exact H4|exact H5|exact Hgone|exact Hback].
Defined.

(** ** Clicks *)

Lemma list_find_set_classes_read (target : nat) (l : list Elem) :
  list_find (λ e, node e = target) (set_classes_read target l)
  = (λ p, (p.1, {| node := node p.2; shown := shown p.2;
                   btn_open := true; el_read := true |}))
      <$> list_find (λ e, node e = target) l.
Proof.
  unfold set_classes_read.
  induction l as [|e l IH]; [done|]. csimpl.
  destruct (decide (node e = target)) as [He|He].
  - rewrite (bool_decide_eq_true_2 _ He). simpl. rewrite decide_True by done. done.
  - rewrite (bool_decide_eq_false_2 _ He). rewrite decide_False by done.
    rewrite IH. by destruct (list_find _ l) as [[??]|].
Qed.

Lemma markRead_click_effects (i : JsId) (target : nat) (w : World) :
  let w' := playClickOffSound (markRead i target w) in
  socket (this w') = socket (this w)
  ∧ centerBody (dom w') = set_classes_read target (centerBody (dom w))
  ∧ detached (dom w') = set_classes_read target (detached (dom w))
  ∧ statsUnread (dom w') = Z.max 0 (statsUnread (dom w) - 1)
  ∧ statsTotal (dom w') = statsTotal (dom w)
  ∧ requests (env w') = requests (env w) ++ [PostMarkRead i]
  ∧ storage w' = storage w
  ∧ config (this w') = config (this w).
Proof.
  cbv zeta. unfold playClickOffSound.
  destruct (play_frame clickOff (markRead i target w)) as (-> & -> & -> & _ & -> & _).
  done.
Qed.

Lemma body_click_mark_read_cases (entry : nat) (w : World) :
  body_click (MarkReadButton entry) w = (w, [])
  ∨ ∃ s j e, socket (this w) = Some s
             ∧ list_find (λ e, node e = entry) (centerBody (dom w)) = Some (j, e)
             ∧ btn_open e = false
             ∧ body_click (MarkReadButton entry) w
               = (playClickOffSound (markRead (IdStr (attr e)) entry w), []).
Proof.
  unfold body_click, on_body_click.
  destruct (socket (this w)) as [s|] eqn:Hs; [|by left].
  destruct (list_find (λ e, node e = entry) (centerBody (dom w))) as [[j e]|] eqn:Hfind;
    [|by left].
  destruct (btn_open e) eqn:Ho; [by left|].
  right. exists s, j, e. done.
Qed.

(** X20. A click on the mark-read button of an entry of the inbox.
    Until the socket.io script has loaded the body has no listener, and
    the click changes nothing.  After that, a click on the button of an
    entry already marked changes nothing; a click on the button of an
    unmarked entry marks the entry (and any entry that shares its
    element), lowers the unread counter by one (not below zero), leaves
    the total alone, sends one mark-read request with the id as the
    attribute spells it, and plays the click-off cue when the sound is
    on.  Either way the click starts no timeout, and a second click on
    the same button changes nothing and sends nothing. *)
Theorem mark_read_click_once (entry : nat) (w : World) :
  let click := body_click (MarkReadButton entry) w in
  let first := click.1 in
  click.2 = []
  ∧ body_click (MarkReadButton entry) first = (first, [])
  ∧ match socket (this w), list_find (λ e, node e = entry) (centerBody (dom w)) with
    | Some _, Some (_, e) =>
        if btn_open e then first = w
        else requests (env first)
             = requests (env w) ++ [PostMarkRead (IdStr (attr e))]
             ∧ centerBody (dom first) = set_classes_read entry (centerBody (dom w))
             ∧ statsUnread (dom first) = Z.max 0 (statsUnread (dom w) - 1)
             ∧ statsTotal (dom first) = statsTotal (dom w)
             ∧ played (env first)
               = played (env w)
                 ++ (if audioAlert (config (this w)) then [clickOff] else [])
             ∧ storage first = storage w
    | _, _ => first = w
    end.
Proof.
  cbv zeta.
  destruct (body_click_mark_read_cases entry w)
    as [Hsame|(s & j & e & Hs & Hfind & Ho & Hclick)].
  { rewrite Hsame. cbn [fst snd]. split_and!; [done..|].
    revert Hsame. unfold body_click, on_body_click.
    destruct (socket (this w)) as [s|]; [|done].
    destruct (list_find _ (centerBody (dom w))) as [[j e]|]; [|done].
    destruct (btn_open e); [done|]. cbn [negb].
    intros Hsame. exfalso.
    assert (Hr : requests (env (playClickOffSound (markRead (IdStr (attr e)) entry w)))
                 = requests (env w)) by (by injection Hsame as ->).
    destruct (markRead_click_effects (IdStr (attr e)) entry w)
      as (_ & _ & _ & _ & _ & Hr' & _).
    cbv zeta in Hr'. rewrite Hr in Hr'.
    apply (f_equal length) in Hr'. rewrite length_app in Hr'. simpl in Hr'. lia. }
  rewrite Hclick. cbn [fst snd]. rewrite Hs, Hfind, Ho.
  destruct (markRead_click_effects (IdStr (attr e)) entry w)
    as (Hs' & Hb' & _ & Hu' & Ht' & Hr' & Hst' & _).
  assert (Hp' : played (env (playClickOffSound (markRead (IdStr (attr e)) entry w)))
                = played (env w)
                  ++ (if audioAlert (config (this w)) then [clickOff] else [])).
  { unfold playClickOffSound, play.
    change (config (this (markRead (IdStr (attr e)) entry w))) with (config (this w)).
    change (played (env (markRead (IdStr (attr e)) entry w))) with (played (env w)).
    destruct (audioAlert (config (this w))); [done|]. by rewrite app_nil_r. }
  set (w1 := playClickOffSound (markRead (IdStr (attr e)) entry w)) in *. clearbody w1.
  split_and!; try done.
  unfold body_click, on_body_click.
  rewrite Hs', Hs, Hb', list_find_set_classes_read, Hfind. done.
Qed.

Lemma run_schedule_markAllRead (w0 w : World) :
  run_schedule (markAllRead w0) w
  = foldl (λ w e, run_later (LaterMarkRead (node e)) w) w (centerBody (dom w0)).
Proof.
  unfold run_schedule, markAllRead.
  generalize (centerBody (dom w0)). intros l.
  generalize (λ index : nat, (Z.of_nat index * 110)%Z). intros g.
  assert (H : ∀ (f : nat → Z) w,
            foldl (λ w t, run_later t.2 w) w
              (imap (λ index e, (f index, LaterMarkRead (node e))) l)
            = foldl (λ w e, run_later (LaterMarkRead (node e)) w) w l).
  { induction l as [|e l IH]; intros f w1; [done|].
    cbn [imap foldl]. cbn [snd]. apply (IH (f ∘ S)). }
  apply H.
Qed.

Lemma list_find_unique (target : nat) (before after : list Elem) (e : Elem) :
  node e = target →
  NoDup (node <$> before ++ e :: after) →
  list_find (λ e', node e' = target) (before ++ e :: after) = Some (length before, e)
  ∧ set_classes_read target (before ++ e :: after)
    = before ++ {| node := node e; shown := shown e; btn_open := true; el_read := true |}
               :: after.
Proof.
  intros He. rewrite fmap_app, fmap_cons, NoDup_app, NoDup_cons.
  intros (_ & Hbefore & Hafter & _).
  assert (Hb : Forall (λ e', node e' ≠ target) before).
  { apply Forall_forall. intros e' Hin Heq. apply (Hbefore (node e')).
    - by apply list_elem_of_fmap_2.
    - rewrite Heq, <- He. apply elem_of_cons. by left. }
  assert (Ha : Forall (λ e', node e' ≠ target) after).
  { apply Forall_forall. intros e' Hin Heq. apply Hafter.
    rewrite He, <- Heq. by apply list_elem_of_fmap_2. }
  split.
  - apply list_find_Some. split_and!.
    + by rewrite lookup_app_r, Nat.sub_diag.
    + done.
    + intros j y Hj Hlt. rewrite lookup_app_l in Hj by done.
      rewrite Forall_forall in Hb. apply Hb. by eapply list_elem_of_lookup_2.
  - unfold set_classes_read. rewrite fmap_app, fmap_cons.
    rewrite (bool_decide_eq_true_2 _ He). f_equal; [|f_equal].
    + clear -Hb. induction Hb as [|x l Hx _ IH]; [done|]. csimpl.
      by rewrite (bool_decide_eq_false_2 _ Hx), IH.
    + clear -Ha. induction Ha as [|x l Hx _ IH]; [done|]. csimpl.
      by rewrite (bool_decide_eq_false_2 _ Hx), IH.
Qed.

Lemma markAllRead_steps (todo before : list Elem) (w : World) :
  centerBody (dom w) = before ++ todo →
  NoDup (node <$> before ++ todo) →
  Forall (λ e, btn_open e = el_read e) todo →
  let w' := foldl (λ w e, run_later (LaterMarkRead (node e)) w) w todo in
  centerBody (dom w')
  = before ++ ((λ e, {| node := node e; shown := shown e;
                        btn_open := true; el_read := true |}) <$> todo)
  ∧ requests (env w')
    = requests (env w)
        ++ ((λ e, PostMarkRead (IdStr (attr e))) <$> filter (λ e, el_read e = false) todo)
  ∧ statsUnread (dom w')
    = Nat.iter (length (filter (λ e, el_read e = false) todo))
        (λ u, Z.max 0 (u - 1)) (statsUnread (dom w))
  ∧ statsTotal (dom w') = statsTotal (dom w)
  ∧ storage w' = storage w.
Proof.
  revert before w. induction todo as [|e todo IH]; intros before w Hb Hnodup Hflags; cbv zeta.
  { simpl. rewrite !app_nil_r in *. done. }
  apply Forall_cons in Hflags as (He & Hflags).
  destruct (list_find_unique (node e) before todo e eq_refl Hnodup) as (Hfind & Hset).
  cbn [foldl].
  set (marked := {| node := node e; shown := shown e; btn_open := true; el_read := true |}).
  assert (Hstep : ∃ w1, run_later (LaterMarkRead (node e)) w = w1
            ∧ centerBody (dom w1) = (before ++ [marked]) ++ todo
            ∧ requests (env w1)
              = requests (env w)
                  ++ (if el_read e then [] else [PostMarkRead (IdStr (attr e))])
            ∧ statsUnread (dom w1)
              = (if el_read e then statsUnread (dom w)
                 else Z.max 0 (statsUnread (dom w) - 1))
            ∧ statsTotal (dom w1) = statsTotal (dom w)
            ∧ storage w1 = storage w).
  { eexists. split; [reflexivity|].
    unfold run_later, find_elem. rewrite Hb, Hfind. cbn [snd].
    destruct (el_read e) eqn:Hr; cbn [negb].
    - rewrite Hb, app_nil_r. split_and!; try done.
      rewrite <- app_assoc. cbn [app]. do 2 f_equal.
      subst marked. destruct e as [nd sh bo er]. simpl in *. by subst.
    - destruct (markRead_click_effects (IdStr (attr e)) (node e) w)
        as (_ & -> & _ & -> & -> & -> & -> & _).
      rewrite Hb, Hset, <- app_assoc. done. }
  destruct Hstep as (w1 & -> & Hb1 & Hr1 & Hu1 & Ht1 & Hs1).
  assert (Hnodup1 : NoDup (node <$> (before ++ [marked]) ++ todo)).
  { rewrite <- app_assoc. cbn [app].
    rewrite fmap_app, fmap_cons in Hnodup |- *. done. }
  destruct (IH (before ++ [marked]) w1 Hb1 Hnodup1 Hflags) as (Hb2 & Hr2 & Hu2 & Ht2 & Hs2).
  rewrite Hb2, Hr2, Hu2, Ht2, Hs2, Hr1, Hu1, Ht1, Hs1.
  rewrite filter_cons.
  split_and!; try done.
  - rewrite <- app_assoc. done.
  - destruct (el_read e) eqn:Hr.
    + rewrite decide_False by done. by rewrite app_nil_r.
    + rewrite decide_True by done. by rewrite <- app_assoc.
  - destruct (el_read e) eqn:Hr.
    + by rewrite decide_False by done.
    + rewrite decide_True by done. cbn [length].
      by rewrite Nat.iter_succ_r.
Qed.

Lemma iter_decrement (k : nat) (u : Z) :
  Nat.iter k (λ u, Z.max 0 (u - 1)) u
  = if bool_decide (k = 0) then u else Z.max 0 (u - Z.of_nat k).
Proof.
  induction k as [|k IH]; [done|].
  rewrite Nat.iter_succ, IH. case_bool_decide as Hk.
  - subst k. rewrite bool_decide_eq_false_2 by done. lia.
  - rewrite bool_decide_eq_false_2 by done. lia.
Qed.

(** X21. Once every timeout of [markAllRead] has run, on an inbox
    whose elements are distinct and carry their two read classes
    together: every entry is marked read, one mark-read request has
    gone out per entry that was unread, in document order, and none for
    the others, the unread counter is lowered by their number, the total
    and the storages are untouched.  If the counters agreed with the
    inbox before, they still do, the unread counter is 0 and the
    reminder has nothing to play. *)
Theorem markAllRead_marks_every_entry (w : World) :
  NoDup (node <$> centerBody (dom w)) →
  flags_agree w →
  let unread := filter (λ e, el_read e = false) (centerBody (dom w)) in
  let w' := run_schedule (markAllRead w) w in
  centerBody (dom w')
  = (λ e, {| node := node e; shown := shown e; btn_open := true; el_read := true |})
      <$> centerBody (dom w)
  ∧ requests (env w')
    = requests (env w) ++ ((λ e, PostMarkRead (IdStr (attr e))) <$> unread)
  ∧ statsUnread (dom w')
    = (if bool_decide (length unread = 0) then statsUnread (dom w)
       else Z.max 0 (statsUnread (dom w) - Z.of_nat (length unread)))
  ∧ statsTotal (dom w') = statsTotal (dom w)
  ∧ storage w' = storage w
  ∧ (counters_agree w →
     counters_agree w' ∧ statsUnread (dom w') = 0%Z ∧ playReminderSound w' = (w', [])).
Proof.
  intros Hnodup Hflags unread w'. subst unread w'.
  rewrite run_schedule_markAllRead.
  destruct (markAllRead_steps (centerBody (dom w)) [] w eq_refl Hnodup Hflags)
    as (Hb & Hr & Hu & Ht & Hs).
  cbn [app] in Hb.
  set (w' := foldl _ w (centerBody (dom w))) in *. clearbody w'.
  rewrite iter_decrement in Hu.
  split_and!; try done.
  intros (Htotal & Hunread).
  assert (Hsame : filter (λ e, el_read e = false) (centerBody (dom w))
                  = unread_entries (centerBody (dom w))).
  { unfold unread_entries. apply filter_ext_in. intros e Hin.
    unfold flags_agree in Hflags. rewrite Forall_forall in Hflags.
    by rewrite (Hflags e Hin). }
  assert (Hzero : statsUnread (dom w') = 0%Z).
  { apply (f_equal length) in Hsame. rewrite Hu, Hunread. case_bool_decide; lia. }
  split_and!; [|done|].
  - unfold counters_agree.
    rewrite Hzero, Ht, Htotal, Hb, length_fmap. split; [done|].
    unfold unread_entries. rewrite filter_none; [done|].
    intros e Hin. apply list_elem_of_fmap in Hin as (e0 & -> & _). done.
  - unfold playReminderSound. rewrite Hzero. done.
Qed.

Lemma markAllRead_marks_every_entry_witness :
  NoDup (node <$> centerBody (dom two_entries))
  ∧ flags_agree two_entries
  ∧ requests (env (run_schedule (markAllRead two_entries) two_entries))
    = requests (env two_entries)
        ++ ((λ e, PostMarkRead (IdStr (attr e)))
              <$> filter (λ e, el_read e = false) (centerBody (dom two_entries)))
  ∧ statsTotal (dom (run_schedule (markAllRead two_entries) two_entries))
    = statsTotal (dom two_entries).
Proof.
  assert (H1 : NoDup (node <$> centerBody (dom two_entries)))
    by (apply (bool_decide_unpack _); vm_compute; exact I).
  assert (H2 : flags_agree two_entries)
    by (apply (bool_decide_unpack _); vm_compute; exact I).
  destruct (markAllRead_marks_every_entry two_entries H1 H2) as (_ & Hr & _ & Ht & _).
  split_and!; [exact H1|exact H2|exact Hr|exact Ht].
Defined.

Lemma dismiss_click_effects (target : nat) (s : SockState) (j : nat) (e : Elem) (w : World) :
  socket (this w) = Some s →
  list_find (λ e, node e = target) (centerBody (dom w)) = Some (j, e) →
  let w' := (body_click (DismissButton target) w).1 in
  socket (this w') = Some s
  ∧ dom w' = dom w
  ∧ requests (env w') = requests (env w) ++ [PostDismiss (IdStr (attr e))]
  ∧ timers (env w') = filter (λ t, negb (is_footer_of target t)) (timers (env w)).
Proof.
  intros Hs Hfind. cbv zeta.
  unfold body_click, on_body_click, clear_footer_interval. rewrite Hs, Hfind.
  cbn [fst]. unfold playDismissSound.
  destruct (play_frame dismiss
              (dismissNotification (IdStr (attr e)) target
                 (set_timers (filter (λ t, negb (is_footer_of target t)) (timers (env w))) w)))
    as (-> & -> & _ & -> & -> & _).
  done.
Qed.

(** X22. The dismiss button has no guard like the mark-read button's:
    two clicks before the first response send two requests, and when
    both responses have arrived one entry has left the inbox while the
    total has gone down by two, and the unread counter too when the
    entry was unread. *)
Theorem dismiss_clicked_twice (target : nat) (e : Elem) (s : SockState)
    (status1 status2 : Z) (message1 message2 : string) (w : World) :
  socket (this w) = Some s →
  NoDup (node <$> centerBody (dom w)) →
  e ∈ centerBody (dom w) →
  node e = target →
  let clicked :=
    (body_click (DismissButton target) (body_click (DismissButton target) w).1).1 in
  let answered :=
    exec (dismissNotification_response (IdStr (attr e)) target (PostJson status2 message2))
      (exec (dismissNotification_response (IdStr (attr e)) target
               (PostJson status1 message1)) clicked) in
  requests (env clicked)
  = requests (env w) ++ [PostDismiss (IdStr (attr e)); PostDismiss (IdStr (attr e))]
  ∧ length (centerBody (dom answered)) + 1 = length (centerBody (dom w))
  ∧ statsTotal (dom answered) = Z.max 0 (Z.max 0 (statsTotal (dom w) - 1) - 1)
  ∧ statsUnread (dom answered)
    = (if el_read e then statsUnread (dom w)
       else Z.max 0 (Z.max 0 (statsUnread (dom w) - 1) - 1)).
Proof.
  intros Hs Hnodup Hin He clicked answered. subst clicked answered.
  apply list_elem_of_split in Hin as (before & after & Hb).
  rewrite Hb in Hnodup.
  destruct (list_find_unique target before after e He Hnodup) as (Hfind & _).
  rewrite <- Hb in Hfind.
  destruct (dismiss_click_effects target s _ e w Hs Hfind) as (Hs1 & Hd1 & Hr1 & _).
  set (w1 := (body_click (DismissButton target) w).1) in *. clearbody w1.
  assert (Hfind1 : list_find (λ e, node e = target) (centerBody (dom w1))
                   = Some (length before, e)) by (by rewrite Hd1).
  destruct (dismiss_click_effects target s _ e w1 Hs1 Hfind1) as (Hs2 & Hd2 & Hr2 & _).
  set (w2 := (body_click (DismissButton target) w1).1) in *. clearbody w2.
  assert (He2 : find_elem target w2 = Some e).
  { unfold find_elem. by rewrite Hd2, Hd1, Hfind. }
  destruct (dismissNotification_response_effects (IdStr (attr e)) target status1 message1
              s e w2 Hs2 He2) as (Ht3 & Hu3 & Hb3 & Hx3 & Hs3).
  set (w3 := exec _ w2) in *. clearbody w3.
  assert (Hgone : filter (λ e', node e' ≠ target) (centerBody (dom w)) = before ++ after
                  ∧ filter (λ e', node e' = target) (centerBody (dom w)) = [e]).
  { rewrite Hb. rewrite fmap_app, fmap_cons, NoDup_app, NoDup_cons in Hnodup.
    destruct Hnodup as (_ & Hbefore & Hafter & _).
    assert (Hb' : Forall (λ e', node e' ≠ target) before).
    { apply Forall_forall. intros e' Hin' Heq. apply (Hbefore (node e')).
      - by apply list_elem_of_fmap_2.
      - rewrite Heq, <- He. apply elem_of_cons. by left. }
    assert (Ha' : Forall (λ e', node e' ≠ target) after).
    { apply Forall_forall. intros e' Hin' Heq. apply Hafter.
      rewrite He, <- Heq. by apply list_elem_of_fmap_2. }
    rewrite !filter_app, !filter_cons.
    rewrite decide_False by (intros H; by apply H).
    rewrite decide_True by done.
    rewrite (filter_all _ before Hb'), (filter_all _ after Ha').
    rewrite (filter_none _ before), (filter_none _ after); [done|..].
    - intros x Hx Hx'. rewrite Forall_forall in Ha'. by apply (Ha' x Hx).
    - intros x Hx Hx'. rewrite Forall_forall in Hb'. by apply (Hb' x Hx). }
  destruct Hgone as (Hrest & Hself).
  rewrite Hd2, Hd1 in Ht3, Hu3, Hb3, Hx3. rewrite Hrest in Hb3. rewrite Hself in Hx3.
  assert (He3 : find_elem target w3 = Some e).
  { unfold find_elem. rewrite Hb3, Hx3.
    assert (list_find (λ e0, node e0 = target) (before ++ after) = None) as ->.
    { apply list_find_None. rewrite <- Hrest. apply Forall_forall.
      intros x Hx. by apply list_elem_of_filter in Hx as (? & _). }
    cbn [app list_find]. rewrite decide_True by done. done. }
  destruct (dismissNotification_response_effects (IdStr (attr e)) target status2 message2
              s e w3 Hs3 He3) as (Ht4 & Hu4 & Hb4 & _).
  set (w4 := exec _ w3) in *. clearbody w4.
  split_and!.
  - rewrite Hr2, Hr1, <- app_assoc. done.
  - rewrite Hb4, Hb3, Hb.
    rewrite filter_all; [rewrite !length_app; simpl; lia|].
    rewrite <- Hrest. apply Forall_forall.
    intros x Hx. by apply list_elem_of_filter in Hx as (? & _).
  - by rewrite Ht4, Ht3.
  - rewrite Hu4, Hu3. by destruct (el_read e).
Qed.

Lemma dismiss_clicked_twice_witness :
  socket (this one_unread) = Some SockConnected
  ∧ NoDup (node <$> centerBody (dom one_unread))
  ∧ (first_entry ∈ centerBody (dom one_unread))
  ∧ node first_entry = 0
  ∧ length
      (centerBody
         (dom (exec (dismissNotification_response (IdStr (attr first_entry)) 0
                       (PostJson 200 "second"))
                 (exec (dismissNotification_response (IdStr (attr first_entry)) 0
                          (PostJson 200 "first"))
                    (body_click (DismissButton 0)
                       (body_click (DismissButton 0) one_unread).1).1)))) + 1
    = length (centerBody (dom one_unread))
  ∧ statsTotal
      (dom (exec (dismissNotification_response (IdStr (attr first_entry)) 0
                    (PostJson 200 "second"))
              (exec (dismissNotification_response (IdStr (attr first_entry)) 0
                       (PostJson 200 "first"))
                 (body_click (DismissButton 0)
                    (body_click (DismissButton 0) one_unread).1).1)))
    = Z.max 0 (Z.max 0 (statsTotal (dom one_unread) - 1) - 1).
Proof.
  assert (H1 : socket (this one_unread) = Some SockConnected) by (vm_compute; reflexivity).
  assert (H2 : NoDup (node <$> centerBody (dom one_unread)))
    by (apply (bool_decide_unpack _); vm_compute; exact I).
  assert (H3 : first_entry ∈ centerBody (dom one_unread)).
  { replace (centerBody (dom one_unread)) with [first_entry] by (vm_compute; reflexivity).
    apply elem_of_cons. by left. }
  assert (H4 : node first_entry = 0) by reflexivity.
  destruct (dismiss_clicked_twice 0 first_entry SockConnected 200 200 "first" "second"
              one_unread H1 H2 H3 H4) as (_ & Hlen & Htotal & _).
  split_and!; [exact H1|exact H2|exact H3|exact H4|exact Hlen|exact Htotal].
Defined.

Lemma timer_delay_nonneg (ms : Z) : (0 ≤ timer_delay ms)%Z.
Proof. unfold timer_delay. lia. Qed.

Lemma toast_fires_show (toast : nat) (w : World) (l : ToastLife) (id : nat) (due : Z) :
  earliest (pending l) = Some (id, (due, ShowStep)) →
  ∃ w', toast_step toast TimeoutFires (w, l)
        = Some (w', {| toastTimeout := Some (nextTimer (env w));
                       startTime := startTime l;
                       remainingTime := remainingTime l;
                       pending := filter (λ p, p.1 ≠ id) (pending l)
                                    ++ [(nextTimer (env w),
                                         ((Z.max (now (env w)) due
                                           + timer_delay (remainingTime l))%Z,
                                          FadeStep false))];
                       uncaught := uncaught l |})
        ∧ toaster (dom w') = toaster (dom w)
        ∧ now (env w') = Z.max (now (env w)) due
        ∧ nextTimer (env w') = S (nextTimer (env w))
        ∧ socket (this w') = socket (this w).
Proof.
  intros He. unfold toast_step. cbn [snd fst]. rewrite He.
  cbn [fire_toast_timeout fst snd remainingTime]. unfold setTimeout. cbn [fst snd].
  unfold playWhooshSound, play.
  change (audioAlert (config (this (set_now (Z.max (now (env w)) due) w))))
    with (audioAlert (config (this w))).
  destruct (audioAlert (config (this w))); (eexists; split; [reflexivity|done]).
Qed.

Lemma toast_fires_fade (toast : nat) (w : World) (l : ToastLife) (id : nat) (due : Z)
    (resumed : bool) :
  earliest (pending l) = Some (id, (due, FadeStep resumed)) →
  ∃ w', toast_step toast TimeoutFires (w, l)
        = Some (w', {| toastTimeout := toastTimeout l;
                       startTime := startTime l;
                       remainingTime := remainingTime l;
                       pending := filter (λ p, p.1 ≠ id) (pending l)
                                    ++ [(nextTimer (env w),
                                         ((Z.max (now (env w)) due + 300)%Z,
                                          RemoveStep resumed))];
                       uncaught := uncaught l |})
        ∧ toaster (dom w') = toaster (dom w)
        ∧ now (env w') = Z.max (now (env w)) due
        ∧ nextTimer (env w') = S (nextTimer (env w))
        ∧ socket (this w') = socket (this w).
Proof.
  intros He. unfold toast_step. cbn [snd fst]. rewrite He.
  cbn [fire_toast_timeout fst snd]. unfold setTimeout. cbn [fst snd].
  eexists. split; [reflexivity|]. done.
Qed.

Lemma toast_fires_remove (toast : nat) (w : World) (l : ToastLife) (id : nat) (due : Z)
    (resumed : bool) :
  earliest (pending l) = Some (id, (due, RemoveStep resumed)) →
  ∃ w', toast_step toast TimeoutFires (w, l)
        = Some (w', {| toastTimeout := toastTimeout l;
                       startTime := startTime l;
                       remainingTime := remainingTime l;
                       pending := filter (λ p, p.1 ≠ id) (pending l);
                       uncaught :=
                         uncaught l
                           ++ (if in_toaster toast w then []
                               else [Error "NotFoundError: the node is not a child of this node"]) |})
        ∧ toaster (dom w') = filter (λ t, t_node t ≠ toast) (toaster (dom w))
        ∧ now (env w') = Z.max (now (env w)) due
        ∧ nextTimer (env w') = nextTimer (env w)
        ∧ socket (this w') = socket (this w).
Proof.
  intros He. unfold toast_step. cbn [snd fst]. rewrite He.
  cbn [fire_toast_timeout fst snd]. unfold toast_expired, in_toaster.
  change (toaster (dom (set_now (Z.max (now (env w)) due) w))) with (toaster (dom w)).
  destruct (bool_decide (Exists (λ t, t_node t = toast) (toaster (dom w)))) eqn:Hin.
  - eexists. split; [by rewrite app_nil_r|]. done.
  - eexists. split; [reflexivity|]. split_and!; try done.
    cbn [dom set_now with_env toaster]. symmetry. apply filter_all.
    apply bool_decide_eq_false in Hin. apply Forall_forall. intros t Ht Heq.
    apply Hin, Exists_exists. by exists t.
Qed.

Lemma toast_fires_dismiss (toast : nat) (w : World) (l : ToastLife) (id : nat) (due : Z) :
  earliest (pending l) = Some (id, (due, DismissStep)) →
  ∃ w', toast_step toast TimeoutFires (w, l)
        = Some (w', {| toastTimeout := toastTimeout l;
                       startTime := startTime l;
                       remainingTime := remainingTime l;
                       pending := filter (λ p, p.1 ≠ id) (pending l);
                       uncaught := uncaught l |})
        ∧ toaster (dom w') = filter (λ t, t_node t ≠ toast) (toaster (dom w))
        ∧ now (env w') = Z.max (now (env w)) due
        ∧ nextTimer (env w') = nextTimer (env w)
        ∧ socket (this w') = socket (this w).
Proof.
  intros He. unfold toast_step. cbn [snd fst]. rewrite He.
  cbn [fire_toast_timeout fst snd run_later].
  eexists. split; [reflexivity|]. done.
Qed.

Lemma toast_mouse_enters (toast : nat) (w : World) (l : ToastLife) (time : Z) :
  (now (env w) ≤ time)%Z →
  Forall (λ p, (time ≤ p.2.1)%Z) (pending l) →
  in_toaster toast w = true →
  ∃ w', toast_step toast (MouseEnter time) (w, l)
        = Some (w', {| toastTimeout := toastTimeout l;
                       startTime := startTime l;
                       remainingTime := (remainingTime l - (time - startTime l))%Z;
                       pending := filter (λ p, Some p.1 ≠ toastTimeout l) (pending l);
                       uncaught := uncaught l |})
        ∧ toaster (dom w') = toaster (dom w)
        ∧ now (env w') = time
        ∧ nextTimer (env w') = nextTimer (env w)
        ∧ socket (this w') = socket (this w).
Proof.
  intros Hnow Hdue Hin. unfold toast_step, at_time. cbn [fst snd].
  rewrite bool_decide_eq_true_2 by done.
  change (in_toaster toast (set_now time w)) with (in_toaster toast w). rewrite Hin.
  eexists. split; [reflexivity|]. done.
Qed.

Lemma toast_mouse_leaves (toast : nat) (w : World) (l : ToastLife) (time : Z) :
  (now (env w) ≤ time)%Z →
  Forall (λ p, (time ≤ p.2.1)%Z) (pending l) →
  in_toaster toast w = true →
  ∃ w', toast_step toast (MouseLeave time) (w, l)
        = Some (w', {| toastTimeout := Some (nextTimer (env w));
                       startTime := time;
                       remainingTime := remainingTime l;
                       pending := pending l
                                    ++ [(nextTimer (env w),
                                         ((time + timer_delay (remainingTime l))%Z,
                                          FadeStep true))];
                       uncaught := uncaught l |})
        ∧ toaster (dom w') = toaster (dom w)
        ∧ now (env w') = time
        ∧ nextTimer (env w') = S (nextTimer (env w))
        ∧ socket (this w') = socket (this w).
Proof.
  intros Hnow Hdue Hin. unfold toast_step, at_time. cbn [fst snd].
  rewrite bool_decide_eq_true_2 by done.
  change (in_toaster toast (set_now time w)) with (in_toaster toast w). rewrite Hin.
  eexists. split; [reflexivity|]. done.
Qed.

Lemma toast_dismiss_clicked (toast : nat) (s : SockState) (w : World) (l : ToastLife)
    (time : Z) :
  (now (env w) ≤ time)%Z →
  Forall (λ p, (time ≤ p.2.1)%Z) (pending l) →
  in_toaster toast w = true →
  socket (this w) = Some s →
  ∃ w', toast_step toast (ClickDismiss time) (w, l)
        = Some (w', {| toastTimeout := toastTimeout l;
                       startTime := startTime l;
                       remainingTime := remainingTime l;
                       pending := pending l
                                    ++ [(nextTimer (env w),
                                         ((time + 300)%Z, DismissStep))];
                       uncaught := uncaught l |})
        ∧ toaster (dom w') = toaster (dom w)
        ∧ now (env w') = time
        ∧ nextTimer (env w') = S (nextTimer (env w))
        ∧ socket (this w') = socket (this w).
Proof.
  intros Hnow Hdue Hin Hs. unfold toast_step, at_time. cbn [fst snd].
  rewrite bool_decide_eq_true_2 by done.
  unfold body_click, on_body_click, dismissToast.
  change (socket (this (set_now time w))) with (socket (this w)). rewrite Hs.
  change (bool_decide (Exists (λ t, t_node t = toast) (toaster (dom (set_now time w)))))
    with (in_toaster toast w).
  rewrite Hin. unfold setTimeout. cbn [fst snd].
  eexists. split; [reflexivity|]. done.
Qed.

Lemma showToast_toast (n : Notification) (w : World) :
  toaster (dom (showToast n w))
  = {| t_node := nextNode (env w); t_shown := n |} :: toaster (dom w)
  ∧ now (env (showToast n w)) = now (env w)
  ∧ nextTimer (env (showToast n w)) = S (nextTimer (env w))
  ∧ socket (this (showToast n w)) = socket (this w).
Proof. done. Qed.

Lemma in_toaster_shown (toast : nat) (t : Toast) (w : World) (rest : list Toast) :
  toaster (dom w) = t :: rest → t_node t = toast → in_toaster toast w = true.
Proof.
  intros Ht Hn. unfold in_toaster. rewrite Ht.
  apply bool_decide_eq_true_2. by apply Exists_cons_hd.
Qed.

Lemma in_toaster_removed (toast : nat) (w : World) (l : list Toast) :
  toaster (dom w) = filter (λ t, t_node t ≠ toast) l → in_toaster toast w = false.
Proof.
  intros Ht. unfold in_toaster. rewrite Ht.
  apply bool_decide_eq_false_2. rewrite Exists_exists. intros (t & Hin & Heq).
  by apply list_elem_of_filter in Hin as (? & _).
Qed.

Lemma filter_shown (toast : nat) (t : Toast) (rest : list Toast) :
  t_node t = toast →
  filter (λ t, t_node t ≠ toast) (t :: rest) = filter (λ t, t_node t ≠ toast) rest.
Proof. intros Ht. rewrite filter_cons, decide_False; [done|]. intros H. by apply H. Qed.

Lemma toast_left_alone (n : Notification) (w : World) :
  toast_ends n w [TimeoutFires; TimeoutFires; TimeoutFires] [].
Proof.
  unfold toast_ends, toast_shown.
  destruct (showToast_toast n w) as (Ht0 & Hn0 & Hk0 & Hs0).
  set (w0 := showToast n w) in *. clearbody w0.
  set (toast := nextNode (env w)) in *.
  set (k := nextTimer (env w)) in *. set (t0 := now (env w)) in *.
  set (d := toast_duration w) in *.
  cbn [toast_run].
  edestruct (toast_fires_show toast w0) as (w1 & -> & Ht1 & Hn1 & Hk1 & Hs1);
    [reflexivity|].
  pending_simpl. rewrite Hk0, Hn0 in *. cbn [mbind option_bind].
  edestruct (toast_fires_fade toast w1) as (w2 & -> & Ht2 & Hn2 & Hk2 & Hs2);
    [reflexivity|].
  pending_simpl. rewrite Hk1, Hn1 in *. cbn [mbind option_bind].
  edestruct (toast_fires_remove toast w2) as (w3 & -> & Ht3 & Hn3 & Hk3 & Hs3);
    [reflexivity|].
  pending_simpl. cbn [mbind option_bind].
  eexists. split; [reflexivity|]. cbn [fst snd pending uncaught].
  rewrite Ht3, Ht2, Ht1, Ht0.
  rewrite (in_toaster_shown toast _ w2 _ (eq_trans Ht2 (eq_trans Ht1 Ht0)) eq_refl).
  split_and!; [by apply filter_shown|done|done].
Qed.

Lemma toast_dismissed_under_pointer (n : Notification) (s : SockState) (w : World)
    (enter click : Z) :
  socket (this w) = Some s →
  (now (env w) + 10 ≤ enter ≤ now (env w) + 10 + timer_delay (toast_duration w))%Z →
  (enter ≤ click)%Z →
  toast_ends n w [TimeoutFires; MouseEnter enter; ClickDismiss click; TimeoutFires] [].
Proof.
  intros Hs He Hc. unfold toast_ends, toast_shown.
  destruct (showToast_toast n w) as (Ht0 & Hn0 & Hk0 & Hs0).
  set (w0 := showToast n w) in *. clearbody w0.
  set (toast := nextNode (env w)) in *.
  set (k := nextTimer (env w)) in *. set (t0 := now (env w)) in *.
  set (d := toast_duration w) in *.
  pose proof (timer_delay_nonneg d) as Hd.
  cbn [toast_run].
  edestruct (toast_fires_show toast w0) as (w1 & -> & Ht1 & Hn1 & Hk1 & Hs1);
    [reflexivity|].
  pending_simpl. rewrite Hk0, Hn0 in *. cbn [mbind option_bind].
  rewrite Ht0 in Ht1. rewrite Hs0 in Hs1.
  edestruct (toast_mouse_enters toast w1) as (w2 & -> & Ht2 & Hn2 & Hk2 & Hs2);
    [rewrite Hn1; lia|all_due|by eapply in_toaster_shown|].
  pending_simpl. rewrite Hk1 in *. cbn [mbind option_bind].
  rewrite Ht1 in Ht2. rewrite Hs1 in Hs2.
  edestruct (toast_dismiss_clicked toast s w2) as (w3 & -> & Ht3 & Hn3 & Hk3 & Hs3);
    [rewrite Hn2; lia|all_due|by eapply in_toaster_shown|by rewrite Hs2|].
  pending_simpl. rewrite Hk2 in *. cbn [mbind option_bind].
  rewrite Ht2 in Ht3.
  edestruct (toast_fires_dismiss toast w3) as (w4 & -> & Ht4 & Hn4 & Hk4 & Hs4);
    [reflexivity|].
  pending_simpl. cbn [mbind option_bind].
  eexists. split; [reflexivity|]. cbn [fst snd pending uncaught].
  rewrite Ht4, Ht3.
  split_and!; [by apply filter_shown|done|done].
Qed.

Lemma toast_pointer_leaves_after_click (n : Notification) (s : SockState) (w : World)
    (enter click leave : Z) :
  socket (this w) = Some s →
  (now (env w) + 10 ≤ enter ≤ now (env w) + 10 + timer_delay (toast_duration w))%Z →
  (enter ≤ click ≤ leave)%Z →
  (leave ≤ click + 300)%Z →
  toast_ends n w
    [TimeoutFires; MouseEnter enter; ClickDismiss click; MouseLeave leave;
     TimeoutFires; TimeoutFires; TimeoutFires]
    [Error "NotFoundError: the node is not a child of this node"].
Proof.
  intros Hs He Hc Hl. unfold toast_ends, toast_shown.
  destruct (showToast_toast n w) as (Ht0 & Hn0 & Hk0 & Hs0).
  set (w0 := showToast n w) in *. clearbody w0.
  set (toast := nextNode (env w)) in *.
  set (k := nextTimer (env w)) in *. set (t0 := now (env w)) in *.
  set (d := toast_duration w) in *.
  pose proof (timer_delay_nonneg d) as Hd.
  cbn [toast_run].
  edestruct (toast_fires_show toast w0) as (w1 & -> & Ht1 & Hn1 & Hk1 & Hs1);
    [reflexivity|].
  pending_simpl. rewrite Hk0, Hn0 in *. cbn [mbind option_bind].
  rewrite Ht0 in Ht1. rewrite Hs0 in Hs1.
  edestruct (toast_mouse_enters toast w1) as (w2 & -> & Ht2 & Hn2 & Hk2 & Hs2);
    [rewrite Hn1; lia|all_due|by eapply in_toaster_shown|].
  pending_simpl. rewrite Hk1 in *. cbn [mbind option_bind].
  rewrite Ht1 in Ht2. rewrite Hs1 in Hs2.
  edestruct (toast_dismiss_clicked toast s w2) as (w3 & -> & Ht3 & Hn3 & Hk3 & Hs3);
    [rewrite Hn2; lia|all_due|by eapply in_toaster_shown|by rewrite Hs2|].
  pending_simpl. rewrite Hk2 in *. cbn [mbind option_bind].
  rewrite Ht2 in Ht3.
  edestruct (toast_mouse_leaves toast w3) as (w4 & -> & Ht4 & Hn4 & Hk4 & Hs4);
    [rewrite Hn3; lia|all_due|by eapply in_toaster_shown|].
  pending_simpl. rewrite Hk3 in *. cbn [mbind option_bind].
  rewrite Ht3 in Ht4.
  set (r := (d - (enter - t0))%Z) in *.
  pose proof (timer_delay_nonneg r) as Hr.
  destruct (decide (click + 300 ≤ leave + timer_delay r)%Z) as [Hfirst|Hfirst].
  - edestruct (toast_fires_dismiss toast w4) as (w5 & -> & Ht5 & Hn5 & Hk5 & Hs5);
      [earliest_by_order|].
    pending_simpl. rewrite Hk4 in *. cbn [mbind option_bind].
    rewrite Ht4, filter_shown in Ht5 by done.
    edestruct (toast_fires_fade toast w5) as (w6 & -> & Ht6 & Hn6 & Hk6 & Hs6);
      [reflexivity|].
    pending_simpl. cbn [mbind option_bind].
    rewrite Ht5 in Ht6.
    edestruct (toast_fires_remove toast w6) as (w7 & -> & Ht7 & Hn7 & Hk7 & Hs7);
      [reflexivity|].
    pending_simpl. cbn [mbind option_bind].
    eexists. split; [reflexivity|]. cbn [fst snd pending uncaught].
    rewrite (in_toaster_removed toast w6 _ Ht6).
    rewrite Ht7, Ht6. split_and!; [|done|done].
    apply filter_all, Forall_forall. intros t Hin.
    by apply list_elem_of_filter in Hin as (? & _).
  - edestruct (toast_fires_fade toast w4) as (w5 & -> & Ht5 & Hn5 & Hk5 & Hs5);
      [earliest_by_order|].
    pending_simpl. rewrite Hk4, Hn4 in *. cbn [mbind option_bind].
    rewrite Ht4 in Ht5.
    edestruct (toast_fires_dismiss toast w5) as (w6 & -> & Ht6 & Hn6 & Hk6 & Hs6);
      [earliest_by_order|].
    pending_simpl. cbn [mbind option_bind].
    rewrite Ht5, filter_shown in Ht6 by done.
    edestruct (toast_fires_remove toast w6) as (w7 & -> & Ht7 & Hn7 & Hk7 & Hs7);
      [reflexivity|].
    pending_simpl. cbn [mbind option_bind].
    eexists. split; [reflexivity|]. cbn [fst snd pending uncaught].
    rewrite (in_toaster_removed toast w6 _ Ht6).
    rewrite Ht7, Ht6. split_and!; [|done|done].
    apply filter_all, Forall_forall. intros t Hin.
    by apply list_elem_of_filter in Hin as (? & _).
Qed.

Lemma toast_clicked_without_pointer (n : Notification) (s : SockState) (w : World)
    (click : Z) :
  socket (this w) = Some s →
  (now (env w) + 10 ≤ click ≤ now (env w) + 10 + timer_delay (toast_duration w))%Z →
  toast_ends n w
    [TimeoutFires; ClickDismiss click; TimeoutFires; TimeoutFires; TimeoutFires]
    [Error "NotFoundError: the node is not a child of this node"].
Proof.
  intros Hs Hc. unfold toast_ends, toast_shown.
  destruct (showToast_toast n w) as (Ht0 & Hn0 & Hk0 & Hs0).
  set (w0 := showToast n w) in *. clearbody w0.
  set (toast := nextNode (env w)) in *.
  set (k := nextTimer (env w)) in *. set (t0 := now (env w)) in *.
  set (d := toast_duration w) in *.
  pose proof (timer_delay_nonneg d) as Hd.
  cbn [toast_run].
  edestruct (toast_fires_show toast w0) as (w1 & -> & Ht1 & Hn1 & Hk1 & Hs1);
    [reflexivity|].
  pending_simpl. rewrite Hk0, Hn0 in *. cbn [mbind option_bind].
  rewrite Ht0 in Ht1. rewrite Hs0 in Hs1.
  edestruct (toast_dismiss_clicked toast s w1) as (w2 & -> & Ht2 & Hn2 & Hk2 & Hs2);
    [rewrite Hn1; lia|all_due|by eapply in_toaster_shown|by rewrite Hs1|].
  pending_simpl. rewrite Hk1 in *. cbn [mbind option_bind].
  rewrite Ht1 in Ht2.
  destruct (decide (Z.max t0 (t0 + 10) + timer_delay d ≤ click + 300)%Z)
    as [Hfirst|Hfirst].
  - edestruct (toast_fires_fade toast w2) as (w3 & -> & Ht3 & Hn3 & Hk3 & Hs3);
      [earliest_by_order|].
    pending_simpl. rewrite Hk2, Hn2 in *. cbn [mbind option_bind].
    rewrite Ht2 in Ht3.
    edestruct (toast_fires_dismiss toast w3) as (w4 & -> & Ht4 & Hn4 & Hk4 & Hs4);
      [earliest_by_order|].
    pending_simpl. cbn [mbind option_bind].
    rewrite Ht3, filter_shown in Ht4 by done.
    edestruct (toast_fires_remove toast w4) as (w5 & -> & Ht5 & Hn5 & Hk5 & Hs5);
      [reflexivity|].
    pending_simpl. cbn [mbind option_bind].
    eexists. split; [reflexivity|]. cbn [fst snd pending uncaught].
    rewrite (in_toaster_removed toast w4 _ Ht4).
    rewrite Ht5, Ht4. split_and!; [|done|done].
    apply filter_all, Forall_forall. intros t Hin.
    by apply list_elem_of_filter in Hin as (? & _).
  - edestruct (toast_fires_dismiss toast w2) as (w3 & -> & Ht3 & Hn3 & Hk3 & Hs3);
      [earliest_by_order|].
    pending_simpl. cbn [mbind option_bind].
    rewrite Ht2, filter_shown in Ht3 by done.
    edestruct (toast_fires_fade toast w3) as (w4 & -> & Ht4 & Hn4 & Hk4 & Hs4);
      [reflexivity|].
    pending_simpl. cbn [mbind option_bind].
    rewrite Ht3 in Ht4.
    edestruct (toast_fires_remove toast w4) as (w5 & -> & Ht5 & Hn5 & Hk5 & Hs5);
      [reflexivity|].
    pending_simpl. cbn [mbind option_bind].
    eexists. split; [reflexivity|]. cbn [fst snd pending uncaught].
    rewrite (in_toaster_removed toast w4 _ Ht4).
    rewrite Ht5, Ht4. split_and!; [|done|done].
    apply filter_all, Forall_forall. intros t Hin.
    by apply list_elem_of_filter in Hin as (? & _).
Qed.

(** X23. The life of a toast, with the listeners [showToast] puts on
    it.  Left alone, the toast is removed 300 ms after its time is up
    and nothing is thrown.  When the pointer enters the toast (which
    clears its timeout), the dismiss button is clicked and the pointer
    stays, [dismissToast] removes the toast 300 ms after the click,
    nothing is left pending and nothing is thrown.  When the pointer
    leaves the toast between the click and that removal, the
    [mouseleave] listener sets the timeout again, and its
    [toaster.removeChild] throws, the toast being no child of the
    toaster any more.  The same happens when the button is clicked with
    no [mouseenter] before it (a click at [enter], say from a script):
    the first timeout was never cleared. *)
Theorem toast_dismissed_early_breaks_expiry (n : Notification) (s : SockState)
    (w : World) (enter click leave : Z) :
  socket (this w) = Some s →
  (now (env w) + 10 ≤ enter ≤ now (env w) + 10 + timer_delay (toast_duration w))%Z →
  (enter ≤ click ≤ leave)%Z →
  (leave ≤ click + 300)%Z →
  let not_found := Error "NotFoundError: the node is not a child of this node" in
  toast_ends n w [TimeoutFires; TimeoutFires; TimeoutFires] []
  ∧ toast_ends n w
      [TimeoutFires; MouseEnter enter; ClickDismiss click; TimeoutFires] []
  ∧ toast_ends n w
      [TimeoutFires; MouseEnter enter; ClickDismiss click; MouseLeave leave;
       TimeoutFires; TimeoutFires; TimeoutFires]
      [not_found]
  ∧ toast_ends n w
      [TimeoutFires; ClickDismiss enter; TimeoutFires; TimeoutFires; TimeoutFires]
      [not_found].
Proof.
  intros Hs He Hc Hl not_found. split_and!.
  - by apply toast_left_alone.
  - by eapply toast_dismissed_under_pointer; [done|done|lia].
  - by eapply toast_pointer_leaves_after_click.
  - by eapply toast_clicked_without_pointer.
Qed.

Lemma toast_dismissed_early_breaks_expiry_witness :
  socket (this one_unread) = Some SockConnected
  ∧ (now (env one_unread) + 10 ≤ 100
     ≤ now (env one_unread) + 10 + timer_delay (toast_duration one_unread))%Z
  ∧ (100 ≤ 200 ≤ 300)%Z
  ∧ (300 ≤ 200 + 300)%Z
  ∧ toast_ends (sample "2" false false) one_unread
      [TimeoutFires; MouseEnter 100; ClickDismiss 200; MouseLeave 300;
       TimeoutFires; TimeoutFires; TimeoutFires]
      [Error "NotFoundError: the node is not a child of this node"].
Proof.
  assert (H1 : socket (this one_unread) = Some SockConnected) by (vm_compute; reflexivity).
  assert (H2 : (now (env one_unread) + 10 ≤ 100
                ≤ now (env one_unread) + 10 + timer_delay (toast_duration one_unread))%Z)
    by (apply (bool_decide_unpack _); vm_compute; exact I).
  assert (H3 : (100 ≤ 200 ≤ 300)%Z) by lia.
  assert (H4 : (300 ≤ 200 + 300)%Z) by lia.
  refine (conj H1 (conj H2 (conj H3 (conj H4 _)))).
  exact (proj1 (proj2 (proj2
           (toast_dismissed_early_breaks_expiry (sample "2" false false) SockConnected
              one_unread 100 200 300 H1 H2 H3 H4)))).
Defined.
